(** * Masarif: expenses and appointments behind a conversational agent

    A shallow embedding of the TypeScript sources of the application
    (the persistence service, the tool bridge, the notification
    scheduler and the session of [App], the chat dispatcher, the
    recorder, the manual form and the audio bubble of [ChatBot], the
    live audio session of [LiveAssistant], the sign-in form of [Auth],
    the list of [Appointments] and the profile of [Dashboard]) together
    with the properties the specification states about them and
    further properties of the code.

    Conventions of the embedding.
    - The program runs on one logical thread; every [async] function is
      a computation in the monad [M], which threads the state of the
      world (local storage, clock, entropy, the remote model service and
      the React state of the components) and may end in a thrown [Error].
    - A computation of [M] runs to its end: an [await] inside it
      records its delay and lets no other handler in. Handlers that
      overlap are runs of their pieces, each piece a computation of its
      own (see [Event]).
    - What the environment decides is part of the world and is
      quantified over: whether the storage accepts a write
      ([ls_faults]), what the model service answers ([chat_script]),
      which identifiers [crypto.randomUUID] returns ([entropy]) and what
      the clock shows.
    - A JavaScript [number] is [NaN] or a rational; an optional property
      of an object is an [option]; the content of the local storage is
      kept parsed.
    - A date string is used by the program only through
      [new Date(s).getTime()]; the model keeps the instant it denotes. *)

From Stdlib Require Import ZArith QArith Qround Lia Lqa Sorted.
From stdpp Require Import base list strings pretty.

Local Open Scope string_scope.
Local Open Scope list_scope.
Local Open Scope Z_scope.

(** ** JavaScript values *)

(** A [number]: [NaN] or a finite value. *)
Inductive number :=
| NaN
| Num (q : Q).

(** Truthiness of a number: [0] and [NaN] are falsy. *)
Definition number_truthy (n : number) : bool :=
  match n with
  | NaN => false
  | Num q => negb (Qeq_bool q 0)
  end.

(** [x || d] on an optional number. *)
Definition number_or (x : option number) (d : number) : number :=
  match x with
  | Some n => if number_truthy n then n else d
  | None => d
  end.

(** [s || d] on an optional string: [undefined] and [''] are falsy. *)
Definition string_or (x : option string) (d : string) : string :=
  match x with
  | Some s => if String.eqb s "" then d else s
  | None => d
  end.

(** Truthiness of a string. *)
Definition string_truthy (s : string) : bool := negb (String.eqb s "").

(** A date string, kept as the value of [new Date(s).getTime()]:
    milliseconds since the epoch, [None] for [NaN] (an Invalid Date;
    also what a missing string gives). *)
Definition DateString := option Z.

(** [new Date(a).getTime() - new Date(b).getTime()]; [None] is [NaN]. *)
Definition getTime_diff (a b : DateString) : option Z :=
  match a, b with
  | Some x, Some y => Some (x - y)
  | _, _ => None
  end.

(** [Array.prototype.sort(cmp)]: stable; [x] moves behind [y] only when
    the comparator is positive ([NaN] counts as [0]). With dates that do
    not parse the comparator is not an order and the engine may return
    another permutation; the properties below use only that the result
    is a permutation of the array, or assume that the dates parse:
    the comparator is then an order and a stable sort has one result. *)
Definition cmp_positive (v : option Z) : bool :=
  match v with
  | Some z => 0 <? z
  | None => false
  end.

Fixpoint sort_insert {A} (cmp : A -> A -> option Z) (x : A) (l : list A) : list A :=
  match l with
  | [] => [x]
  | y :: l' => if cmp_positive (cmp x y) then y :: sort_insert cmp x l' else x :: l
  end.

Definition Array_sort {A} (cmp : A -> A -> option Z) (l : list A) : list A :=
  foldr (sort_insert cmp) [] l.

(** [Array.prototype.findIndex]. *)
Fixpoint findIndex {A} (p : A -> bool) (l : list A) : option nat :=
  match l with
  | [] => None
  | x :: l' => if p x then Some 0%nat else S <$> findIndex p l'
  end.

(** [Array.prototype.find]. *)
Fixpoint find {A} (p : A -> bool) (l : list A) : option A :=
  match l with
  | [] => None
  | x :: l' => if p x then Some x else find p l'
  end.

(** [a === b] where [a] is a string and [b] may be [undefined]. *)
Definition strict_eq (a : string) (b : option string) : bool :=
  match b with
  | Some s => String.eqb a s
  | None => false
  end.

(** An [Error] object, as far as the program reads it. *)
Record Error := { message : string }.

(** ** types.ts *)

Record User := {
  email : string;
  name : string;
  password : option string;
  budget : option number
}.

Record Expense := {
  e_id : string;
  e_userId : string;
  e_amount : option number;
  e_category : option string;
  e_description : option string;
  e_date : DateString;
  e_createdAt : Z
}.

Record Appointment := {
  id : string;
  userId : string;
  title : option string;
  date : DateString;
  status : option string;
  type : string;
  createdAt : Z;
  notified : option bool
}.

(** [!!appt.notified]. *)
Definition is_notified (a : Appointment) : bool :=
  match notified a with
  | Some true => true
  | _ => false
  end.

Definition set_notified (a : Appointment) (b : bool) : Appointment :=
  {| id := id a; userId := userId a; title := title a; date := date a;
     status := status a; type := type a; createdAt := createdAt a;
     notified := Some b |}.

Definition set_status (a : Appointment) (s : option string) : Appointment :=
  {| id := id a; userId := userId a; title := title a; date := date a;
     status := s; type := type a; createdAt := createdAt a;
     notified := notified a |}.

Definition set_budget (u : User) (b : option number) : User :=
  {| email := email u; name := name u; password := password u; budget := b |}.

(** ** The model service, seen from the client *)

(** The arguments of a function call: the properties the tool
    declarations of [expenseTools] give them, each possibly missing. *)
Record Args := {
  a_id : option string;
  a_amount : option number;
  a_category : option string;
  a_description : option string;
  a_date : option DateString;
  a_title : option string;
  a_type : option string;
  a_status : option string;
  a_prefilledDescription : option string
}.

(** The summary of an appointment that [getAppointments] returns. *)
Record ApptSummary := {
  s_id : string;
  s_title : option string;
  s_time : DateString;
  s_status : option string
}.

(** The text of a tool result: a literal, or one of the templates and
    [JSON.stringify] calls of the bridge with the values it prints. *)
Inductive ResultText :=
| Text (s : string)
| BudgetSetTo (amount : option number)
| JsonExpenses (l : list Expense)
| JsonAppointments (l : list ApptSummary)
| AppointmentScheduled (t : option string) (d : DateString)
| AppointmentMarkedAs (s : option string).

(** The object a tool call returns; a missing key is [None]. *)
Record ToolResult := {
  tr_result : option ResultText;
  tr_error : option string;
  tr_expense : option Expense;
  tr_user : option User;
  tr_appointment : option Appointment
}.

(** A function call of a reply, with its args object. The SDK types
    [args] as optional; a call without args is not represented, and
    neither is a call of [executeExpenseTool] with [args] undefined:
    there the first read of a property of [args] raises a [TypeError]
    (returned as an error result by the bridge, thrown while rendering
    by the updater of the form turn). What is proved about function
    calls is proved for calls that carry their args. *)
Record FunctionCall := {
  fc_id : string;
  fc_name : string;
  fc_args : Args
}.

(** The [response] of a [functionResponse] part. *)
Inductive FnResponse :=
| FormShown
| ToolResponse (r : ToolResult).

Inductive Part :=
| InlineData (mimeType data : string)
| TextPart (s : string)
| FunctionResponse (id name : string) (response : FnResponse).

(** The [message] of a [sendMessage] call. *)
Inductive Payload :=
| MessageText (s : string)
| MessageParts (ps : list Part).

(** What the program reads of a reply of the chat. *)
Record GenerateContentResponse := {
  text : option string;
  functionCalls : option (list FunctionCall)
}.

(** ** ChatBot.tsx: a turn of the conversation history *)

Inductive Role := user_role | model_role.

Record Message := {
  role : Role;
  m_text : option string;
  audio : option string;
  duration : option number;
  isForm : bool;
  prefilledDescription : option string;
  expenseData : option Expense;
  appointmentData : option Appointment;
  isError : bool
}.

(** ** The world *)

(** Everything the program reads and writes outside its local variables.
    - [ls_*]: the four keys of [localStorage], parsed; a missing key is
      the fallback of [safeParse].
    - [ls_faults]: what the next calls of [localStorage.setItem] do:
      [Some m] throws an error with message [m] (a full or forbidden
      storage), [None] and an exhausted list succeed.
    - [entropy], [drawn]: the values [crypto.randomUUID()] returns.
    - [clock]: the wall clock, in milliseconds.
    - [timers]: every delay the program has awaited, oldest first.
    - [chat_script]: what the next calls of [chat.sendMessage] do, a
      reply or a failure (an exhausted script fails, as a network that
      is down); [chat_log]: the payloads sent so far, oldest first.
    - [spoken]: the texts handed to speech synthesis.
    - [messages]: the conversation history of [ChatBot].
    - [activeAlert]: the state of [App]; [alert_log]: every appointment
      [setActiveAlert] was called with, oldest first. *)
Record World := {
  ls_users : list User;
  ls_expenses : list Expense;
  ls_appointments : list Appointment;
  ls_current_user : option User;
  ls_faults : list (option string);
  entropy : nat -> string;
  drawn : nat;
  clock : Z;
  timers : list Z;
  chat_script : list (Error + GenerateContentResponse);
  chat_log : list Payload;
  spoken : list string;
  messages : list Message;
  activeAlert : option Appointment;
  alert_log : list Appointment
}.

Definition with_users (v : list User) (w : World) : World :=
  {| ls_users := v; ls_expenses := ls_expenses w;
     ls_appointments := ls_appointments w; ls_current_user := ls_current_user w;
     ls_faults := ls_faults w; entropy := entropy w; drawn := drawn w;
     clock := clock w; timers := timers w; chat_script := chat_script w;
     chat_log := chat_log w; spoken := spoken w; messages := messages w;
     activeAlert := activeAlert w; alert_log := alert_log w |}.

Definition with_expenses (v : list Expense) (w : World) : World :=
  {| ls_users := ls_users w; ls_expenses := v;
     ls_appointments := ls_appointments w; ls_current_user := ls_current_user w;
     ls_faults := ls_faults w; entropy := entropy w; drawn := drawn w;
     clock := clock w; timers := timers w; chat_script := chat_script w;
     chat_log := chat_log w; spoken := spoken w; messages := messages w;
     activeAlert := activeAlert w; alert_log := alert_log w |}.

Definition with_appointments (v : list Appointment) (w : World) : World :=
  {| ls_users := ls_users w; ls_expenses := ls_expenses w;
     ls_appointments := v; ls_current_user := ls_current_user w;
     ls_faults := ls_faults w; entropy := entropy w; drawn := drawn w;
     clock := clock w; timers := timers w; chat_script := chat_script w;
     chat_log := chat_log w; spoken := spoken w; messages := messages w;
     activeAlert := activeAlert w; alert_log := alert_log w |}.

Definition with_current_user (v : option User) (w : World) : World :=
  {| ls_users := ls_users w; ls_expenses := ls_expenses w;
     ls_appointments := ls_appointments w; ls_current_user := v;
     ls_faults := ls_faults w; entropy := entropy w; drawn := drawn w;
     clock := clock w; timers := timers w; chat_script := chat_script w;
     chat_log := chat_log w; spoken := spoken w; messages := messages w;
     activeAlert := activeAlert w; alert_log := alert_log w |}.

Definition with_faults (v : list (option string)) (w : World) : World :=
  {| ls_users := ls_users w; ls_expenses := ls_expenses w;
     ls_appointments := ls_appointments w; ls_current_user := ls_current_user w;
     ls_faults := v; entropy := entropy w; drawn := drawn w;
     clock := clock w; timers := timers w; chat_script := chat_script w;
     chat_log := chat_log w; spoken := spoken w; messages := messages w;
     activeAlert := activeAlert w; alert_log := alert_log w |}.

Definition with_drawn (v : nat) (w : World) : World :=
  {| ls_users := ls_users w; ls_expenses := ls_expenses w;
     ls_appointments := ls_appointments w; ls_current_user := ls_current_user w;
     ls_faults := ls_faults w; entropy := entropy w; drawn := v;
     clock := clock w; timers := timers w; chat_script := chat_script w;
     chat_log := chat_log w; spoken := spoken w; messages := messages w;
     activeAlert := activeAlert w; alert_log := alert_log w |}.

Definition with_clock (v : Z) (w : World) : World :=
  {| ls_users := ls_users w; ls_expenses := ls_expenses w;
     ls_appointments := ls_appointments w; ls_current_user := ls_current_user w;
     ls_faults := ls_faults w; entropy := entropy w; drawn := drawn w;
     clock := v; timers := timers w; chat_script := chat_script w;
     chat_log := chat_log w; spoken := spoken w; messages := messages w;
     activeAlert := activeAlert w; alert_log := alert_log w |}.

Definition with_timers (v : list Z) (w : World) : World :=
  {| ls_users := ls_users w; ls_expenses := ls_expenses w;
     ls_appointments := ls_appointments w; ls_current_user := ls_current_user w;
     ls_faults := ls_faults w; entropy := entropy w; drawn := drawn w;
     clock := clock w; timers := v; chat_script := chat_script w;
     chat_log := chat_log w; spoken := spoken w; messages := messages w;
     activeAlert := activeAlert w; alert_log := alert_log w |}.

Definition with_chat (s : list (Error + GenerateContentResponse))
    (l : list Payload) (w : World) : World :=
  {| ls_users := ls_users w; ls_expenses := ls_expenses w;
     ls_appointments := ls_appointments w; ls_current_user := ls_current_user w;
     ls_faults := ls_faults w; entropy := entropy w; drawn := drawn w;
     clock := clock w; timers := timers w; chat_script := s;
     chat_log := l; spoken := spoken w; messages := messages w;
     activeAlert := activeAlert w; alert_log := alert_log w |}.

Definition with_spoken (v : list string) (w : World) : World :=
  {| ls_users := ls_users w; ls_expenses := ls_expenses w;
     ls_appointments := ls_appointments w; ls_current_user := ls_current_user w;
     ls_faults := ls_faults w; entropy := entropy w; drawn := drawn w;
     clock := clock w; timers := timers w; chat_script := chat_script w;
     chat_log := chat_log w; spoken := v; messages := messages w;
     activeAlert := activeAlert w; alert_log := alert_log w |}.

Definition with_messages (v : list Message) (w : World) : World :=
  {| ls_users := ls_users w; ls_expenses := ls_expenses w;
     ls_appointments := ls_appointments w; ls_current_user := ls_current_user w;
     ls_faults := ls_faults w; entropy := entropy w; drawn := drawn w;
     clock := clock w; timers := timers w; chat_script := chat_script w;
     chat_log := chat_log w; spoken := spoken w; messages := v;
     activeAlert := activeAlert w; alert_log := alert_log w |}.

Definition with_alert (a : option Appointment) (l : list Appointment)
    (w : World) : World :=
  {| ls_users := ls_users w; ls_expenses := ls_expenses w;
     ls_appointments := ls_appointments w; ls_current_user := ls_current_user w;
     ls_faults := ls_faults w; entropy := entropy w; drawn := drawn w;
     clock := clock w; timers := timers w; chat_script := chat_script w;
     chat_log := chat_log w; spoken := spoken w; messages := messages w;
     activeAlert := a; alert_log := l |}.

(** ** The monad of asynchronous computations *)

Inductive Outcome (A : Type) :=
| Return (a : A)
| Throw (e : Error).
Arguments Return {A} a.
Arguments Throw {A} e.

Definition M (A : Type) : Type := World -> Outcome A * World.

Definition ret {A} (a : A) : M A := fun w => (Return a, w).

Definition throw {A} (e : Error) : M A := fun w => (Throw e, w).

Definition bind {A B} (m : M A) (k : A -> M B) : M B :=
  fun w =>
    match m w with
    | (Return a, w') => k a w'
    | (Throw e, w') => (Throw e, w')
    end.

(** [try { m } catch (e) { h e }]. *)
Definition try_catch {A} (m : M A) (h : Error -> M A) : M A :=
  fun w =>
    match m w with
    | (Return a, w') => (Return a, w')
    | (Throw e, w') => h e w'
    end.

Definition gets {A} (f : World -> A) : M A := fun w => (Return (f w), w).

Definition modify (f : World -> World) : M unit := fun w => (Return tt, f w).

Notation "x <- m ;; k" := (bind m (fun x => k))
  (at level 100, m at next level, right associativity).
Notation "m ;;; k" := (bind m (fun _ => k))
  (at level 100, right associativity).

(** [await new Promise(resolve => setTimeout(resolve, ms))]: the
    computation is suspended; the delay is recorded. *)
Definition delay (ms : Z) : M unit :=
  modify (fun w => with_timers (timers w ++ [ms]) w).

(** [Date.now()] and [new Date().getTime()]. *)
Definition Date_now : M Z := gets clock.

(** [crypto.randomUUID()]. *)
Definition randomUUID : M string :=
  fun w => (Return (entropy w (drawn w)), with_drawn (S (drawn w)) w).

(** [localStorage.setItem(key, JSON.stringify(v))]: [store] writes the
    key; the call throws when the storage refuses the write. *)
Definition setItem (store : World -> World) : M unit :=
  fun w =>
    match ls_faults w with
    | Some m :: fs => (Throw {| message := m |}, with_faults fs w)
    | None :: fs => (Return tt, store (with_faults fs w))
    | [] => (Return tt, store w)
    end.

(** ** services/storage.ts *)

Module storageService.

Record ExpenseDraft := {
  d_userId : string;
  d_amount : option number;
  d_category : option string;
  d_description : option string;
  d_date : DateString
}.

Record AppointmentDraft := {
  ad_userId : string;
  ad_title : option string;
  ad_date : DateString;
  ad_type : string
}.

Definition setCurrentUser (u : User) : M unit :=
  setItem (with_current_user (Some u)).

Definition register (u : User) : M User :=
  delay 100 ;;;
  users <- gets ls_users ;;
  match find (fun x => String.eqb (email x) (email u)) users with
  | Some _ => throw {| message := "User already exists" |}
  | None =>
      let newUser := set_budget u (Some (number_or (budget u) (Num 5000))) in
      setItem (with_users (users ++ [newUser])) ;;;
      setCurrentUser newUser ;;;
      ret newUser
  end.

Definition login (mail : string) : M User :=
  delay 100 ;;;
  users <- gets ls_users ;;
  match find (fun x => String.eqb (email x) mail) users with
  | None => throw {| message := "User not found" |}
  | Some u => setCurrentUser u ;;; ret u
  end.

Definition updateUser (u : User) : M User :=
  delay 100 ;;;
  users <- gets ls_users ;;
  match findIndex (fun x => String.eqb (email x) (email u)) users with
  | Some index =>
      setItem (with_users (<[index := u]> users)) ;;;
      setCurrentUser u ;;;
      ret u
  | None => ret u
  end.

Definition logout : M unit := modify (with_current_user None).

Definition getCurrentUser : M (option User) := gets ls_current_user.

Definition getAllExpensesRaw : M (list Expense) := gets ls_expenses.

Definition saveExpenses (l : list Expense) : M unit :=
  setItem (with_expenses l).

Definition addExpense (d : ExpenseDraft) : M Expense :=
  delay 100 ;;;
  uuid <- randomUUID ;;
  now <- Date_now ;;
  let newExpense :=
    {| e_id := uuid; e_userId := d_userId d; e_amount := d_amount d;
       e_category := d_category d; e_description := d_description d;
       e_date := d_date d; e_createdAt := now |} in
  allExpenses <- getAllExpensesRaw ;;
  saveExpenses (allExpenses ++ [newExpense]) ;;;
  ret newExpense.

Definition updateExpense (e : Expense) : M unit :=
  delay 100 ;;;
  all <- getAllExpensesRaw ;;
  match findIndex (fun x => String.eqb (e_id x) (e_id e)) all with
  | Some index => saveExpenses (<[index := e]> all)
  | None => ret tt
  end.

Definition getExpenses (uid : string) : M (list Expense) :=
  delay 100 ;;;
  all <- getAllExpensesRaw ;;
  ret (Array_sort (fun a b => getTime_diff (e_date b) (e_date a))
         (filter (fun e => e_userId e = uid) all)).

Definition deleteExpense (i : string) : M unit :=
  delay 100 ;;;
  all <- getAllExpensesRaw ;;
  saveExpenses (filter (fun e => e_id e <> i) all).

Definition getAllAppointmentsRaw : M (list Appointment) := gets ls_appointments.

Definition saveAppointments (l : list Appointment) : M unit :=
  setItem (with_appointments l).

Definition addAppointment (d : AppointmentDraft) : M Appointment :=
  delay 100 ;;;
  uuid <- randomUUID ;;
  now <- Date_now ;;
  let newAppt :=
    {| id := uuid; userId := ad_userId d; title := ad_title d;
       date := ad_date d; status := Some "scheduled"; type := ad_type d;
       createdAt := now; notified := Some false |} in
  all <- getAllAppointmentsRaw ;;
  saveAppointments (all ++ [newAppt]) ;;;
  ret newAppt.

Definition getAppointments (uid : string) : M (list Appointment) :=
  delay 100 ;;;
  all <- getAllAppointmentsRaw ;;
  ret (Array_sort (fun a b => getTime_diff (date a) (date b))
         (filter (fun a => userId a = uid) all)).

Definition updateAppointment (appt : Appointment) : M unit :=
  delay 50 ;;;
  all <- getAllAppointmentsRaw ;;
  match findIndex (fun a => String.eqb (id a) (id appt)) all with
  | Some index => saveAppointments (<[index := appt]> all)
  | None => ret tt
  end.

(** The bridge passes [args.id], which may be [undefined]. *)
Definition deleteAppointment (i : option string) : M unit :=
  delay 100 ;;;
  all <- getAllAppointmentsRaw ;;
  saveAppointments (filter (fun a => strict_eq (id a) i = false) all).

End storageService.

(** ** services/tools.ts *)

Module tools.

(** The nine names of [expenseTools]. *)
Definition expenseTools : list string :=
  ["addExpense"; "updateExpense"; "setBudget"; "getExpenses";
   "requestManualEntry"; "addAppointment"; "getAppointments";
   "updateAppointmentStatus"; "deleteAppointment"].

Definition result_of (t : ResultText) : ToolResult :=
  {| tr_result := Some t; tr_error := None; tr_expense := None;
     tr_user := None; tr_appointment := None |}.

Definition error_of (m : string) : ToolResult :=
  {| tr_result := None; tr_error := Some m; tr_expense := None;
     tr_user := None; tr_appointment := None |}.

(** [args.date] read as a date: a missing property is [undefined]. *)
Definition date_arg (args : Args) : DateString :=
  match a_date args with
  | Some d => d
  | None => None
  end.

(** [{ ...existing, ...args }] on the properties of an expense. *)
Definition merge_expense (existing : Expense) (args : Args) : Expense :=
  {| e_id := default (e_id existing) (a_id args);
     e_userId := e_userId existing;
     e_amount := match a_amount args with Some n => Some n | None => e_amount existing end;
     e_category := match a_category args with Some c => Some c | None => e_category existing end;
     e_description :=
       match a_description args with Some d => Some d | None => e_description existing end;
     e_date := match a_date args with Some d => d | None => e_date existing end;
     e_createdAt := e_createdAt existing |}.

Definition summary (a : Appointment) : ApptSummary :=
  {| s_id := id a; s_title := title a; s_time := date a; s_status := status a |}.

(** The body of the [try] block. *)
Definition dispatch (name : string) (args : Args) (user : User) : M ToolResult :=
  if String.eqb name "addExpense" then
    expense <- storageService.addExpense
      {| storageService.d_userId := email user;
         storageService.d_amount := a_amount args;
         storageService.d_category := a_category args;
         storageService.d_description := a_description args;
         storageService.d_date := date_arg args |} ;;
    ret {| tr_result := Some (Text "Expense added successfully"); tr_error := None;
           tr_expense := Some expense; tr_user := None; tr_appointment := None |}
  else if String.eqb name "updateExpense" then
    all <- storageService.getExpenses (email user) ;;
    match find (fun e => strict_eq (e_id e) (a_id args)) all with
    | None => ret (error_of "Expense not found")
    | Some existing =>
        storageService.updateExpense (merge_expense existing args) ;;;
        ret (result_of (Text "Expense updated"))
    end
  else if String.eqb name "setBudget" then
    let updatedUser := set_budget user (a_amount args) in
    storageService.updateUser updatedUser ;;;
    ret {| tr_result := Some (BudgetSetTo (a_amount args)); tr_error := None;
           tr_expense := None; tr_user := Some updatedUser; tr_appointment := None |}
  else if String.eqb name "getExpenses" then
    expenses <- storageService.getExpenses (email user) ;;
    ret (result_of (JsonExpenses (take 10 expenses)))
  else if String.eqb name "requestManualEntry" then
    ret (result_of (Text "Manual form requested"))
  else if String.eqb name "addAppointment" then
    appt <- storageService.addAppointment
      {| storageService.ad_userId := email user;
         storageService.ad_title := a_title args;
         storageService.ad_date := date_arg args;
         storageService.ad_type := string_or (a_type args) "reminder" |} ;;
    ret {| tr_result := Some (AppointmentScheduled (a_title args) (date_arg args));
           tr_error := None; tr_expense := None; tr_user := None;
           tr_appointment := Some appt |}
  else if String.eqb name "getAppointments" then
    appts <- storageService.getAppointments (email user) ;;
    ret (result_of (JsonAppointments (summary <$> appts)))
  else if String.eqb name "updateAppointmentStatus" then
    all <- storageService.getAppointments (email user) ;;
    match find (fun a => strict_eq (id a) (a_id args)) all with
    | None => ret (error_of "Appointment not found")
    | Some existing =>
        let updated := set_status existing (a_status args) in
        storageService.updateAppointment updated ;;;
        ret (result_of (AppointmentMarkedAs (a_status args)))
    end
  else if String.eqb name "deleteAppointment" then
    storageService.deleteAppointment (a_id args) ;;;
    ret (result_of (Text "Appointment deleted"))
  else
    ret (error_of "Unknown tool").

Definition executeExpenseTool (name : string) (args : Args) (user : User)
    : M ToolResult :=
  try_catch (dispatch name args user)
    (fun err => ret (error_of (message err))).

End tools.

(** ** App.tsx: the notification check *)

Module App.

Definition setActiveAlert (appt : Appointment) : M unit :=
  modify (fun w => with_alert (Some appt) (alert_log w ++ [appt]) w).

(** The two tests of the callback of [forEach]; a comparison with
    [NaN] is false. *)
Definition due (now : Z) (appt : Appointment) : bool :=
  if strict_eq "scheduled" (status appt) && negb (is_notified appt) then
    match getTime_diff (date appt) (Some now) with
    | Some diff => (diff <=? 60000) && (-60000 * 60 <? diff)
    | None => false
    end
  else false.

Fixpoint forEach {A} (f : A -> M unit) (l : list A) : M unit :=
  match l with
  | [] => ret tt
  | x :: l' => f x ;;; forEach f l'
  end.

(** The callback up to its [await]: the alert is shown (the sound is
    played in a [try] of its own and leaves nothing behind). *)
Definition alert (appt : Appointment) : M unit := setActiveAlert appt.

(** The callback after its [await]: a rejected update ends this
    callback only, nobody awaits its promise. *)
Definition persist (appt : Appointment) : M unit :=
  try_catch (storageService.updateAppointment (set_notified appt true))
    (fun _ => ret tt).

(** [forEach] runs every callback up to its [await], in order; the
    updates resume afterwards, in the same order. *)
Definition checkAppointments (user : User) : M unit :=
  appts <- storageService.getAppointments (email user) ;;
  now <- Date_now ;;
  let fired := filter (fun a => due now a) appts in
  forEach alert fired ;;;
  forEach persist fired.

(** [checkAppointments] up to the [await]s of its callbacks: the alerts
    of the pass are shown and no flag is written yet. The callbacks
    resume later, one by one ([persist]); other handlers can run
    before they do. *)
Definition alerts (user : User) : M (list Appointment) :=
  appts <- storageService.getAppointments (email user) ;;
  now <- Date_now ;;
  let fired := filter (fun a => due now a) appts in
  forEach alert fired ;;;
  ret fired.

End App.

(** ** components/ChatBot.tsx *)

Module ChatBot.

Record Blob := { size : Z; blob_type : string; base64 : string }.

(** The two keys [msgExtra] can hold. *)
Record MsgExtra := {
  x_expenseData : option Expense;
  x_appointmentData : option Appointment
}.

Definition no_extra : MsgExtra :=
  {| x_expenseData := None; x_appointmentData := None |}.

Definition setMessages_push (m : Message) : M unit :=
  modify (fun w => with_messages (messages w ++ [m]) w).

(** [chatSessionRef.current.sendMessage(payload)]: the payload goes
    out, the service answers or the call fails. *)
Definition sendMessage (payload : Payload) : M GenerateContentResponse :=
  fun w =>
    let l := chat_log w ++ [payload] in
    match chat_script w with
    | inr r :: s => (Return r, with_chat s l w)
    | inl e :: s => (Throw e, with_chat s l w)
    | [] => (Throw {| message := "Failed to fetch" |}, with_chat [] l w)
    end.

(** [generateAndPlayAudio(text)]: started and not awaited; its own
    [try] keeps every failure inside. *)
Definition generateAndPlayAudio (t : string) : M unit :=
  modify (fun w => with_spoken (spoken w ++ [t]) w).

(** The [for] loop of [sendMessageWithRetry] from iteration [i] on,
    with [n] iterations left. *)
Fixpoint retry_loop (chatSessionRef : bool) (payload : Payload)
    (i : nat) (n : nat) (lastError : option Error) : M GenerateContentResponse :=
  match n with
  | O =>
      match lastError with
      | Some e => throw e
      | None => throw {| message := "undefined" |}
      end
  | S n' =>
      try_catch
        (if chatSessionRef then sendMessage payload
         else throw {| message := "Chat session lost" |})
        (fun e =>
           delay (1000 * (Z.of_nat i + 1)) ;;;
           retry_loop chatSessionRef payload (S i) n' (Some e))
  end.

Definition sendMessageWithRetry (chatSessionRef : bool) (payload : Payload)
    : M GenerateContentResponse :=
  retry_loop chatSessionRef payload 0 3 None.

Definition form_message (fc : FunctionCall) : Message :=
  {| role := model_role; m_text := None; audio := None; duration := None;
     isForm := true;
     prefilledDescription := a_prefilledDescription (fc_args fc);
     expenseData := None; appointmentData := None; isError := false |}.

Definition model_message (t : string) (x : MsgExtra) : Message :=
  {| role := model_role; m_text := Some t; audio := None; duration := None;
     isForm := false; prefilledDescription := None;
     expenseData := x_expenseData x; appointmentData := x_appointmentData x;
     isError := false |}.

Definition error_message (e : Error) : Message :=
  {| role := model_role; m_text := Some (String.append "Mochkil: " (message e));
     audio := None; duration := None; isForm := false;
     prefilledDescription := None; expenseData := None;
     appointmentData := None; isError := true |}.

Definition user_message (t : string) (audioBlob : option Blob)
    (d : option number) : Message :=
  {| role := user_role;
     m_text := match audioBlob with Some _ => Some "" | None => Some t end;
     audio := base64 <$> audioBlob;
     duration := d; isForm := false; prefilledDescription := None;
     expenseData := None; appointmentData := None; isError := false |}.

(** The assignments to [msgExtra] after a tool call. *)
Definition msgExtra_after (fc : FunctionCall) (toolResult : ToolResult)
    (msgExtra : MsgExtra) : MsgExtra :=
  let x1 :=
    match tr_expense toolResult with
    | Some e =>
        if String.eqb (fc_name fc) "addExpense"
        then {| x_expenseData := Some e; x_appointmentData := None |}
        else msgExtra
    | None => msgExtra
    end in
  match tr_appointment toolResult with
  | Some a =>
      if String.eqb (fc_name fc) "addAppointment"
      then {| x_expenseData := None; x_appointmentData := Some a |}
      else x1
  | None => x1
  end.

(** The loop over [functionCalls]. *)
Fixpoint run_calls (user : User) (fcs : list FunctionCall)
    (functionResponses : list Part) (msgExtra : MsgExtra)
    : M (list Part * MsgExtra) :=
  match fcs with
  | [] => ret (functionResponses, msgExtra)
  | fc :: rest =>
      if String.eqb (fc_name fc) "requestManualEntry" then
        setMessages_push (form_message fc) ;;;
        run_calls user rest
          (functionResponses ++ [FunctionResponse (fc_id fc) (fc_name fc) FormShown])
          msgExtra
      else
        toolResult <- tools.executeExpenseTool (fc_name fc) (fc_args fc) user ;;
        run_calls user rest
          (functionResponses ++
             [FunctionResponse (fc_id fc) (fc_name fc) (ToolResponse toolResult)])
          (msgExtra_after fc toolResult msgExtra)
  end.

Definition audioPart (b : Blob) : Part :=
  InlineData (if String.eqb (blob_type b) "" then "audio/webm" else blob_type b)
    (base64 b).

(** The first request of the [try] block of [handleSend]. *)
Definition first_send (chatSessionRef : bool) (t : string)
    (audioBlob : option Blob) : M GenerateContentResponse :=
  match audioBlob with
  | Some b =>
      if size b <? 100 then throw {| message := "Tasjil qsir. 3awd." |}
      else
        sendMessageWithRetry chatSessionRef
          (MessageParts
             (if string_truthy t then [audioPart b; TextPart t] else [audioPart b]))
  | None => sendMessageWithRetry chatSessionRef (MessageText t)
  end.

(** [responseText] and [msgExtra] once the function calls of the reply,
    if any, are answered. *)
Definition resolve (chatSessionRef : bool) (user : User)
    (result : GenerateContentResponse) : M (string * MsgExtra) :=
  match functionCalls result with
  | Some (fc :: rest) =>
      collected <- run_calls user (fc :: rest) [] no_extra ;;
      toolResponseResult <-
        sendMessageWithRetry chatSessionRef (MessageParts collected.1) ;;
      ret (string_or (text toolResponseResult) "", collected.2)
  | _ => ret (string_or (text result) "", no_extra)
  end.

(** The end of the [try] block: the model turn, if there is one. *)
Definition show_reply (shouldRespondWithAudio : bool) (responseText : string)
    (msgExtra : MsgExtra) : M unit :=
  if string_truthy responseText then
    setMessages_push (model_message responseText msgExtra) ;;;
    if shouldRespondWithAudio then generateAndPlayAudio responseText else ret tt
  else if bool_decide (is_Some (x_expenseData msgExtra))
          || bool_decide (is_Some (x_appointmentData msgExtra)) then
    let confirmText := "Safi tqiyed." in
    setMessages_push (model_message confirmText msgExtra) ;;;
    if shouldRespondWithAudio then generateAndPlayAudio confirmText else ret tt
  else ret tt.

(** The [try] block of [handleSend]. *)
Definition turn (chatSessionRef : bool) (user : User) (t : string)
    (audioBlob : option Blob) : M unit :=
  result <- first_send chatSessionRef t audioBlob ;;
  resolved <- resolve chatSessionRef user result ;;
  show_reply (bool_decide (is_Some audioBlob)) resolved.1 resolved.2.

Definition handleSend (chatSessionRef : bool) (user : User) (t : string)
    (audioBlob : option Blob) (d : option number) : M unit :=
  if (negb (string_truthy t) && negb (bool_decide (is_Some audioBlob)))
     || negb chatSessionRef
  then ret tt
  else
    setMessages_push (user_message t audioBlob d) ;;;
    try_catch (turn chatSessionRef user t audioBlob)
      (fun error => setMessages_push (error_message error)).

End ChatBot.

(** ** components/LiveAssistant.tsx *)

Module LiveAssistant.

(** Times of the output audio context are counted in sample frames
    (24000 to the second): [currentTime] and the duration of a decoded
    buffer are whole numbers of them. *)

(** An [AudioBufferSourceNode] of the output context. *)
Record Source := {
  node : nat;
  start_time : Z;
  buffer_length : Z
}.

(** What [onmessage] reads of a [LiveServerMessage]: the function
    calls, the samples of [modelTurn.parts[0].inlineData.data] (no
    sample is an empty string) and the interruption flag. *)
Record LiveServerMessage := {
  toolCall : option (list FunctionCall);
  inlineData : option (list Z);
  interrupted : bool
}.

(** The component: its React state ([isConnected], [isMuted]), its
    refs, and what it has done to the audio graph and to the channel.
    - [onaudioprocess]: the handler installed on the processor node,
      as the value of [isMuted] its closure holds; [None] before
      [onopen].
    - [sourcesRef]: the set, in insertion order.
    - [started], [stopped]: the sources [start] and [stop] were called
      on, oldest first; [created]: how many sources were created.
    - [realtimeInput]: the capture frames handed to
      [sendRealtimeInput], oldest first.
    - [toolResponses]: the parts handed to [sendToolResponse]. *)
Record Session := {
  isConnected : bool;
  isMuted : bool;
  closingRef : bool;
  nextStartTimeRef : Z;
  sourcesRef : list Source;
  onaudioprocess : option bool;
  created : nat;
  started : list Source;
  stopped : list Source;
  realtimeInput : list (list Z);
  toolResponses : list Part
}.

(** The component after its first render. *)
Definition first_render : Session :=
  {| isConnected := false; isMuted := false; closingRef := false;
     nextStartTimeRef := 0; sourcesRef := []; onaudioprocess := None;
     created := 0; started := []; stopped := []; realtimeInput := [];
     toolResponses := [] |}.

(** [onopen], a closure created by [connect]: [env_isMuted] is the
    binding of [isMuted] in the render that [connect] belongs to. The
    handler it installs is a closure over the same binding. *)
Definition onopen (env_isMuted : bool) (s : Session) : Session :=
  {| isConnected := true; isMuted := isMuted s; closingRef := closingRef s;
     nextStartTimeRef := nextStartTimeRef s; sourcesRef := sourcesRef s;
     onaudioprocess := Some env_isMuted;
     created := created s; started := started s; stopped := stopped s;
     realtimeInput := realtimeInput s; toolResponses := toolResponses s |}.

(** [useEffect(() => { connect(); ... }, [])] runs once, after the
    first render, so [connect] and the callbacks it creates are the
    closures of the first render. *)
Definition mount : Session := onopen (isMuted first_render) first_render.

(** [setIsMuted(b)]: the component renders again with the new state;
    nothing installs a new handler. *)
Definition setIsMuted (b : bool) (s : Session) : Session :=
  {| isConnected := isConnected s; isMuted := b; closingRef := closingRef s;
     nextStartTimeRef := nextStartTimeRef s; sourcesRef := sourcesRef s;
     onaudioprocess := onaudioprocess s;
     created := created s; started := started s; stopped := stopped s;
     realtimeInput := realtimeInput s; toolResponses := toolResponses s |}.

(** The click on the microphone button: [setIsMuted(!isMuted)]. *)
Definition toggleMute (s : Session) : Session := setIsMuted (negb (isMuted s)) s.

(** The cleanup of the effect, as far as the handlers see it. *)
Definition cleanup (s : Session) : Session :=
  {| isConnected := isConnected s; isMuted := isMuted s; closingRef := true;
     nextStartTimeRef := nextStartTimeRef s; sourcesRef := sourcesRef s;
     onaudioprocess := onaudioprocess s;
     created := created s; started := started s; stopped := stopped s;
     realtimeInput := realtimeInput s; toolResponses := toolResponses s |}.

(** The event [audioprocess] with the capture frame [inputData]. *)
Definition audioprocess (inputData : list Z) (s : Session) : Session :=
  match onaudioprocess s with
  | None => s
  | Some env_isMuted =>
      if env_isMuted || closingRef s then s
      else
        {| isConnected := isConnected s; isMuted := isMuted s;
           closingRef := closingRef s; nextStartTimeRef := nextStartTimeRef s;
           sourcesRef := sourcesRef s; onaudioprocess := onaudioprocess s;
           created := created s; started := started s; stopped := stopped s;
           realtimeInput := realtimeInput s ++ [inputData];
           toolResponses := toolResponses s |}
  end.

Definition sendToolResponse (p : Part) (s : Session) : Session :=
  {| isConnected := isConnected s; isMuted := isMuted s;
     closingRef := closingRef s; nextStartTimeRef := nextStartTimeRef s;
     sourcesRef := sourcesRef s; onaudioprocess := onaudioprocess s;
     created := created s; started := started s; stopped := stopped s;
     realtimeInput := realtimeInput s;
     toolResponses := toolResponses s ++ [p] |}.

(** The loop over [msg.toolCall.functionCalls]. *)
Fixpoint run_toolCall (user : User) (fcs : list FunctionCall) (s : Session)
    : M Session :=
  match fcs with
  | [] => ret s
  | fc :: rest =>
      result <- tools.executeExpenseTool (fc_name fc) (fc_args fc) user ;;
      run_toolCall user rest
        (sendToolResponse
           (FunctionResponse (fc_id fc) (fc_name fc) (ToolResponse result)) s)
  end.

(** The branch [if (base64Audio)]: [currentTime] is the clock of the
    output context, [pcm] the decoded samples. *)
Definition schedule (currentTime : Z) (pcm : list Z) (s : Session) : Session :=
  let next := Z.max (nextStartTimeRef s) currentTime in
  let source :=
    {| node := created s; start_time := next;
       buffer_length := Z.of_nat (length pcm) |} in
  {| isConnected := isConnected s; isMuted := isMuted s;
     closingRef := closingRef s;
     nextStartTimeRef := next + buffer_length source;
     sourcesRef := sourcesRef s ++ [source];
     onaudioprocess := onaudioprocess s;
     created := S (created s);
     started := started s ++ [source]; stopped := stopped s;
     realtimeInput := realtimeInput s; toolResponses := toolResponses s |}.

(** The branch [if (msg.serverContent?.interrupted)]. *)
Definition interrupt (s : Session) : Session :=
  {| isConnected := isConnected s; isMuted := isMuted s;
     closingRef := closingRef s;
     nextStartTimeRef := 0;
     sourcesRef := [];
     onaudioprocess := onaudioprocess s;
     created := created s; started := started s;
     stopped := stopped s ++ sourcesRef s;
     realtimeInput := realtimeInput s; toolResponses := toolResponses s |}.

(** The listener of [ended]: [sourcesRef.current.delete(source)]. *)
Definition ended (n : nat) (s : Session) : Session :=
  {| isConnected := isConnected s; isMuted := isMuted s;
     closingRef := closingRef s; nextStartTimeRef := nextStartTimeRef s;
     sourcesRef := filter (fun x => node x <> n) (sourcesRef s);
     onaudioprocess := onaudioprocess s;
     created := created s; started := started s; stopped := stopped s;
     realtimeInput := realtimeInput s; toolResponses := toolResponses s |}.

Definition onmessage (user : User) (currentTime : Z) (msg : LiveServerMessage)
    (s : Session) : M Session :=
  if closingRef s then ret s
  else
    s1 <- match toolCall msg with
          | Some fcs => run_toolCall user fcs s
          | None => ret s
          end ;;
    let s2 :=
      match inlineData msg with
      | Some (x :: pcm) => schedule currentTime (x :: pcm) s1
      | _ => s1
      end in
    ret (if interrupted msg then interrupt s2 else s2).

End LiveAssistant.

(** ** components/Auth.tsx *)

Module Auth.

(** The state of the form, and the user [onLogin] was called with. *)
Record Form := {
  isRegister : bool;
  f_email : string;
  f_name : string;
  error : string;
  loading : bool;
  onLogin : option User
}.

Definition with_error (e : string) (register : bool) (f : Form) : Form :=
  {| isRegister := register; f_email := f_email f; f_name := f_name f;
     error := e; loading := loading f; onLogin := onLogin f |}.

Definition with_loading (b : bool) (f : Form) : Form :=
  {| isRegister := isRegister f; f_email := f_email f; f_name := f_name f;
     error := error f; loading := b; onLogin := onLogin f |}.

Definition logged_in (u : User) (f : Form) : Form :=
  {| isRegister := isRegister f; f_email := f_email f; f_name := f_name f;
     error := error f; loading := loading f; onLogin := Some u |}.

Definition handleSubmit (f : Form) : M Form :=
  let f1 := with_loading true (with_error "" (isRegister f) f) in
  f2 <- try_catch
          (user <-
             (if isRegister f then
                if negb (string_truthy (f_name f)) then
                  throw {| message := "3afak dkhl smitek (Name is required)" |}
                else
                  storageService.register
                    {| email := f_email f; name := f_name f;
                       password := Some "dummy"; budget := None |}
              else storageService.login (f_email f)) ;;
           ret (logged_in user f1))
          (fun err =>
             if String.eqb (message err) "User not found" then
               ret (with_error
                      "Had l-compte ma-kaynach. 3afak dkhl smitek bach tsajjel."
                      true f1)
             else if String.eqb (message err) "User already exists" then
               ret (with_error "Had l-email deja msajjel. Dir Dkhoul."
                      (isRegister f1) f1)
             else ret (with_error (message err) (isRegister f1) f1)) ;;
  ret (with_loading false f2).

End Auth.

(** ** App.tsx: the session *)

Module AppSession.

(** The effect that runs once when the application starts: the state
    [user] it sets. *)
Definition restore : M (option User) := storageService.getCurrentUser.

(** [handleLogout]: the new state [user]. *)
Definition handleLogout : M (option User) :=
  storageService.logout ;;; ret None.

(** [dismissAlert]. *)
Definition dismissAlert : M unit :=
  modify (fun w => with_alert None (alert_log w) w).

End AppSession.

(** ** components/Appointments.tsx *)

Module AppointmentsView.

(** [new Date(d).getTime() > now] and [<= now]: false for [NaN]. *)
Definition after (d : DateString) (now : Z) : bool :=
  match d with
  | Some t => now <? t
  | None => false
  end.

Definition not_after (d : DateString) (now : Z) : bool :=
  match d with
  | Some t => t <=? now
  | None => false
  end.

Definition upcoming (now : Z) (appointments : list Appointment)
    : list Appointment :=
  Array_sort (fun a b => getTime_diff (date a) (date b))
    (filter (fun a => strict_eq "scheduled" (status a) && after (date a) now)
       appointments).

Definition history (now : Z) (appointments : list Appointment)
    : list Appointment :=
  Array_sort (fun a b => getTime_diff (date b) (date a))
    (filter (fun a => negb (strict_eq "scheduled" (status a))
                      || not_after (date a) now)
       appointments).

(** The two values of the filter. *)
Inductive Filter := show_upcoming | show_history.

Definition displayed (f : Filter) (now : Z) (appointments : list Appointment)
    : list Appointment :=
  match f with
  | show_upcoming => upcoming now appointments
  | show_history => history now appointments
  end.

(** [loadData]: the new state [appointments]. *)
Definition loadData (user : User) : M (list Appointment) :=
  storageService.getAppointments (email user).

(** The two statuses the buttons of a card set. *)
Inductive Closed := completed | cancelled.

Definition status_name (s : Closed) : string :=
  match s with
  | completed => "completed"
  | cancelled => "cancelled"
  end.

(** [handleDelete]: [confirmed] is the answer to [confirm(...)]; the
    state [appointments] is reloaded after a deletion. *)
Definition handleDelete (confirmed : bool) (i : string) (user : User)
    : M (option (list Appointment)) :=
  if confirmed then
    storageService.deleteAppointment (Some i) ;;;
    l <- loadData user ;;
    ret (Some l)
  else ret None.

(** [handleStatusChange]: [appt] is the appointment of the card, as the
    state of the component holds it. *)
Definition handleStatusChange (appt : Appointment) (s : Closed) (user : User)
    : M (list Appointment) :=
  storageService.updateAppointment (set_status appt (Some (status_name s))) ;;;
  loadData user.

End AppointmentsView.

(** ** components/Dashboard.tsx *)

Module Dashboard.

(** [handleSaveProfile]: [newBudget] is [parseFloat(tempBudget)]; the
    result tells whether the profile sheet is closed. *)
Definition handleSaveProfile (newBudget : number) (user : User) : M bool :=
  match newBudget with
  | NaN => ret false
  | Num _ =>
      storageService.updateUser (set_budget user (Some newBudget)) ;;;
      ret true
  end.

(** [const budget = user.budget || 5000]. *)
Definition shown_budget (user : User) : number :=
  number_or (budget user) (Num 5000).

End Dashboard.

(** ** components/ChatBot.tsx: the input bar and the manual form *)

Module ChatBotInput.

(** The refs and the state of the recording, and the texts shown by
    [alert]. *)
Record Recorder := {
  isRecording : bool;
  shouldSendRef : bool;
  mediaRecorderRef : bool;
  audioChunksRef : list ChatBot.Blob;
  startTimeRef : Z;
  alerts : list string
}.

(** The component before any recording. *)
Definition idle : Recorder :=
  {| isRecording := false; shouldSendRef := true; mediaRecorderRef := false;
     audioChunksRef := []; startTimeRef := 0; alerts := [] |}.

(** [startRecording]: [granted] tells whether [getUserMedia] resolves. *)
Definition startRecording (granted : bool) (r : Recorder) : M Recorder :=
  if granted then
    now <- Date_now ;;
    ret {| isRecording := true; shouldSendRef := true; mediaRecorderRef := true;
           audioChunksRef := []; startTimeRef := now; alerts := alerts r |}
  else
    ret {| isRecording := isRecording r; shouldSendRef := true;
           mediaRecorderRef := mediaRecorderRef r;
           audioChunksRef := audioChunksRef r; startTimeRef := startTimeRef r;
           alerts := alerts r ++ ["Mochkil f l-micro. 3afak 3ti l-permission."] |}.

(** The handler of [dataavailable]. *)
Definition ondataavailable (data : ChatBot.Blob) (r : Recorder) : Recorder :=
  if 0 <? ChatBot.size data then
    {| isRecording := isRecording r; shouldSendRef := shouldSendRef r;
       mediaRecorderRef := mediaRecorderRef r;
       audioChunksRef := audioChunksRef r ++ [data];
       startTimeRef := startTimeRef r; alerts := alerts r |}
  else r.

(** [stopAndSend] and [cancelRecording]: both stop the recorder, which
    raises [stop] later on. *)
Definition stop_with (send : bool) (r : Recorder) : Recorder :=
  if mediaRecorderRef r && isRecording r then
    {| isRecording := false; shouldSendRef := send;
       mediaRecorderRef := mediaRecorderRef r;
       audioChunksRef := audioChunksRef r; startTimeRef := startTimeRef r;
       alerts := alerts r |}
  else r.

Definition stopAndSend (r : Recorder) : Recorder := stop_with true r.

Definition cancelRecording (r : Recorder) : Recorder := stop_with false r.

Section recording.

(** [blobToBase64] of the blob made of the given chunks. *)
Variable blobToBase64 : list ChatBot.Blob -> string.

(** [new Blob(chunks, { type: 'audio/webm' })]. *)
Definition new_Blob (chunks : list ChatBot.Blob) : ChatBot.Blob :=
  {| ChatBot.size := foldr (fun c n => ChatBot.size c + n) 0 chunks;
     ChatBot.blob_type := "audio/webm";
     ChatBot.base64 := blobToBase64 chunks |}.

(** The handler of [stop]. *)
Definition onstop (chatSessionRef : bool) (user : User) (r : Recorder) : M unit :=
  if negb (shouldSendRef r) then ret tt
  else
    match audioChunksRef r with
    | [] => ret tt
    | _ :: _ =>
        now <- Date_now ;;
        let durationSec := Num (Qmake (now - startTimeRef r) 1000) in
        ChatBot.handleSend chatSessionRef user ""
          (Some (new_Blob (audioChunksRef r))) (Some durationSec)
    end.

End recording.

(** [handleFormSubmit]: the text of the input goes out as a typed turn. *)
Definition handleFormSubmit (chatSessionRef : bool) (user : User)
    (inputText : string) : M unit :=
  ChatBot.handleSend chatSessionRef user inputText None None.

(** [new Date().toISOString().split('T')[0]]: the day of [now], which
    parses to its midnight in universal time. *)
Definition today (now : Z) : DateString := Some (now - now mod 86400000).

(** The turn the manual form appends once its expense is handled. *)
Definition saved_message (res : ToolResult) : Message :=
  {| role := model_role; m_text := Some "Tqiyed."; audio := None;
     duration := None; isForm := false; prefilledDescription := None;
     expenseData := tr_expense res; appointmentData := None; isError := false |}.

(** The button [Save Expense] of [ManualExpenseForm], with the
    [onSubmit] the history gives it: [amount] is [None] for an empty
    field and the value [parseFloat] reads otherwise. *)
Definition saveExpense (amount : option number) (category desc : string)
    (user : User) : M unit :=
  match amount with
  | None => ret tt
  | Some n =>
      if negb (string_truthy desc) then ret tt
      else
        now <- Date_now ;;
        res <- tools.executeExpenseTool "addExpense"
                 {| a_id := None; a_amount := Some n; a_category := Some category;
                    a_description := Some desc; a_date := Some (today now);
                    a_title := None; a_type := None; a_status := None;
                    a_prefilledDescription := None |} user ;;
        ChatBot.setMessages_push (saved_message res)
  end.

End ChatBotInput.

(** ** components/ChatBot.tsx: the audio bubble *)

Module AudioMessageBubble.

(** [str.padStart(2, '0')]. *)
Definition padStart2 (str : string) : string :=
  match String.length str with
  | O => "00"
  | S O => String.append "0" str
  | _ => str
  end.

(** [formatTime]: [sec % 60] of a number that is not negative is what
    is left of it after the whole minutes. The model computes on the
    exact value and prints every digit; the code computes on doubles
    and prints a [Number], which is the same below 2^53 seconds, where
    the whole seconds and minutes are integers a double holds exactly
    and [toString] prints digit by digit. *)
Definition formatTime (sec : number) : string :=
  match sec with
  | NaN => "0:00"
  | Num q =>
      if Qle_bool 0 q then
        let m := Qfloor (q / 60) in
        let s := Qfloor (q - 60 * inject_Z m) in
        String.append (pretty m) (String.append ":" (padStart2 (pretty s)))
      else "0:00"
  end.

End AudioMessageBubble.

(** ** Runs of the application *)

(** What happens to the persisted appointments over time. Every
    function of the sources that writes an appointment, or shows an
    alert, is a step:
    - [Check u]: a check of the scheduler that no other handler
      overlaps, from its read to the last write of its callbacks;
    - [Tool name args u]: a call of the tool bridge, by either
      conversation mode, that no other handler overlaps;
    - [Tick t]: the wall clock moves;
    - [Restart]: the application starts again (the React state is
      lost, the local storage stays);
    - [Dismiss]: the alert is closed;
    - [Press card s u]: a status button of the list of appointments,
      on the card [card] as the list holds it, which may be older than
      the stored appointment (the list is loaded every five seconds);
    - [Remove i u]: the delete button of the list, confirmed.
    Handlers are [async] and can overlap: each resumes after an
    [await] with what it read before. The last two steps are the
    pieces of overlapping handlers:
    - [Alerts u]: a check up to the [await]s of its callbacks (the
      alerts of the pass are shown);
    - [Lands r]: a call of [storageService.updateAppointment] resumes
      after its [await] and writes the record [r] its caller built
      from an earlier read: the callback of a check ([{...appt,
      notified: true}]), [updateAppointmentStatus] of the bridge
      ([{...existing, status}]) or a status button. A rejected write is
      caught by the bridge and ends the callback of a check.
    [addAppointment] and [deleteAppointment] read and write after
    their only [await], so their steps cannot be split. *)
Inductive Event :=
| Check (u : User)
| Tool (name : string) (args : Args) (u : User)
| Tick (t : Z)
| Restart
| Dismiss
| Press (card : Appointment) (s : AppointmentsView.Closed) (u : User)
| Remove (i : string) (u : User)
| Alerts (u : User)
| Lands (r : Appointment).

Definition step (e : Event) (w : World) : World :=
  match e with
  | Check u => (App.checkAppointments u w).2
  | Tool name args u => (tools.executeExpenseTool name args u w).2
  | Tick t => with_clock t w
  | Restart => with_alert None (alert_log w) w
  | Dismiss => (AppSession.dismissAlert w).2
  | Press card s u => (AppointmentsView.handleStatusChange card s u w).2
  | Remove i u => (AppointmentsView.handleDelete true i u w).2
  | Alerts u => (App.alerts u w).2
  | Lands r =>
      (try_catch (storageService.updateAppointment r) (fun _ => ret tt) w).2
  end.

Definition run (tr : list Event) (w : World) : World :=
  foldl (fun w e => step e w) w tr.

(** The stored appointment with a given id. *)
Definition stored (x : string) (w : World) : option Appointment :=
  find (fun a => String.eqb (id a) x) (ls_appointments w).

(** Its [notified] flag. *)
Definition flag (x : string) (w : World) : option bool :=
  is_notified <$> stored x w.

(** The flag of [x] goes from false to true between [w] and [w']. *)
Definition flips (x : string) (w w' : World) : bool :=
  bool_decide (flag x w = Some false) && bool_decide (flag x w' = Some true).

(** How often it does so along a run. *)
Fixpoint count_flips (x : string) (tr : list Event) (w : World) : nat :=
  match tr with
  | [] => 0
  | e :: tr' =>
      ((if flips x w (step e w) then 1 else 0) + count_flips x tr' (step e w))%nat
  end.

(** The appointments [setActiveAlert] was called with between [w] and
    [w'] ([alert_log] is the history of these calls; the application
    itself keeps the last one only, in [activeAlert]). *)
Definition alerted (w w' : World) : list Appointment :=
  drop (length (alert_log w)) (alert_log w').


(** The four keys of the local storage hold the same values. *)
Definition same_store (w w' : World) : Prop :=
  ls_users w' = ls_users w /\ ls_expenses w' = ls_expenses w
  /\ ls_appointments w' = ls_appointments w
  /\ ls_current_user w' = ls_current_user w.

(** What the persistence service and the tool bridge never touch: the
    model service, the React state, the clock and the entropy. *)
Definition outside_storage (w : World) :=
  (chat_script w, chat_log w, spoken w, messages w, activeAlert w,
   alert_log w, clock w, entropy w).

(** A computation leaves the observation [f] of the world as it is. *)
Definition preserves {A X} (f : World -> X) (m : M A) : Prop :=
  forall w, f (m w).2 = f w.

(** The part answers the function call: same id, same name. *)
Definition answers (fc : FunctionCall) (p : Part) : Prop :=
  exists resp, p = FunctionResponse (fc_id fc) (fc_name fc) resp.

(** The part is the result of an [addExpense] that returned its expense
    or of an [addAppointment] that returned its appointment. *)
Definition carries_card (p : Part) : bool :=
  match p with
  | FunctionResponse _ name (ToolResponse r) =>
      (String.eqb name "addExpense" && bool_decide (is_Some (tr_expense r)))
      || (String.eqb name "addAppointment" && bool_decide (is_Some (tr_appointment r)))
  | _ => false
  end.

(** The part is the result of a tool call that did not fail. *)
Definition succeeded (p : Part) : bool :=
  match p with
  | FunctionResponse _ _ (ToolResponse r) =>
      bool_decide (is_Some (tr_result r)) && bool_decide (tr_error r = None)
  | _ => false
  end.

(** [msgExtra.expenseData || msgExtra.appointmentData]. *)
Definition has_card (x : ChatBot.MsgExtra) : bool :=
  bool_decide (is_Some (ChatBot.x_expenseData x))
  || bool_decide (is_Some (ChatBot.x_appointmentData x)).

(** The model turns [show_reply] appends. *)
Definition reply_turns (responseText : string) (x : ChatBot.MsgExtra)
    : list Message :=
  if string_truthy responseText then [ChatBot.model_message responseText x]
  else if has_card x then [ChatBot.model_message "Safi tqiyed." x]
  else [].

(** The form turns the loop over the function calls appends. *)
Definition form_turns (fcs : list FunctionCall) : list Message :=
  ChatBot.form_message <$>
    filter (fun fc => String.eqb (fc_name fc) "requestManualEntry" = true) fcs.

(** The calls of a reply answered in order, from the world [w] to the
    world [w']: a [requestManualEntry] call shows its form and is
    answered [Form shown]; every other call is run through the tool
    bridge, in the world the calls before it have left, and is answered
    with the result the bridge returned for it. *)
Inductive answered (u : User)
  : list FunctionCall -> World -> list Part -> World -> Prop :=
| answered_nil (w : World) : answered u [] w [] w
| answered_form (fc : FunctionCall) (rest : list FunctionCall) (w w' : World)
    (ps : list Part) :
    fc_name fc = "requestManualEntry" ->
    answered u rest
      (with_messages (messages w ++ [ChatBot.form_message fc]) w) ps w' ->
    answered u (fc :: rest) w
      (FunctionResponse (fc_id fc) (fc_name fc) FormShown :: ps) w'
| answered_tool (fc : FunctionCall) (rest : list FunctionCall) (w w1 w' : World)
    (r : ToolResult) (ps : list Part) :
    fc_name fc <> "requestManualEntry" ->
    tools.executeExpenseTool (fc_name fc) (fc_args fc) u w = (Return r, w1) ->
    answered u rest w1 ps w' ->
    answered u (fc :: rest) w
      (FunctionResponse (fc_id fc) (fc_name fc) (ToolResponse r) :: ps) w'.

(** The card of a function response: the expense returned by an
    [addExpense] call, the appointment returned by an [addAppointment]
    call. *)
Definition card_of (p : Part) : option ChatBot.MsgExtra :=
  match p with
  | FunctionResponse _ name (ToolResponse r) =>
      match tr_appointment r, tr_expense r with
      | Some a, e =>
          if String.eqb name "addAppointment"
          then Some {| ChatBot.x_expenseData := None;
                       ChatBot.x_appointmentData := Some a |}
          else
            match e with
            | Some e' =>
                if String.eqb name "addExpense"
                then Some {| ChatBot.x_expenseData := Some e';
                             ChatBot.x_appointmentData := None |}
                else None
            | None => None
            end
      | None, Some e' =>
          if String.eqb name "addExpense"
          then Some {| ChatBot.x_expenseData := Some e';
                       ChatBot.x_appointmentData := None |}
          else None
      | None, None => None
      end
  | _ => None
  end.

(** The card of the last of the responses that has one. *)
Fixpoint last_card (results : list Part) : option ChatBot.MsgExtra :=
  match results with
  | [] => None
  | p :: ps =>
      match last_card ps with
      | Some c => Some c
      | None => card_of p
      end
  end.

(** The audio side of a live session: what a tool call never touches. *)
Definition audio_side (s : LiveAssistant.Session) :=
  (LiveAssistant.isConnected s, LiveAssistant.isMuted s,
   LiveAssistant.closingRef s, LiveAssistant.nextStartTimeRef s,
   LiveAssistant.sourcesRef s, LiveAssistant.onaudioprocess s,
   LiveAssistant.created s, LiveAssistant.started s, LiveAssistant.stopped s,
   LiveAssistant.realtimeInput s).

(** The list [l] with every appointment of id [id a'] replaced by [a']. *)
Definition replace_by_id (a' : Appointment) (l : list Appointment)
    : list Appointment :=
  (fun b => if String.eqb (id b) (id a') then a' else b) <$> l.

(** The list [l] with [notified: true] on the appointments whose id is
    in [ids]. *)
Definition mark (ids : list string) (l : list Appointment) : list Appointment :=
  (fun b => if bool_decide (id b ∈ ids) then set_notified b true else b) <$> l.

(** The appointments a check run at [now] for [u] fires, in order. *)
Definition fired (u : User) (now : Z) (l : list Appointment) : list Appointment :=
  filter (fun a => App.due now a)
    (Array_sort (fun a b => getTime_diff (date a) (date b))
       (filter (fun a => userId a = email u) l)).


(** The alert window of the code: [a] is scheduled, not notified, and
    its time is at most 60 s ahead of [now] and less than one hour
    behind. *)
Definition in_window (now : Z) (a : Appointment) : Prop :=
  status a = Some "scheduled" /\ is_notified a = false
  /\ exists t, date a = Some t /\ t - now <= 60000 /\ -3600000 < t - now.

(** The alert window as the specification words it: no more than one
    hour behind. *)
Definition in_window_spec (now : Z) (a : Appointment) : Prop :=
  status a = Some "scheduled" /\ is_notified a = false
  /\ exists t, date a = Some t /\ t - now <= 60000 /\ -3600000 <= t - now.

(** A check persists [notified: true] for [a]: the stored flag of
    [a] goes from false to true and the stored record becomes [a] with
    [notified: true]. *)
Definition notifies (a : Appointment) (w w' : World) : Prop :=
  flips (id a) w w' = true /\ stored (id a) w' = Some (set_notified a true).

(** A check fires the alert of [a]: when the check is over, [a] is the
    alert the application shows ([activeAlert], the one alert the
    component renders) and [notified: true] is persisted for it. *)
Definition fires (a : Appointment) (w w' : World) : Prop :=
  activeAlert w' = Some a /\ notifies a w w'.


(** The record [r] carries the [notified] flag that is stored for its
    id, when an appointment with this id is stored. *)
Definition carries_flag (r : Appointment) (w : World) : Prop :=
  forall b, flag (id r) w = Some b -> is_notified r = b.

(** The record [r] is what the callback of a check writes when it
    resumes: an appointment shown since [w0], with [notified: true]. *)
Definition callback_record (w0 : World) (r : Appointment) (w : World) : Prop :=
  exists a, a ∈ alerted w0 w /\ r = set_notified a true.

(** No step writes back a flag older than the stored one: the card of
    a pressed button carries the stored flag, and a write that lands
    is the write of a callback of a check or carries the stored flag.
    (The steps that read and write without an [await] in between need
    no condition.) *)
Definition timely (w0 : World) (e : Event) (w : World) : Prop :=
  match e with
  | Press card _ _ => carries_flag card w
  | Lands r => callback_record w0 r w \/ carries_flag r w
  | _ => True
  end.

Fixpoint orderly_from (w0 : World) (tr : list Event) (w : World) : Prop :=
  match tr with
  | [] => True
  | e :: tr' => timely w0 e w /\ orderly_from w0 tr' (step e w)
  end.

Definition orderly (tr : list Event) (w : World) : Prop := orderly_from w tr w.




(** ** Orders on records *)

(** Two valid dates in ascending order. *)
Definition date_le (a b : DateString) : Prop :=
  match a, b with
  | Some x, Some y => x <= y
  | _, _ => False
  end.

(** The appointments are in ascending order of date. *)
Definition soonest_first (l : list Appointment) : Prop :=
  StronglySorted (fun a b => date_le (date a) (date b)) l.

(** The appointments are in descending order of date. *)
Definition latest_first (l : list Appointment) : Prop :=
  StronglySorted (fun a b => date_le (date b) (date a)) l.

(** The expenses are in descending order of date. *)
Definition newest_first (l : list Expense) : Prop :=
  StronglySorted (fun a b => date_le (e_date b) (e_date a)) l.

(** ** The queue of the live playback *)

(** The time at which a source has played its buffer. *)
Definition ends (x : LiveAssistant.Source) : Z :=
  LiveAssistant.start_time x + LiveAssistant.buffer_length x.

(** The queued sources play one after the other, in the order of the
    queue, and all of them end by [nextStartTimeRef]. *)
Definition queued (s : LiveAssistant.Session) : Prop :=
  StronglySorted (fun a b => ends a <= LiveAssistant.start_time b)
    (LiveAssistant.sourcesRef s)
  /\ Forall (fun a => ends a <= LiveAssistant.nextStartTimeRef s)
       (LiveAssistant.sourcesRef s).

(** ** Sample data *)

(** A generator of identifiers that never repeats: [id], [uid],
    [uuid], ... *)
Fixpoint uuid (n : nat) : string :=
  match n with
  | O => "id"
  | S n' => String.append "u" (uuid n')
  end.

Definition amina : User :=
  {| email := "amina@example.com"; name := "Amina"; password := Some "dummy";
     budget := None |}.

Definition no_args : Args :=
  {| a_id := None; a_amount := None; a_category := None; a_description := None;
     a_date := None; a_title := None; a_type := None; a_status := None;
     a_prefilledDescription := None |}.

Definition id_arg (i : string) : Args :=
  {| a_id := Some i; a_amount := None; a_category := None; a_description := None;
     a_date := None; a_title := None; a_type := None; a_status := None;
     a_prefilledDescription := None |}.

Definition amount_arg (n : number) : Args :=
  {| a_id := None; a_amount := Some n; a_category := None; a_description := None;
     a_date := None; a_title := None; a_type := None; a_status := None;
     a_prefilledDescription := None |}.

(** An empty application at ten o'clock (in milliseconds of the day). *)
Definition fresh_world : World :=
  {| ls_users := []; ls_expenses := []; ls_appointments := [];
     ls_current_user := None; ls_faults := []; entropy := uuid; drawn := 0;
     clock := 36000000; timers := []; chat_script := []; chat_log := [];
     spoken := []; messages := []; activeAlert := None; alert_log := [] |}.

(** An appointment of Amina due [d] milliseconds from ten o'clock. *)
Definition dentist (d : Z) : Appointment :=
  {| id := "a-1"; userId := "amina@example.com"; title := Some "Dentist";
     date := Some (36000000 + d); status := Some "scheduled"; type := "reminder";
     createdAt := 0; notified := Some false |}.

(** A typed turn answered with two function calls, then with a text. *)
Definition two_calls : list FunctionCall :=
  [ {| fc_id := "call-1"; fc_name := "addExpense";
       fc_args :=
         {| a_id := None; a_amount := Some (Num 50); a_category := Some "Food";
            a_description := Some "tajine"; a_date := Some (Some 0);
            a_title := None; a_type := None; a_status := None;
            a_prefilledDescription := None |} |};
    {| fc_id := "call-2"; fc_name := "addAppointment";
       fc_args :=
         {| a_id := None; a_amount := None; a_category := None;
            a_description := None; a_date := Some (Some 37800000);
            a_title := Some "Dentist"; a_type := None; a_status := None;
            a_prefilledDescription := None |} |} ].

Definition reply_with_calls : GenerateContentResponse :=
  {| text := Some "Wakha"; functionCalls := Some two_calls |}.

Definition follow_up : GenerateContentResponse :=
  {| text := Some "Safi, qiyedt kolchi."; functionCalls := None |}.

Definition silent : GenerateContentResponse :=
  {| text := None; functionCalls := None |}.

Definition chat_world (script : list (Error + GenerateContentResponse)) : World :=
  with_chat script [] (with_users [amina] fresh_world).

(** A reply that only sets the budget. *)
Definition budget_call : GenerateContentResponse :=
  {| text := None;
     functionCalls :=
       Some [ {| fc_id := "call-1"; fc_name := "setBudget";
                 fc_args := amount_arg (Num 3000) |} ] |}.

(** A live session that is playing two queued frames. *)
Definition playing : LiveAssistant.Session :=
  LiveAssistant.schedule 24000 [0; 0; 0; 0]
    (LiveAssistant.schedule 24000 [1; 2; 3] LiveAssistant.mount).

Definition interruption : LiveAssistant.LiveServerMessage :=
  {| LiveAssistant.toolCall := None; LiveAssistant.inlineData := None;
     LiveAssistant.interrupted := true |}.

(** Another appointment of Amina, two hours overdue at ten o'clock. *)
Definition dentist_overdue : Appointment :=
  {| id := "a-2"; userId := "amina@example.com"; title := Some "Bank";
     date := Some (36000000 - 7200000); status := Some "scheduled";
     type := "meeting"; createdAt := 0; notified := Some false |}.

(** A day of Amina: she asks for a reminder due in 30 s, the scheduler
    runs, she marks the appointment, the clock moves, the application
    restarts, and the scheduler runs again and again. *)
Definition reminder_args : Args :=
  {| a_id := None; a_amount := None; a_category := None; a_description := None;
     a_date := Some (Some 36030000); a_title := Some "Call Said";
     a_type := Some "call"; a_status := None; a_prefilledDescription := None |}.

Definition a_day : list Event :=
  [ Tool "addAppointment" reminder_args amina;
    Check amina;
    Check amina;
    Tool "updateAppointmentStatus"
      {| a_id := Some "id"; a_amount := None; a_category := None;
         a_description := None; a_date := None; a_title := None; a_type := None;
         a_status := Some "scheduled"; a_prefilledDescription := None |} amina;
    Tick 36040000;
    Restart;
    Check amina;
    Tool "addAppointment" reminder_args amina;
    Check amina ].



(** Amina's account with one expense and one appointment. *)
Definition lunch : Expense :=
  {| e_id := "e-1"; e_userId := "amina@example.com"; e_amount := Some (Num 50);
     e_category := Some "Food"; e_description := Some "tajine";
     e_date := Some 0; e_createdAt := 0 |}.

Definition busy_world : World :=
  with_expenses [lunch]
    (with_appointments [dentist 1800000] (with_users [amina] fresh_world)).

(** A second user, who owns nothing in [busy_world]. *)
Definition omar : User :=
  {| email := "omar@example.com"; name := "Omar"; password := None;
     budget := Some (Num 2000) |}.

(** An appointment of Amina whose date does not parse. *)
Definition undated : Appointment :=
  {| id := "a-3"; userId := "amina@example.com"; title := Some "Souk";
     date := None; status := Some "scheduled"; type := "reminder";
     createdAt := 0; notified := Some false |}.

(** A third appointment of Amina, due thirty seconds after ten. *)
Definition pharmacy : Appointment :=
  {| id := "a-9"; userId := "amina@example.com"; title := Some "Pharmacy";
     date := Some (36000000 + 30000); status := Some "scheduled";
     type := "reminder"; createdAt := 0; notified := Some false |}.

(** * Properties *)

(** ** Lists *)

Section list_facts.
Context {A : Type}.
Implicit Types (p : A -> bool) (l : list A) (cmp : A -> A -> option Z).

Lemma find_None p l : find p l = None <-> forall x, x ∈ l -> p x = false.
Proof.
  induction l as [|y l IH]; simpl.
  - split; [intros _ x Hx; inversion Hx | done].
  - destruct (p y) eqn:Hy.
    + split; [done | intros H; specialize (H y); rewrite Hy in H].
      discriminate H. left.
    + rewrite IH. split.
      * intros H x Hx. apply elem_of_cons in Hx as [->|Hx]; auto.
      * intros H x Hx. apply H. by right.
Qed.

Lemma find_Some p l x : find p l = Some x -> x ∈ l /\ p x = true.
Proof.
  induction l as [|y l IH]; simpl; [done|].
  destruct (p y) eqn:Hy.
  - intros [= <-]. split; [left | done].
  - intros H. destruct (IH H). split; [by right | done].
Qed.

Lemma findIndex_None p l : findIndex p l = None <-> forall x, x ∈ l -> p x = false.
Proof.
  induction l as [|y l IH]; simpl.
  - split; [intros _ x Hx; inversion Hx | done].
  - destruct (p y) eqn:Hy.
    + split; [done | intros H; specialize (H y); rewrite Hy in H].
      discriminate H. left.
    + destruct (findIndex p l) eqn:Hf; simpl.
      * split; [done|]. intros H.
        assert (Some n = None) as Hc; [|done].
        apply IH. intros x Hx. apply H. by right.
      * split; [|done]. intros _ x Hx.
        apply elem_of_cons in Hx as [->|Hx]; [done|]. by apply IH.
Qed.

Lemma findIndex_Some p l i :
  findIndex p l = Some i ->
  exists x, l !! i = Some x /\ p x = true
            /\ forall j y, (j < i)%nat -> l !! j = Some y -> p y = false.
Proof.
  revert i. induction l as [|y l IH]; simpl; [done|]. intros i.
  destruct (p y) eqn:Hy.
  - intros [= <-]. exists y. split_and!; [done..|]. intros j z Hj. lia.
  - destruct (findIndex p l) as [k|] eqn:Hf; simpl; [|done].
    intros [= <-]. destruct (IH k eq_refl) as (x & Hx & Hp & Hlt).
    exists x. split_and!; [done..|].
    intros [|j] z Hj; simpl; [by intros [= <-]|].
    apply Hlt. lia.
Qed.

Lemma sort_insert_Permutation cmp x l : sort_insert cmp x l ≡ₚ x :: l.
Proof.
  induction l as [|y l IH]; simpl; [done|].
  destruct (cmp_positive (cmp x y)); [|done].
  rewrite IH. apply Permutation_swap.
Qed.

Lemma Array_sort_Permutation cmp l : Array_sort cmp l ≡ₚ l.
Proof.
  induction l as [|y l IH]; simpl; [done|].
  unfold Array_sort in *. simpl.
  by rewrite sort_insert_Permutation, IH.
Qed.

Lemma elem_of_Array_sort cmp l x : x ∈ Array_sort cmp l <-> x ∈ l.
Proof. by rewrite Array_sort_Permutation. Qed.

End list_facts.

(** ** The monad *)

Ltac unfold_m :=
  unfold bind, ret, throw, try_catch, gets, modify, delay, Date_now,
    randomUUID, setItem in *.

Ltac unfold_storage :=
  unfold storageService.register, storageService.login,
    storageService.updateUser, storageService.setCurrentUser,
    storageService.addExpense, storageService.updateExpense,
    storageService.getExpenses, storageService.deleteExpense,
    storageService.getAllExpensesRaw, storageService.saveExpenses,
    storageService.addAppointment, storageService.getAppointments,
    storageService.updateAppointment, storageService.deleteAppointment,
    storageService.getAllAppointmentsRaw, storageService.saveAppointments in *.

(** Two worlds with the same components are the same world. *)
Lemma World_ext (w w' : World) :
  ls_users w = ls_users w' -> ls_expenses w = ls_expenses w' ->
  ls_appointments w = ls_appointments w' ->
  ls_current_user w = ls_current_user w' -> ls_faults w = ls_faults w' ->
  entropy w = entropy w' -> drawn w = drawn w' -> clock w = clock w' ->
  timers w = timers w' -> chat_script w = chat_script w' ->
  chat_log w = chat_log w' -> spoken w = spoken w' ->
  messages w = messages w' -> activeAlert w = activeAlert w' ->
  alert_log w = alert_log w' -> w = w'.
Proof. destruct w, w'; simpl; intros; by subst. Qed.

Ltac world_ext :=
  apply World_ext; simpl; rewrite <- ?app_assoc, ?app_nil_r; try reflexivity.

Lemma bind_Return {A B} (m : M A) (k : A -> M B) (w w1 : World) (a : A) :
  m w = (Return a, w1) -> bind m k w = k a w1.
Proof. unfold bind. by intros ->. Qed.

Lemma bind_Throw {A B} (m : M A) (k : A -> M B) (w w1 : World) (e : Error) :
  m w = (Throw e, w1) -> bind m k w = (Throw e, w1).
Proof. unfold bind. by intros ->. Qed.

Lemma try_catch_Return {A} (m : M A) (h : Error -> M A) (w w1 : World) (a : A) :
  m w = (Return a, w1) -> try_catch m h w = (Return a, w1).
Proof. unfold try_catch. by intros ->. Qed.

Lemma try_catch_Throw {A} (m : M A) (h : Error -> M A) (w w1 : World) (e : Error) :
  m w = (Throw e, w1) -> try_catch m h w = h e w1.
Proof. unfold try_catch. by intros ->. Qed.

(** *** Preserved observations *)

Section preserves.
Context {X : Type} (f : World -> X).

Lemma preserves_ret {A} (a : A) : preserves f (ret a).
Proof. done. Qed.

Lemma preserves_throw {A} (e : Error) : preserves f (@throw A e).
Proof. done. Qed.

Lemma preserves_gets {A} (g : World -> A) : preserves f (gets g).
Proof. done. Qed.

Lemma preserves_bind {A B} (m : M A) (k : A -> M B) :
  preserves f m -> (forall a, preserves f (k a)) -> preserves f (bind m k).
Proof.
  intros Hm Hk w. unfold bind. specialize (Hm w).
  destruct (m w) as [[a|e] w1]; simpl in *; [|done].
  by rewrite Hk.
Qed.

Lemma preserves_try_catch {A} (m : M A) (h : Error -> M A) :
  preserves f m -> (forall e, preserves f (h e)) -> preserves f (try_catch m h).
Proof.
  intros Hm Hh w. unfold try_catch. specialize (Hm w).
  destruct (m w) as [[a|e] w1]; simpl in *; [done|].
  by rewrite Hh.
Qed.

Lemma preserves_modify (g : World -> World) :
  (forall w, f (g w) = f w) -> preserves f (modify g).
Proof. intros Hg w. apply Hg. Qed.

Lemma preserves_setItem (store : World -> World) :
  (forall w, f (store w) = f w) ->
  (forall fs w, f (with_faults fs w) = f w) ->
  preserves f (setItem store).
Proof.
  intros Hs Hf w. unfold setItem.
  destruct (ls_faults w) as [|[m|] fs]; simpl; by rewrite ?Hs, ?Hf.
Qed.

End preserves.

(** ** storageService.register *)

Lemma number_or_falsy (x : option number) (d : number) :
  x = None \/ (exists n, x = Some n /\ number_truthy n = false) ->
  number_or x d = d.
Proof. intros [->|(n & -> & Hn)]; simpl; [done|]. by rewrite Hn. Qed.

Lemma number_or_positive (q : Q) (d : number) :
  (0 < q)%Q -> number_or (Some (Num q)) d = Num q.
Proof.
  intros Hq. simpl. destruct (Qeq_bool q 0) eqn:E; [|done].
  apply Qeq_bool_iff in E. rewrite E in Hq. by apply Qlt_irrefl in Hq.
Qed.

(** C10. [register] stores the user with budget 5000 whenever the given
    budget is missing or falsy (so an explicit 0 becomes 5000) and keeps
    a positive budget as given: when no user has the email yet and the
    storage accepts the writes, the returned user is the one appended
    to the stored users and made the current user, and its budget is as
    said. *)
Theorem register_default_budget (u : User) (w : World) :
  find (fun x => String.eqb (email x) (email u)) (ls_users w) = None ->
  ls_faults w = [] ->
  exists (newUser : User) (w' : World),
    storageService.register u w = (Return newUser, w')
    /\ ls_users w' = ls_users w ++ [newUser]
    /\ ls_current_user w' = Some newUser
    /\ email newUser = email u /\ name newUser = name u
    /\ ((budget u = None \/ exists n, budget u = Some n /\ number_truthy n = false) ->
        budget newUser = Some (Num 5000))
    /\ (budget u = Some (Num 0) -> budget newUser = Some (Num 5000))
    /\ (forall q, budget u = Some (Num q) -> (0 < q)%Q -> budget newUser = Some (Num q)).
Proof.
  intros Hnew Hok.
  exists (set_budget u (Some (number_or (budget u) (Num 5000)))).
  unfold storageService.register, storageService.setCurrentUser. unfold_m.
  simpl. rewrite Hnew. simpl. rewrite Hok. simpl. rewrite Hok.
  eexists. split; [reflexivity|]. simpl. split_and!; try done.
  - intros H. by rewrite number_or_falsy.
  - by intros ->.
  - intros q -> Hq. by rewrite number_or_positive.
Qed.

Lemma register_default_budget_witness :
  exists (newUser : User) (w' : World),
    storageService.register (set_budget amina (Some (Num 0))) fresh_world
      = (Return newUser, w')
    /\ budget newUser = Some (Num 5000).
Proof.
  destruct (register_default_budget (set_budget amina (Some (Num 0))) fresh_world)
    as (newUser & w' & Hr & _ & _ & _ & _ & _ & Hzero & _);
    [reflexivity | reflexivity |].
  exists newUser, w'. split; [exact Hr | apply Hzero; reflexivity].
Defined.

(** ** tools.executeExpenseTool *)

Lemma filter_strict_eq_all (i : string) (l : list Appointment) :
  (forall a, a ∈ l -> id a <> i) ->
  filter (fun a => strict_eq (id a) (Some i) = false) l = l.
Proof.
  induction l as [|a l IH]; intros H; [done|].
  rewrite filter_cons_True.
  - f_equal. apply IH. intros b Hb. apply H. by right.
  - simpl. apply String.eqb_neq, H. left.
Qed.

(** C8. With an id that no stored record has, [updateExpense] and
    [updateAppointmentStatus] return their not-found error and leave
    the storage as it is; [deleteAppointment] returns its usual success
    result (when the storage accepts the write) and the storage holds
    the same records. *)
Theorem unknown_id_results (i : string) (args : Args) (u : User) (w : World) :
  a_id args = Some i ->
  (forall e, e ∈ ls_expenses w -> e_id e <> i) ->
  (forall a, a ∈ ls_appointments w -> id a <> i) ->
  (exists w1,
     tools.executeExpenseTool "updateExpense" args u w
       = (Return (tools.error_of "Expense not found"), w1)
     /\ same_store w w1)
  /\ (exists w2,
        tools.executeExpenseTool "updateAppointmentStatus" args u w
          = (Return (tools.error_of "Appointment not found"), w2)
        /\ same_store w w2)
  /\ (ls_faults w = [] ->
      exists w3,
        tools.executeExpenseTool "deleteAppointment" args u w
          = (Return (tools.result_of (Text "Appointment deleted")), w3)
        /\ same_store w w3).
Proof.
  intros Hid Hexp Happ. split_and!.
  - unfold tools.executeExpenseTool, tools.dispatch. simpl.
    unfold_storage. unfold_m. simpl.
    assert (find (fun e => strict_eq (e_id e) (a_id args))
              (Array_sort (fun a b => getTime_diff (e_date b) (e_date a))
                 (filter (fun e => e_userId e = email u) (ls_expenses w))) = None)
      as ->.
    { apply find_None. intros e He. apply elem_of_Array_sort in He.
      apply list_elem_of_filter in He as [_ He]. rewrite Hid. simpl.
      apply String.eqb_neq. by apply Hexp. }
    eexists. split; [reflexivity|]. by repeat split.
  - unfold tools.executeExpenseTool, tools.dispatch. simpl.
    unfold_storage. unfold_m. simpl.
    assert (find (fun a => strict_eq (id a) (a_id args))
              (Array_sort (fun a b => getTime_diff (date a) (date b))
                 (filter (fun a => userId a = email u) (ls_appointments w))) = None)
      as ->.
    { apply find_None. intros a Ha. apply elem_of_Array_sort in Ha.
      apply list_elem_of_filter in Ha as [_ Ha]. rewrite Hid. simpl.
      apply String.eqb_neq. by apply Happ. }
    eexists. split; [reflexivity|]. by repeat split.
  - intros Hok. unfold tools.executeExpenseTool, tools.dispatch. simpl.
    unfold_storage. unfold_m. simpl. rewrite Hok, Hid. simpl.
    eexists. split; [reflexivity|]. repeat split; simpl.
    by apply filter_strict_eq_all.
Qed.

Lemma unknown_id_results_witness :
  (exists w1,
     tools.executeExpenseTool "updateExpense" (id_arg "nobody") amina busy_world
       = (Return (tools.error_of "Expense not found"), w1)
     /\ same_store busy_world w1)
  /\ (exists w2,
        tools.executeExpenseTool "updateAppointmentStatus" (id_arg "nobody") amina
          busy_world
          = (Return (tools.error_of "Appointment not found"), w2)
        /\ same_store busy_world w2)
  /\ (ls_faults busy_world = [] ->
      exists w3,
        tools.executeExpenseTool "deleteAppointment" (id_arg "nobody") amina
          busy_world
          = (Return (tools.result_of (Text "Appointment deleted")), w3)
        /\ same_store busy_world w3).
Proof.
  apply (unknown_id_results "nobody" (id_arg "nobody") amina busy_world).
  - reflexivity.
  - intros e He. apply list_elem_of_singleton in He. subst e. discriminate.
  - intros a Ha. apply list_elem_of_singleton in Ha. subst a. discriminate.
Defined.

Lemma eqb_not_elem (name x : string) (l : list string) :
  name ∉ l -> x ∈ l -> String.eqb name x = false.
Proof. intros Hn Hx. apply String.eqb_neq. by intros ->. Qed.

(** C9. [executeExpenseTool] always returns a result object, whatever
    the name, the arguments, the user and the state of the world: a
    name outside the declared tools gives the error result
    [Unknown tool]; an exception thrown inside the [try] block is
    returned as the error result with its message; in particular, when
    the storage refuses the write of [addExpense], [addAppointment] or
    [deleteAppointment] with message [m], the result is [{error: m}]. *)
Theorem executeExpenseTool_never_throws (name : string) (args : Args) (u : User)
    (w : World) :
  exists (r : ToolResult) (w' : World),
    tools.executeExpenseTool name args u w = (Return r, w')
    /\ (name ∉ tools.expenseTools -> r = tools.error_of "Unknown tool" /\ w' = w)
    /\ (forall e w1, tools.dispatch name args u w = (Throw e, w1) ->
          r = tools.error_of (message e) /\ w' = w1)
    /\ (forall r1 w1, tools.dispatch name args u w = (Return r1, w1) ->
          r = r1 /\ w' = w1)
    /\ (forall m fs, ls_faults w = Some m :: fs ->
          name ∈ ["addExpense"; "addAppointment"; "deleteAppointment"] ->
          r = tools.error_of m).
Proof.
  unfold tools.executeExpenseTool, try_catch.
  destruct (tools.dispatch name args u w) as [[r|e] w'] eqn:Hd.
  - exists r, w'. split; [done|]. split_and!.
    + intros Hn. unfold tools.dispatch in Hd.
      rewrite !(eqb_not_elem name _ tools.expenseTools Hn) in Hd
        by (unfold tools.expenseTools; repeat constructor).
      by injection Hd as <- <-.
    + intros ?? [=].
    + by intros ?? [= <- <-].
    + intros m fs Hf Hn. exfalso. revert Hd.
      unfold tools.dispatch. unfold_storage. unfold_m.
      repeat (apply elem_of_cons in Hn as [->|Hn]);
        [simpl; rewrite Hf; done.. | inversion Hn].
  - exists (tools.error_of (message e)), w'. split; [done|]. split_and!.
    + intros Hn. unfold tools.dispatch in Hd.
      rewrite !(eqb_not_elem name _ tools.expenseTools Hn) in Hd
        by (unfold tools.expenseTools; repeat constructor).
      discriminate Hd.
    + by intros ?? [= <- <-].
    + intros ?? [=].
    + intros m fs Hf Hn. revert Hd.
      unfold tools.dispatch. unfold_storage. unfold_m.
      repeat (apply elem_of_cons in Hn as [->|Hn]);
        [simpl; rewrite Hf; by intros [= <- _].. | inversion Hn].
Qed.

(** A full storage during [addExpense]: the call returns the error. *)
Example refused_write_is_reported :
  (tools.executeExpenseTool "addExpense" (amount_arg (Num 50)) amina
     (with_faults [Some "QuotaExceededError"] fresh_world)).1
  = Return (tools.error_of "QuotaExceededError").
Proof. reflexivity. Qed.

(** ** ChatBot.sendMessageWithRetry *)

Lemma retry_first (p : Payload) (w : World) r s :
  chat_script w = inr r :: s ->
  ChatBot.sendMessageWithRetry true p w
  = (Return r, with_chat s (chat_log w ++ [p]) w).
Proof.
  intros H. unfold ChatBot.sendMessageWithRetry. simpl.
  unfold try_catch, ChatBot.sendMessage. by rewrite H.
Qed.

Lemma retry_second (p : Payload) (w : World) e1 r s :
  chat_script w = inl e1 :: inr r :: s ->
  ChatBot.sendMessageWithRetry true p w
  = (Return r,
     with_chat s (chat_log w ++ [p; p]) (with_timers (timers w ++ [1000]) w)).
Proof.
  intros H. unfold ChatBot.sendMessageWithRetry. simpl.
  unfold try_catch, ChatBot.sendMessage. unfold_m. rewrite H. simpl.
  f_equal. world_ext.
Qed.

Lemma retry_third (p : Payload) (w : World) e1 e2 r s :
  chat_script w = inl e1 :: inl e2 :: inr r :: s ->
  ChatBot.sendMessageWithRetry true p w
  = (Return r,
     with_chat s (chat_log w ++ [p; p; p])
       (with_timers (timers w ++ [1000; 2000]) w)).
Proof.
  intros H. unfold ChatBot.sendMessageWithRetry. simpl.
  unfold try_catch, ChatBot.sendMessage. unfold_m. rewrite H. simpl.
  f_equal. world_ext.
Qed.

Lemma retry_exhausted (p : Payload) (w : World) e1 e2 e3 s :
  chat_script w = inl e1 :: inl e2 :: inl e3 :: s ->
  ChatBot.sendMessageWithRetry true p w
  = (Throw e3,
     with_chat s (chat_log w ++ [p; p; p])
       (with_timers (timers w ++ [1000; 2000; 3000]) w)).
Proof.
  intros H. unfold ChatBot.sendMessageWithRetry. simpl.
  unfold try_catch, ChatBot.sendMessage. unfold_m. rewrite H. simpl.
  f_equal. world_ext.
Qed.

(** Whatever the service does, a call makes one, two or three attempts
    with the same payload and waits 1000 ms times the number of the
    failed attempt after each failure; it touches nothing else. *)
Lemma retry_attempts (p : Payload) (w : World) :
  exists (k : nat) (waits : list Z) (s : list (Error + GenerateContentResponse)),
    (ChatBot.sendMessageWithRetry true p w).2
    = with_chat s (chat_log w ++ replicate k p) (with_timers (timers w ++ waits) w)
    /\ (1 <= k <= 3)%nat
    /\ match (ChatBot.sendMessageWithRetry true p w).1 with
       | Return _ => waits = (fun j => 1000 * Z.of_nat j) <$> seq 1 (k - 1)
       | Throw _ => k = 3%nat /\ waits = [1000 * 1; 1000 * 2; 1000 * 3]
       end.
Proof.
  unfold ChatBot.sendMessageWithRetry. simpl.
  unfold try_catch, ChatBot.sendMessage. unfold_m.
  destruct (chat_script w) as [|[e1|r1] s1] eqn:H1; simpl; rewrite ?H1; simpl.
  - exists 3%nat, [1000; 2000; 3000], []. split; [world_ext|split; [lia|done]].
  - destruct s1 as [|[e2|r2] s2]; simpl.
    + exists 3%nat, [1000; 2000; 3000], []. split; [world_ext|split; [lia|done]].
    + destruct s2 as [|[e3|r3] s3]; simpl.
      * exists 3%nat, [1000; 2000; 3000], [].
        split; [world_ext|split; [lia|done]].
      * exists 3%nat, [1000; 2000; 3000], s3.
        split; [world_ext|split; [lia|done]].
      * exists 3%nat, [1000; 2000], s3. split; [world_ext|split; [lia|done]].
    + exists 2%nat, [1000], s2. split; [world_ext|split; [lia|done]].
  - exists 1%nat, [], s1. split; [world_ext|split; [lia|done]].
Qed.

Arguments ChatBot.sendMessageWithRetry : simpl never.

(** ** ChatBot.handleSend *)

Lemma handleSend_started (u : User) (t : string) (blob : option ChatBot.Blob)
    (d : option number) (w : World) :
  string_truthy t || bool_decide (is_Some blob) = true ->
  ChatBot.handleSend true u t blob d w
  = try_catch (ChatBot.turn true u t blob)
      (fun error => ChatBot.setMessages_push (ChatBot.error_message error))
      (with_messages (messages w ++ [ChatBot.user_message t blob d]) w).
Proof.
  intros Ht. unfold ChatBot.handleSend.
  destruct (string_truthy t), (bool_decide (is_Some blob)); done.
Qed.

Lemma handleSend_typed (u : User) (t : string) (d : option number) (w : World) :
  string_truthy t = true ->
  ChatBot.handleSend true u t None d w
  = try_catch (ChatBot.turn true u t None)
      (fun error => ChatBot.setMessages_push (ChatBot.error_message error))
      (with_messages (messages w ++ [ChatBot.user_message t None d]) w).
Proof. intros Ht. apply handleSend_started. by rewrite Ht. Qed.

(** C6. A send makes at most three attempts with the same payload and
    waits 1000 ms times the number of the failed attempt before the
    next one; when three attempts fail the error of the third is thrown,
    and [handleSend] shows it as the error turn; when the first two
    fail and the third succeeds, the reply is returned after waits of
    1000 and 2000 ms, and a typed turn whose reply carries no function
    call ends with the user turn and the reply in the history,
    without an error turn. *)
Theorem bounded_retry (p : Payload) (u : User) (t : string) (d : option number)
    (w : World) :
  (exists (k : nat) (waits : list Z) (s : list (Error + GenerateContentResponse)),
     (ChatBot.sendMessageWithRetry true p w).2
     = with_chat s (chat_log w ++ replicate k p) (with_timers (timers w ++ waits) w)
     /\ (1 <= k <= 3)%nat
     /\ match (ChatBot.sendMessageWithRetry true p w).1 with
        | Return _ => waits = (fun j => 1000 * Z.of_nat j) <$> seq 1 (k - 1)
        | Throw _ => k = 3%nat /\ waits = [1000 * 1; 1000 * 2; 1000 * 3]
        end)
  /\ (forall e1 e2 e3 s,
        chat_script w = inl e1 :: inl e2 :: inl e3 :: s ->
        (ChatBot.sendMessageWithRetry true p w).1 = Throw e3
        /\ (string_truthy t = true ->
            (ChatBot.handleSend true u t None d w).1 = Return tt
            /\ messages (ChatBot.handleSend true u t None d w).2
               = messages w ++ [ChatBot.user_message t None d; ChatBot.error_message e3]))
  /\ (forall e1 e2 r s,
        chat_script w = inl e1 :: inl e2 :: inr r :: s ->
        (ChatBot.sendMessageWithRetry true p w).1 = Return r
        /\ timers (ChatBot.sendMessageWithRetry true p w).2
           = timers w ++ [1000 * 1; 1000 * 2]
        /\ (string_truthy t = true ->
            functionCalls r = None \/ functionCalls r = Some [] ->
            let reply := string_or (text r) "" in
            (ChatBot.handleSend true u t None d w).1 = Return tt
            /\ messages (ChatBot.handleSend true u t None d w).2
               = messages w ++
                 ChatBot.user_message t None d ::
                 (if string_truthy reply
                  then [ChatBot.model_message reply ChatBot.no_extra] else [])
            /\ Forall (fun m => isError m = false)
                 (drop (length (messages w))
                    (messages (ChatBot.handleSend true u t None d w).2)))).
Proof.
  split; [apply retry_attempts|]. split.
  - intros e1 e2 e3 s Hs. rewrite (retry_exhausted _ _ _ _ _ _ Hs).
    split; [done|]. intros Ht. rewrite handleSend_typed by done.
    erewrite try_catch_Throw; cycle 1.
    { unfold ChatBot.turn, ChatBot.first_send.
      apply bind_Throw. eapply retry_exhausted. simpl. exact Hs. }
    unfold ChatBot.setMessages_push, modify. simpl.
    split; [done|]. by rewrite <- app_assoc.
  - intros e1 e2 r s Hs. rewrite (retry_third _ _ _ _ _ _ Hs).
    split; [done|]. split; [done|]. intros Ht Hfc reply.
    rewrite handleSend_typed by done.
    assert (ChatBot.resolve true u r = ret (reply, ChatBot.no_extra)) as Hres.
    { unfold ChatBot.resolve. by destruct Hfc as [-> | ->]. }
    destruct (string_truthy reply) eqn:Hr.
    + erewrite try_catch_Return; cycle 1.
      { unfold ChatBot.turn, ChatBot.first_send.
        erewrite bind_Return by (eapply retry_third; simpl; exact Hs).
        rewrite Hres. unfold bind at 1, ret at 1. simpl.
        unfold ChatBot.show_reply. fold reply. rewrite Hr.
        unfold ChatBot.setMessages_push. unfold_m. reflexivity. }
      simpl. rewrite <- app_assoc. simpl. split; [done|]. split; [done|].
      rewrite drop_app_length. repeat constructor.
    + erewrite try_catch_Return; cycle 1.
      { unfold ChatBot.turn, ChatBot.first_send.
        erewrite bind_Return by (eapply retry_third; simpl; exact Hs).
        rewrite Hres. unfold bind at 1, ret at 1. simpl.
        unfold ChatBot.show_reply. fold reply. rewrite Hr. reflexivity. }
      simpl. split; [done|]. split; [done|].
      rewrite drop_app_length. repeat constructor.
Qed.

(** Two failures, then an answer: the turn completes after waits of one
    and two seconds, with three sends and no error turn. *)
Example third_attempt_succeeds :
  let w := chat_world [inl {| message := "503" |}; inl {| message := "503" |};
                       inr follow_up] in
  let w' := (ChatBot.handleSend true amina "salam" None None w).2 in
  timers w' = [1000; 2000]
  /\ chat_log w' = [MessageText "salam"; MessageText "salam"; MessageText "salam"]
  /\ messages w'
     = [ChatBot.user_message "salam" None None;
        ChatBot.model_message "Safi, qiyedt kolchi." ChatBot.no_extra].
Proof. vm_compute. done. Qed.

(** Three failures: the error of the third attempt is the one shown. *)
Example three_failures_show_the_last :
  let w := chat_world [inl {| message := "first" |}; inl {| message := "second" |};
                       inl {| message := "third" |}; inr follow_up] in
  let w' := (ChatBot.handleSend true amina "salam" None None w).2 in
  timers w' = [1000; 2000; 3000]
  /\ (m_text <$> messages w') = [Some "salam"; Some "Mochkil: third"]
  /\ (isError <$> messages w') = [false; true].
Proof. vm_compute. done. Qed.

(** ** What the tool bridge leaves alone *)

Lemma preserves_delay (ms : Z) : preserves outside_storage (delay ms).
Proof. by apply preserves_modify. Qed.

Lemma preserves_randomUUID : preserves outside_storage randomUUID.
Proof. done. Qed.

Ltac preserves_step :=
  first
    [ apply preserves_ret | apply preserves_throw | apply preserves_gets
    | apply preserves_delay | apply preserves_randomUUID
    | apply preserves_modify; intros ?; reflexivity
    | apply preserves_setItem; [intros ?; reflexivity | intros ? ?; reflexivity]
    | apply preserves_bind; [|intros ?]
    | apply preserves_try_catch; [|intros ?]
    | match goal with
      | |- preserves _ (match ?x with _ => _ end) => destruct x
      end ].

Lemma preserves_dispatch (name : string) (args : Args) (u : User) :
  preserves outside_storage (tools.dispatch name args u).
Proof.
  unfold tools.dispatch. unfold_storage. unfold Date_now.
  repeat preserves_step.
Qed.

Lemma preserves_executeExpenseTool (name : string) (args : Args) (u : User) :
  preserves outside_storage (tools.executeExpenseTool name args u).
Proof.
  apply preserves_try_catch; [apply preserves_dispatch|].
  intros e. apply preserves_ret.
Qed.

(** The bridge returns, whatever happens inside. *)
Lemma executeExpenseTool_returns (name : string) (args : Args) (u : User)
    (w : World) :
  exists r, (tools.executeExpenseTool name args u w).1 = Return r.
Proof.
  unfold tools.executeExpenseTool, try_catch.
  destruct (tools.dispatch name args u w) as [[r|e] w']; simpl; eauto.
Qed.

(** *** The loop over the function calls *)

Lemma has_card_after (fc : FunctionCall) (r : ToolResult) (x : ChatBot.MsgExtra) :
  has_card (ChatBot.msgExtra_after fc r x)
  = has_card x
    || carries_card (FunctionResponse (fc_id fc) (fc_name fc) (ToolResponse r)).
Proof.
  unfold ChatBot.msgExtra_after, has_card, carries_card.
  destruct (tr_expense r) as [e|], (tr_appointment r) as [a|],
    (String.eqb (fc_name fc) "addExpense"),
    (String.eqb (fc_name fc) "addAppointment"); simpl;
    rewrite ?orb_true_r, ?orb_false_r; done.
Qed.

Lemma run_calls_spec (u : User) (fcs : list FunctionCall) :
  forall (acc : list Part) (x : ChatBot.MsgExtra) (w : World),
  exists (results : list Part) (x' : ChatBot.MsgExtra) (w' : World),
    ChatBot.run_calls u fcs acc x w = (Return (acc ++ results, x'), w')
    /\ Forall2 answers fcs results
    /\ chat_log w' = chat_log w /\ chat_script w' = chat_script w
    /\ spoken w' = spoken w
    /\ messages w' = messages w ++ form_turns fcs
    /\ has_card x' = has_card x || existsb carries_card results.
Proof.
  induction fcs as [|fc rest IH]; intros acc x w; simpl.
  - exists [], x, w. unfold ret. rewrite !app_nil_r, orb_false_r.
    split_and!; try done; constructor.
  - unfold form_turns. destruct (String.eqb (fc_name fc) "requestManualEntry") eqn:E.
    + rewrite filter_cons_True by done.
      destruct (IH (acc ++ [FunctionResponse (fc_id fc) (fc_name fc) FormShown]) x
                  (with_messages (messages w ++ [ChatBot.form_message fc]) w))
        as (results & x' & w' & Hrun & Hans & Hlog & Hscr & Hsp & Hmsg & Hcard).
      exists (FunctionResponse (fc_id fc) (fc_name fc) FormShown :: results), x', w'.
      unfold bind, ChatBot.setMessages_push, modify. rewrite Hrun.
      rewrite <- app_assoc. split_and!; try done.
      * constructor; [by eexists | done].
      * rewrite Hmsg. simpl. by rewrite <- app_assoc.
    + rewrite filter_cons_False by (by rewrite E).
      pose proof (preserves_executeExpenseTool (fc_name fc) (fc_args fc) u w) as Hp.
      destruct (executeExpenseTool_returns (fc_name fc) (fc_args fc) u w) as [r Hr].
      destruct (tools.executeExpenseTool (fc_name fc) (fc_args fc) u w)
        as [o w1] eqn:Hexec.
      simpl in Hr, Hp. subst o. injection Hp as Hscr1 Hlog1 Hsp1 Hmsg1 _ _ _ _.
      destruct (IH (acc ++ [FunctionResponse (fc_id fc) (fc_name fc) (ToolResponse r)])
                  (ChatBot.msgExtra_after fc r x) w1)
        as (results & x' & w' & Hrun & Hans & Hlog & Hscr & Hsp & Hmsg & Hcard).
      exists (FunctionResponse (fc_id fc) (fc_name fc) (ToolResponse r) :: results),
        x', w'.
      unfold bind. rewrite Hexec, Hrun. rewrite <- app_assoc.
      split_and!; try done; try congruence.
      * constructor; [by eexists | done].
      * by rewrite Hmsg, Hmsg1.
      * rewrite Hcard, has_card_after. simpl. by rewrite <- orb_assoc.
Qed.

Lemma retry_outside_chat (p : Payload) (w : World) :
  messages (ChatBot.sendMessageWithRetry true p w).2 = messages w
  /\ spoken (ChatBot.sendMessageWithRetry true p w).2 = spoken w
  /\ same_store w (ChatBot.sendMessageWithRetry true p w).2.
Proof.
  destruct (retry_attempts p w) as (k & waits & s & -> & _). by repeat split.
Qed.

Lemma first_send_messages (t : string) (blob : option ChatBot.Blob) (w : World) :
  messages (ChatBot.first_send true t blob w).2 = messages w.
Proof.
  unfold ChatBot.first_send. destruct blob as [b|]; [|apply retry_outside_chat].
  destruct (ChatBot.size b <? 100); [done | apply retry_outside_chat].
Qed.

Lemma show_reply_spec (b : bool) (t : string) (x : ChatBot.MsgExtra) (w : World) :
  exists w', ChatBot.show_reply b t x w = (Return tt, w')
    /\ messages w' = messages w ++ reply_turns t x
    /\ chat_log w' = chat_log w
    /\ spoken w'
       = spoken w ++ (if b then omap m_text (reply_turns t x) else []).
Proof.
  unfold ChatBot.show_reply, reply_turns, has_card.
  unfold ChatBot.setMessages_push, ChatBot.generateAndPlayAudio. unfold_m.
  destruct (string_truthy t); simpl.
  - destruct b; simpl; eexists; (split; [reflexivity|]); simpl;
      by rewrite ?app_nil_r.
  - destruct (bool_decide (is_Some (ChatBot.x_expenseData x))
              || bool_decide (is_Some (ChatBot.x_appointmentData x))); simpl.
    + destruct b; simpl; eexists; (split; [reflexivity|]); simpl;
        by rewrite ?app_nil_r.
    + eexists. split; [reflexivity|]. destruct b; by rewrite !app_nil_r.
Qed.

(** A turn whose first reply carries function calls, once the follow-up
    is answered: what is left to do is to show the reply. *)
Lemma handleSend_with_calls (u : User) (t : string) (blob : option ChatBot.Blob)
    (d : option number) (w w1 w2 w3 : World) (r r2 : GenerateContentResponse)
    (fc : FunctionCall) (rest : list FunctionCall) (results : list Part)
    (x : ChatBot.MsgExtra) :
  string_truthy t || bool_decide (is_Some blob) = true ->
  ChatBot.first_send true t blob
    (with_messages (messages w ++ [ChatBot.user_message t blob d]) w)
    = (Return r, w1) ->
  functionCalls r = Some (fc :: rest) ->
  ChatBot.run_calls u (fc :: rest) [] ChatBot.no_extra w1
    = (Return (results, x), w2) ->
  ChatBot.sendMessageWithRetry true (MessageParts results) w2 = (Return r2, w3) ->
  ChatBot.handleSend true u t blob d w
  = ChatBot.show_reply (bool_decide (is_Some blob)) (string_or (text r2) "") x w3.
Proof.
  intros Hg H1 Hfc Hrun H2. rewrite handleSend_started by done.
  destruct (show_reply_spec (bool_decide (is_Some blob)) (string_or (text r2) "")
              x w3) as (w4 & Hshow & _).
  rewrite Hshow. apply try_catch_Return.
  unfold ChatBot.turn. erewrite bind_Return by exact H1.
  unfold ChatBot.resolve. rewrite Hfc.
  erewrite bind_Return; cycle 1.
  { erewrite bind_Return by exact Hrun. simpl.
    erewrite bind_Return by exact H2. reflexivity. }
  exact Hshow.
Qed.

Lemma msgExtra_after_card (fc : FunctionCall) (r : ToolResult)
    (x : ChatBot.MsgExtra) :
  ChatBot.msgExtra_after fc r x
  = default x (card_of (FunctionResponse (fc_id fc) (fc_name fc) (ToolResponse r))).
Proof.
  unfold ChatBot.msgExtra_after, card_of.
  destruct (tr_expense r) as [e|], (tr_appointment r) as [a|]; simpl;
    destruct (String.eqb (fc_name fc) "addAppointment");
    destruct (String.eqb (fc_name fc) "addExpense"); done.
Qed.

Lemma last_card_cons (p : Part) (ps : list Part) (x : ChatBot.MsgExtra) :
  default x (last_card (p :: ps)) = default (default x (card_of p)) (last_card ps).
Proof. simpl. by destruct (last_card ps), (card_of p). Qed.

Lemma last_card_None (ps : list Part) :
  last_card ps = None -> Forall (fun q => card_of q = None) ps.
Proof.
  induction ps as [|p ps IH]; [constructor|]. simpl.
  destruct (last_card ps); [done|]. intros Hp. constructor; [done | by apply IH].
Qed.

Lemma last_card_split (ps : list Part) (c : ChatBot.MsgExtra) :
  last_card ps = Some c ->
  exists before p after,
    ps = before ++ p :: after /\ card_of p = Some c
    /\ Forall (fun q => card_of q = None) after.
Proof.
  induction ps as [|p ps IH]; [done|]. simpl.
  destruct (last_card ps) as [c1|] eqn:Hl.
  - intros [= <-]. destruct (IH eq_refl) as (before & q & after & -> & Hq & Hafter).
    by exists (p :: before), q, after.
  - intros Hp. exists [], p, ps. split; [done|]. split; [done|].
    by apply last_card_None.
Qed.

Lemma carries_card_of (p : Part) : carries_card p = bool_decide (is_Some (card_of p)).
Proof.
  destruct p as [| |i name [|r]]; try done. unfold carries_card, card_of.
  destruct (tr_expense r) as [e|], (tr_appointment r) as [a|];
    destruct (String.eqb name "addAppointment") eqn:E1;
    destruct (String.eqb name "addExpense") eqn:E2; try done.
  all: apply String.eqb_eq in E1, E2; congruence.
Qed.

(** The loop of [handleSend] answers the calls as [answered] says, and
    the [msgExtra] it ends with is the card of the last response that
    has one. *)
Lemma run_calls_answered (u : User) (fcs : list FunctionCall) :
  forall (acc : list Part) (x : ChatBot.MsgExtra) (w : World),
  exists (results : list Part) (w' : World),
    ChatBot.run_calls u fcs acc x w
    = (Return (acc ++ results, default x (last_card results)), w')
    /\ answered u fcs w results w'.
Proof.
  induction fcs as [|fc rest IH]; intros acc x w; simpl.
  - exists [], w. unfold ret. rewrite app_nil_r. split; [done | constructor].
  - destruct (String.eqb (fc_name fc) "requestManualEntry") eqn:E.
    + destruct (IH (acc ++ [FunctionResponse (fc_id fc) (fc_name fc) FormShown]) x
                  (with_messages (messages w ++ [ChatBot.form_message fc]) w))
        as (results & w' & Hrun & Hans).
      exists (FunctionResponse (fc_id fc) (fc_name fc) FormShown :: results), w'.
      unfold bind, ChatBot.setMessages_push, modify. rewrite Hrun.
      rewrite <- app_assoc. split; [by rewrite last_card_cons|].
      apply answered_form; [by apply String.eqb_eq | done].
    + destruct (executeExpenseTool_returns (fc_name fc) (fc_args fc) u w) as [r Hr].
      destruct (tools.executeExpenseTool (fc_name fc) (fc_args fc) u w)
        as [o w1] eqn:Hexec.
      simpl in Hr. subst o.
      destruct (IH (acc ++ [FunctionResponse (fc_id fc) (fc_name fc) (ToolResponse r)])
                  (ChatBot.msgExtra_after fc r x) w1)
        as (results & w' & Hrun & Hans).
      exists (FunctionResponse (fc_id fc) (fc_name fc) (ToolResponse r) :: results),
        w'.
      unfold bind. rewrite Hexec, Hrun. rewrite <- app_assoc.
      split; [by rewrite last_card_cons, msgExtra_after_card|].
      eapply answered_tool; [by apply String.eqb_neq | exact Hexec | done].
Qed.

(** C5. When the reply of a turn carries K >= 1 function calls, the loop
    returns exactly K parts, the i-th answering the i-th call with its
    id and name and holding the result the tool bridge returned for
    that call, run in the world the calls before it have left (a
    [requestManualEntry] call is answered [Form shown]); it sends
    nothing to the model meanwhile; the follow-up is one message made
    of these K parts (sent again unchanged only when an attempt fails);
    and once it is answered the history ends with the turn built from
    the text of the follow-up: the text of the first reply appears
    nowhere. *)
Theorem function_calls_answered (u : User) (t : string)
    (blob : option ChatBot.Blob) (d : option number) (w w1 : World)
    (r : GenerateContentResponse) (fc : FunctionCall) (rest : list FunctionCall) :
  string_truthy t || bool_decide (is_Some blob) = true ->
  ChatBot.first_send true t blob
    (with_messages (messages w ++ [ChatBot.user_message t blob d]) w)
    = (Return r, w1) ->
  functionCalls r = Some (fc :: rest) ->
  exists (results : list Part) (x : ChatBot.MsgExtra) (w2 : World),
    ChatBot.run_calls u (fc :: rest) [] ChatBot.no_extra w1
      = (Return (results, x), w2)
    /\ length results = length (fc :: rest)
    /\ Forall2 answers (fc :: rest) results
    /\ answered u (fc :: rest) w1 results w2
    /\ chat_log w2 = chat_log w1
    /\ forall r2 w3,
         ChatBot.sendMessageWithRetry true (MessageParts results) w2
           = (Return r2, w3) ->
         (exists k, (1 <= k <= 3)%nat
            /\ chat_log w3 = chat_log w1 ++ replicate k (MessageParts results))
         /\ (forall s, chat_script w2 = inr r2 :: s ->
               chat_log w3 = chat_log w1 ++ [MessageParts results])
         /\ (ChatBot.handleSend true u t blob d w).1 = Return tt
         /\ messages (ChatBot.handleSend true u t blob d w).2
            = messages w ++ [ChatBot.user_message t blob d]
              ++ form_turns (fc :: rest)
              ++ reply_turns (string_or (text r2) "") x
         /\ (string_truthy (string_or (text r2) "") = true ->
             reply_turns (string_or (text r2) "") x
             = [ChatBot.model_message (string_or (text r2) "") x]).
Proof.
  intros Hg H1 Hfc.
  destruct (run_calls_spec u (fc :: rest) [] ChatBot.no_extra w1)
    as (results & x & w2 & Hrun & Hans & Hlog & Hscr & Hsp & Hmsg & Hcard).
  exists results, x, w2. split; [exact Hrun|].
  split; [symmetry; by eapply Forall2_length|]. split; [done|].
  split.
  { destruct (run_calls_answered u (fc :: rest) [] ChatBot.no_extra w1)
      as (results' & w2' & Hrun' & Hans').
    rewrite Hrun in Hrun'. simpl in Hrun'. injection Hrun' as Hres _ Hw.
    by subst results' w2'. }
  split; [done|].
  intros r2 w3 H2.
  pose proof (retry_attempts (MessageParts results) w2) as (k & waits & s & Hw & Hk & _).
  pose proof (retry_outside_chat (MessageParts results) w2) as (Hm3 & _).
  rewrite H2 in Hw, Hm3. simpl in Hw, Hm3.
  split; [exists k; split; [done|]; by rewrite Hw, <- Hlog|].
  split.
  { intros s' Hs'. rewrite (retry_first _ _ _ _ Hs') in H2.
    injection H2 as <-. simpl. by rewrite Hlog. }
  rewrite (handleSend_with_calls u t blob d w w1 w2 w3 r r2 fc rest results x)
    by done.
  destruct (show_reply_spec (bool_decide (is_Some blob)) (string_or (text r2) "")
              x w3) as (w4 & -> & Hm4 & _).
  simpl. split; [done|]. split.
  - rewrite Hm4, Hm3, Hmsg.
    pose proof (first_send_messages t blob
      (with_messages (messages w ++ [ChatBot.user_message t blob d]) w)) as Hm1.
    rewrite H1 in Hm1. simpl in Hm1. rewrite Hm1. by rewrite <- !app_assoc.
  - intros Ht. unfold reply_turns. by rewrite Ht.
Qed.

Lemma function_calls_answered_witness :
  let w := chat_world [inr reply_with_calls; inr follow_up] in
  exists (results : list Part) (x : ChatBot.MsgExtra) (w2 : World),
    ChatBot.run_calls amina two_calls [] ChatBot.no_extra
      (ChatBot.first_send true "tajine 50 w dentist"  None
         (with_messages
            (messages w ++ [ChatBot.user_message "tajine 50 w dentist" None None])
            w)).2
      = (Return (results, x), w2)
    /\ length results = 2%nat
    /\ Forall2 answers two_calls results
    /\ answered amina two_calls
         (ChatBot.first_send true "tajine 50 w dentist"  None
            (with_messages
               (messages w
                ++ [ChatBot.user_message "tajine 50 w dentist" None None])
               w)).2
         results w2.
Proof.
  intros w.
  destruct (function_calls_answered amina "tajine 50 w dentist" None None w
              (ChatBot.first_send true "tajine 50 w dentist"  None
                 (with_messages
                    (messages w
                     ++ [ChatBot.user_message "tajine 50 w dentist" None None])
                    w)).2
              reply_with_calls
              (hd {| fc_id := ""; fc_name := ""; fc_args := no_args |} two_calls)
              (tl two_calls))
    as (results & x & w2 & Hrun & Hlen & Hans & Htools & _);
    [reflexivity | reflexivity | reflexivity |].
  exists results, x, w2. split; [exact Hrun|]. split; [exact Hlen|].
  split; [exact Hans | exact Htools].
Defined.

(** The same turn, evaluated: two results with the ids of the calls,
    one follow-up, and the text of the follow-up in the history. *)
Example two_calls_turn :
  let w' := (ChatBot.handleSend true amina "tajine 50 w dentist" None None
               (chat_world [inr reply_with_calls; inr follow_up])).2 in
  (exists r1 r2,
     chat_log w'
     = [MessageText "tajine 50 w dentist";
        MessageParts [FunctionResponse "call-1" "addExpense" (ToolResponse r1);
                      FunctionResponse "call-2" "addAppointment" (ToolResponse r2)]])
  /\ (m_text <$> messages w')
     = [Some "tajine 50 w dentist"; Some "Safi, qiyedt kolchi."].
Proof. split; [eexists _, _|]; vm_compute; reflexivity. Qed.

(** C7, as the specification states it, fails: a [setBudget] call that
    succeeds (the stored budget changes, the result carries no error)
    followed by a reply without text leaves the turn silent: the
    history ends with the user turn. *)
Lemma silent_after_setBudget :
  let w := chat_world [inr budget_call; inr silent] in
  let w' := (ChatBot.handleSend true amina "budget 3000" None None w).2 in
  ls_users w = [amina]
  /\ ls_users w' = [set_budget amina (Some (Num 3000))]
  /\ chat_log w'
     = [MessageText "budget 3000";
        MessageParts
          [FunctionResponse "call-1" "setBudget"
             (ToolResponse
                {| tr_result := Some (BudgetSetTo (Some (Num 3000)));
                   tr_error := None; tr_expense := None;
                   tr_user := Some (set_budget amina (Some (Num 3000)));
                   tr_appointment := None |})]]
  /\ chat_script w' = []
  /\ messages w' = [ChatBot.user_message "budget 3000" None None].
Proof. vm_compute. by repeat split. Qed.

(** C7, amended. When the follow-up of a turn has no text, the turn ends
    with the confirmation [Safi tqiyed.] exactly when one of the
    function responses is the result of an [addExpense] or
    [addAppointment] call that returned its record; the confirmation
    turn then carries, as its card, the record the bridge returned for
    the last such call of the turn (the record of an earlier one is not
    carried); otherwise nothing is appended. *)
Theorem card_confirmation (u : User) (t : string) (blob : option ChatBot.Blob)
    (d : option number) (w w1 w2 w3 : World) (r r2 : GenerateContentResponse)
    (fc : FunctionCall) (rest : list FunctionCall) (results : list Part)
    (x : ChatBot.MsgExtra) :
  string_truthy t || bool_decide (is_Some blob) = true ->
  ChatBot.first_send true t blob
    (with_messages (messages w ++ [ChatBot.user_message t blob d]) w)
    = (Return r, w1) ->
  functionCalls r = Some (fc :: rest) ->
  ChatBot.run_calls u (fc :: rest) [] ChatBot.no_extra w1
    = (Return (results, x), w2) ->
  ChatBot.sendMessageWithRetry true (MessageParts results) w2 = (Return r2, w3) ->
  string_truthy (string_or (text r2) "") = false ->
  (ChatBot.handleSend true u t blob d w).1 = Return tt
  /\ messages (ChatBot.handleSend true u t blob d w).2
     = messages w3 ++
       (if existsb carries_card results
        then [ChatBot.model_message "Safi tqiyed." x] else [])
  /\ (existsb carries_card results = true -> has_card x = true)
  /\ answered u (fc :: rest) w1 results w2
  /\ (existsb carries_card results = true ->
      exists before p after,
        results = before ++ p :: after
        /\ card_of p = Some x
        /\ Forall (fun q => card_of q = None) after).
Proof.
  intros Hg H1 Hfc Hrun H2 Hsilent.
  destruct (run_calls_answered u (fc :: rest) [] ChatBot.no_extra w1)
    as (results0 & w20 & Hrun0 & Hans0).
  rewrite Hrun in Hrun0. simpl in Hrun0. injection Hrun0 as Hres Hx Hw.
  subst results0 w20.
  rewrite (handleSend_with_calls u t blob d w w1 w2 w3 r r2 fc rest results x)
    by done.
  destruct (show_reply_spec (bool_decide (is_Some blob)) (string_or (text r2) "")
              x w3) as (w4 & -> & Hm4 & _).
  destruct (run_calls_spec u (fc :: rest) [] ChatBot.no_extra w1)
    as (results' & x' & w2' & Hrun' & _ & _ & _ & _ & _ & Hcard).
  rewrite Hrun in Hrun'. injection Hrun' as <- <- <-.
  change (has_card ChatBot.no_extra) with false in Hcard. simpl in Hcard.
  simpl. split; [done|]. rewrite Hm4. unfold reply_turns.
  rewrite Hsilent, Hcard. split; [done|]. split; [by intros ->|].
  split; [done|]. intros Hsome.
  destruct (last_card results) as [c|] eqn:Hlast.
  - simpl in Hx. subst x. by apply last_card_split.
  - simpl in Hx. subst x. rewrite Hsome in Hcard. done.
Qed.

Lemma card_confirmation_witness :
  let w := chat_world [inr reply_with_calls; inr silent] in
  exists x,
    (m_text <$> messages (ChatBot.handleSend true amina "tajine 50" None None w).2)
    = [Some "tajine 50"; Some "Safi tqiyed."]
    /\ messages (ChatBot.handleSend true amina "tajine 50" None None w).2
       = [ChatBot.user_message "tajine 50" None None;
          ChatBot.model_message "Safi tqiyed." x]
    /\ has_card x = true
    /\ ChatBot.x_expenseData x = None
    /\ (title <$> ChatBot.x_appointmentData x) = Some (Some "Dentist").
Proof.
  intros w.
  set (w0 := with_messages
               (messages w ++ [ChatBot.user_message "tajine 50" None None]) w).
  set (o1 := ChatBot.first_send true "tajine 50" None w0).
  set (o2 := ChatBot.run_calls amina two_calls [] ChatBot.no_extra o1.2).
  pose (results := match o2.1 with Return v => v.1 | Throw _ => [] end).
  pose (x := match o2.1 with Return v => v.2 | Throw _ => ChatBot.no_extra end).
  set (o3 := ChatBot.sendMessageWithRetry true (MessageParts results) o2.2).
  destruct (card_confirmation amina "tajine 50" None None w o1.2 o2.2 o3.2
              reply_with_calls silent
              (hd {| fc_id := ""; fc_name := ""; fc_args := no_args |} two_calls)
              (tl two_calls) results x)
    as (_ & Hm & Hx & _); [vm_compute; reflexivity..|].
  exists x. split; [vm_compute; reflexivity|]. split; [exact Hm|].
  split; [apply Hx; vm_compute; reflexivity|].
  split; vm_compute; reflexivity.
Defined.

(** ** LiveAssistant *)

Lemma run_toolCall_audio (u : User) (fcs : list FunctionCall) :
  forall (s : LiveAssistant.Session) (w : World),
  exists s' w',
    LiveAssistant.run_toolCall u fcs s w = (Return s', w')
    /\ audio_side s' = audio_side s.
Proof.
  induction fcs as [|fc rest IH]; intros s w; simpl.
  - by exists s, w.
  - destruct (executeExpenseTool_returns (fc_name fc) (fc_args fc) u w) as [r Hr].
    destruct (tools.executeExpenseTool (fc_name fc) (fc_args fc) u w)
      as [o w1] eqn:Hexec.
    simpl in Hr. subst o. unfold bind. rewrite Hexec.
    destruct (IH (LiveAssistant.sendToolResponse
                    (FunctionResponse (fc_id fc) (fc_name fc) (ToolResponse r)) s) w1)
      as (s' & w' & -> & Hs').
    by exists s', w'.
Qed.

(** C3 fails on the code. The handler of [audioprocess] is created once,
    by the [connect] of the first render, and tests the [isMuted] of that
    render, which is [false] for ever: after the user has muted the
    session ([isMuted] is [true], the session is open and not closing),
    a capture frame is still handed to [sendRealtimeInput]. *)
Theorem muted_frame_is_streamed (frame : list Z) :
  let s := LiveAssistant.toggleMute LiveAssistant.mount in
  LiveAssistant.isConnected s = true
  /\ LiveAssistant.isMuted s = true
  /\ LiveAssistant.closingRef s = false
  /\ LiveAssistant.realtimeInput (LiveAssistant.audioprocess frame s) = [frame].
Proof. done. Qed.

(** The state of the mute button never reaches the handler. *)
Lemma handler_ignores_setIsMuted (b : bool) (frame : list Z)
    (s : LiveAssistant.Session) :
  LiveAssistant.realtimeInput
    (LiveAssistant.audioprocess frame (LiveAssistant.setIsMuted b s))
  = LiveAssistant.realtimeInput (LiveAssistant.audioprocess frame s).
Proof.
  unfold LiveAssistant.audioprocess, LiveAssistant.setIsMuted. simpl.
  destruct (LiveAssistant.onaudioprocess s) as [[]|]; simpl; [done| |done].
  by destruct (LiveAssistant.closingRef s).
Qed.

(** C4. A message with the interruption flag, received by an open
    session: [stop] is called on every tracked source (and on the source
    the same message may just have scheduled), the set is empty, the
    cursor is back at 0; hence the next frame, received when the
    clock of the output context shows [now], starts at [now] and is the
    only tracked source. *)
Theorem interruption_resets_playback (u : User) (currentTime : Z)
    (msg : LiveAssistant.LiveServerMessage) (s : LiveAssistant.Session)
    (w : World) :
  LiveAssistant.closingRef s = false ->
  LiveAssistant.interrupted msg = true ->
  exists s' w',
    LiveAssistant.onmessage u currentTime msg s w = (Return s', w')
    /\ LiveAssistant.sourcesRef s' = []
    /\ LiveAssistant.nextStartTimeRef s' = 0
    /\ (exists just_scheduled,
          LiveAssistant.stopped s'
          = LiveAssistant.stopped s ++ LiveAssistant.sourcesRef s ++ just_scheduled
          /\ (length just_scheduled <= 1)%nat)
    /\ (forall src, src ∈ LiveAssistant.sourcesRef s -> src ∈ LiveAssistant.stopped s')
    /\ forall (now : Z) (x : Z) (pcm : list Z) (w0 : World),
         0 <= now ->
         let frame :=
           {| LiveAssistant.toolCall := None;
              LiveAssistant.inlineData := Some (x :: pcm);
              LiveAssistant.interrupted := false |} in
         let source :=
           {| LiveAssistant.node := LiveAssistant.created s';
              LiveAssistant.start_time := now;
              LiveAssistant.buffer_length := Z.of_nat (length (x :: pcm)) |} in
         exists s'',
           LiveAssistant.onmessage u now frame s' w0 = (Return s'', w0)
           /\ LiveAssistant.started s'' = LiveAssistant.started s' ++ [source]
           /\ LiveAssistant.sourcesRef s'' = [source]
           /\ LiveAssistant.stopped s'' = LiveAssistant.stopped s'.
Proof.
  intros Hopen Hint. unfold LiveAssistant.onmessage. rewrite Hopen, Hint.
  assert (exists s1 w1,
            match LiveAssistant.toolCall msg with
            | Some fcs => LiveAssistant.run_toolCall u fcs s
            | None => ret s
            end w = (Return s1, w1) /\ audio_side s1 = audio_side s)
    as (s1 & w1 & Hs1 & Ha).
  { destruct (LiveAssistant.toolCall msg) as [fcs|];
      [apply run_toolCall_audio | by exists s, w]. }
  erewrite bind_Return by exact Hs1. unfold ret.
  injection Ha as _ _ Hc Hn Hsrc _ Hcr Hst Hsp _.
  eexists _, w1. split; [reflexivity|].
  destruct (LiveAssistant.inlineData msg) as [[|x0 pcm0]|];
    cbn -[Z.max Z.of_nat]; rewrite ?Hc, ?Hsp, ?Hsrc.
  1,3: (split; [done|]; split; [done|]; split;
        [exists []; split; [by rewrite app_nil_r | simpl; lia]|]; split;
        [intros src Hsrc'; apply elem_of_app; by right|]).
  3: (split; [done|]; split; [done|]; split;
      [eexists [_]; split; [reflexivity | simpl; lia]|]; split;
      [intros src Hsrc'; rewrite elem_of_app, elem_of_app; right; by left|]).
  all: intros now x pcm w0 Hnow; rewrite ?Hc, ?Hopen;
    eexists; split; [reflexivity|];
    cbn -[Z.max Z.of_nat]; rewrite (Z.max_r 0 now) by lia;
    rewrite ?Hsp, ?Hsrc; done.
Qed.

Lemma interruption_resets_playback_witness :
  exists s' w',
    LiveAssistant.onmessage amina 48000 interruption playing fresh_world
      = (Return s', w')
    /\ LiveAssistant.sourcesRef s' = []
    /\ length (LiveAssistant.stopped s') = 2%nat
    /\ forall now, 0 <= now ->
         exists s'',
           LiveAssistant.onmessage amina now
             {| LiveAssistant.toolCall := None;
                LiveAssistant.inlineData := Some [7; 7];
                LiveAssistant.interrupted := false |} s' fresh_world
             = (Return s'', fresh_world)
           /\ LiveAssistant.start_time <$> LiveAssistant.sourcesRef s'' = [now].
Proof.
  destruct (interruption_resets_playback amina 48000 interruption playing
              fresh_world) as (s' & w' & Hrun & Hsrc & _ & Hstop & _ & Hnext);
    [reflexivity | reflexivity |].
  exists s', w'. split; [exact Hrun|]. split; [exact Hsrc|]. split.
  - clear Hstop Hnext Hsrc. injection Hrun as <- _. reflexivity.
  - intros now Hnow. destruct (Hnext now 7 [7] fresh_world Hnow)
      as (s'' & Hrun' & _ & Hs'' & _).
    exists s''. split; [exact Hrun'|]. by rewrite Hs''.
Defined.

(** ** Stored appointments and their ids *)

Section appointments.
Implicit Types (l : list Appointment) (a b : Appointment) (x : string).

Lemma find_by_id_elem l a :
  NoDup (id <$> l) -> a ∈ l ->
  find (fun b => String.eqb (id b) (id a)) l = Some a.
Proof.
  induction l as [|b l IH]; intros Hnd Ha; [inversion Ha|].
  rewrite fmap_cons in Hnd. apply NoDup_cons in Hnd as [Hb Hnd]. simpl.
  apply elem_of_cons in Ha as [->|Ha].
  - by rewrite String.eqb_refl.
  - destruct (String.eqb (id b) (id a)) eqn:E; [|by apply IH].
    apply String.eqb_eq in E. exfalso. apply Hb. rewrite E.
    by apply list_elem_of_fmap_2.
Qed.

Lemma find_by_id_None l x :
  find (fun b => String.eqb (id b) x) l = None <-> x ∉ id <$> l.
Proof.
  rewrite find_None. split.
  - intros H Hx. apply list_elem_of_fmap in Hx as (b & -> & Hb).
    specialize (H b Hb). by rewrite String.eqb_refl in H.
  - intros H b Hb. apply String.eqb_neq. intros <-. apply H.
    by apply list_elem_of_fmap_2.
Qed.

Lemma find_by_id_Some l x a :
  find (fun b => String.eqb (id b) x) l = Some a -> a ∈ l /\ id a = x.
Proof. intros H. apply find_Some in H as [? ?%String.eqb_eq]. done. Qed.

(** [find] by id commutes with a map that keeps the ids. *)
Lemma find_by_id_fmap (f : Appointment -> Appointment) l x :
  (forall b, id (f b) = id b) ->
  find (fun b => String.eqb (id b) x) (f <$> l)
  = f <$> find (fun b => String.eqb (id b) x) l.
Proof.
  intros Hf. induction l as [|b l IH]; [done|]. simpl. rewrite Hf.
  by destruct (String.eqb (id b) x).
Qed.

Lemma replace_by_id_ids a l : id <$> replace_by_id a l = id <$> l.
Proof.
  unfold replace_by_id. rewrite <- list_fmap_compose. apply list_fmap_ext.
  intros i b _. simpl. destruct (String.eqb (id b) (id a)) eqn:E; [|done].
  by apply String.eqb_eq in E.
Qed.

Lemma mark_ids ids l : id <$> mark ids l = id <$> l.
Proof.
  unfold mark. rewrite <- list_fmap_compose. apply list_fmap_ext.
  intros i b _. simpl. by destruct (bool_decide (id b ∈ ids)).
Qed.

Lemma mark_nil l : mark [] l = l.
Proof.
  unfold mark. rewrite <- (list_fmap_id l) at 2. apply list_fmap_ext.
  intros i b _. rewrite bool_decide_eq_false_2; [done|]. apply not_elem_of_nil.
Qed.

(** Writing [a'] at the index [findIndex] returns replaces by id. *)
Lemma insert_at_findIndex a' l i :
  NoDup (id <$> l) ->
  findIndex (fun b => String.eqb (id b) (id a')) l = Some i ->
  <[i := a']> l = replace_by_id a' l.
Proof.
  revert i. induction l as [|b l IH]; intros i Hnd; [done|].
  rewrite fmap_cons in Hnd. apply NoDup_cons in Hnd as [Hb Hnd].
  unfold replace_by_id. simpl.
  destruct (String.eqb (id b) (id a')) eqn:E.
  - intros [= <-]. simpl. f_equal.
    rewrite <- (list_fmap_id l) at 1. apply list_fmap_ext.
    intros j c Hc. simpl. destruct (String.eqb (id c) (id a')) eqn:E'; [|done].
    apply String.eqb_eq in E, E'. exfalso. apply Hb. rewrite E, <- E'.
    apply list_elem_of_fmap_2. by eapply list_elem_of_lookup_2.
  - destruct (findIndex _ l) as [k|] eqn:Hk; [|done]. intros [= <-].
    simpl. f_equal. by apply IH.
Qed.

Lemma replace_by_id_absent a' l :
  findIndex (fun b => String.eqb (id b) (id a')) l = None ->
  replace_by_id a' l = l.
Proof.
  intros H. unfold replace_by_id. rewrite <- (list_fmap_id l) at 2.
  apply list_fmap_ext. intros i b Hb. simpl.
  rewrite (proj1 (findIndex_None _ _) H b); [done|].
  by eapply list_elem_of_lookup_2.
Qed.

(** Marking one more appointment of the list. *)
Lemma replace_in_mark ids l a :
  NoDup (id <$> l) -> a ∈ l ->
  replace_by_id (set_notified a true) (mark ids l) = mark (id a :: ids) l.
Proof.
  intros Hnd Ha. unfold replace_by_id, mark. rewrite <- list_fmap_compose.
  apply list_fmap_ext. intros i b Hb. simpl.
  assert (id (if bool_decide (id b ∈ ids) then set_notified b true else b) = id b)
    as -> by (by destruct (bool_decide (id b ∈ ids))).
  destruct (String.eqb (id b) (id a)) eqn:E.
  - apply String.eqb_eq in E.
    assert (b = a) as ->.
    { apply list_elem_of_lookup_2 in Hb.
      pose proof (find_by_id_elem l a Hnd Ha) as H1.
      pose proof (find_by_id_elem l b Hnd Hb) as H2.
      rewrite E in H2. congruence. }
    rewrite bool_decide_eq_true_2; [done | left].
  - apply String.eqb_neq in E.
    destruct (bool_decide (id b ∈ ids)) eqn:Hin.
    + rewrite bool_decide_eq_true_2; [done|]. right.
      by apply bool_decide_eq_true in Hin.
    + rewrite bool_decide_eq_false_2; [done|]. intros Hc.
      apply elem_of_cons in Hc as [Hc|Hc]; [done|].
      by apply bool_decide_eq_false in Hin.
Qed.

End appointments.

(** ** App.checkAppointments *)

Lemma alert_loop (l : list Appointment) :
  forall w,
    App.forEach App.alert l w
    = (Return tt,
       with_alert (match last l with Some a => Some a | None => activeAlert w end)
         (alert_log w ++ l) w).
Proof.
  induction l as [|a l IH]; intros w; simpl.
  - unfold ret. f_equal. world_ext.
  - unfold bind, App.alert, App.setActiveAlert, modify. rewrite IH. f_equal.
    world_ext. rewrite last_cons. by destruct (last l).
Qed.

Lemma persist_spec (l0 : list Appointment) (ids : list string) (a : Appointment)
    (w : World) :
  NoDup (id <$> l0) -> a ∈ l0 -> ls_appointments w = mark ids l0 ->
  exists ids1 w',
    App.persist a w = (Return tt, w')
    /\ ls_appointments w' = mark ids1 l0
    /\ (ids1 = ids \/ ids1 = id a :: ids)
    /\ (ls_faults w = [] -> ls_faults w' = [] /\ ids1 = id a :: ids)
    /\ outside_storage w' = outside_storage w
    /\ drawn w' = drawn w.
Proof.
  intros Hnd Ha Hl.
  assert (replace_by_id (set_notified a true) (mark ids l0) = mark (id a :: ids) l0)
    as Hrep by (by apply replace_in_mark).
  unfold App.persist, storageService.updateAppointment,
    storageService.getAllAppointmentsRaw, storageService.saveAppointments.
  unfold_m. simpl. rewrite Hl.
  destruct (findIndex _ (mark ids l0)) as [i|] eqn:Hi.
  - rewrite (insert_at_findIndex _ _ i) by (by rewrite ?mark_ids). rewrite Hrep.
    simpl. destruct (ls_faults w) as [|[m|] fs] eqn:Hf; simpl.
    + exists (id a :: ids). eexists. split; [reflexivity|]. simpl.
      split_and!; auto.
    + exists ids. eexists. split; [reflexivity|]. simpl. split_and!; auto. done.
    + exists (id a :: ids). eexists. split; [reflexivity|]. simpl.
      split_and!; auto. done.
  - apply (replace_by_id_absent (set_notified a true)) in Hi.
    exists (id a :: ids). eexists. split; [reflexivity|]. simpl.
    split_and!; auto. congruence.
Qed.

Lemma persist_loop (l0 : list Appointment) (todo : list Appointment) :
  NoDup (id <$> l0) -> (forall a, a ∈ todo -> a ∈ l0) ->
  forall (ids : list string) (w : World),
    ls_appointments w = mark ids l0 ->
    exists ids' w',
      App.forEach App.persist todo w = (Return tt, w')
      /\ ls_appointments w' = mark ids' l0
      /\ (forall x, x ∈ ids' -> x ∈ ids \/ x ∈ id <$> todo)
      /\ (forall x, x ∈ ids -> x ∈ ids')
      /\ (ls_faults w = [] ->
          ls_faults w' = [] /\ forall x, x ∈ id <$> todo -> x ∈ ids')
      /\ outside_storage w' = outside_storage w
      /\ drawn w' = drawn w.
Proof.
  intros Hnd. induction todo as [|a todo IH]; intros Hin ids w Hl.
  - exists ids, w. split; [done|]. split; [done|]. split; [by left|].
    split; [done|]. split; [|done]. intros Hf. split; [done|].
    intros x Hx. inversion Hx.
  - destruct (persist_spec l0 ids a w Hnd)
      as (ids1 & w1 & Hp & Hl1 & Hids1 & Hok1 & Ho1 & Hd1); [apply Hin; left | done |].
    assert (forall b, b ∈ todo -> b ∈ l0) as Hin' by (intros b Hb; apply Hin; by right).
    destruct (IH Hin' ids1 w1 Hl1)
      as (ids' & w' & Hrun & Hl' & Hsub & Hsup & Hok & Ho & Hd).
    exists ids', w'. simpl. unfold bind. rewrite Hp. split; [done|].
    split; [done|]. rewrite ?fmap_cons. split_and!.
    + intros x Hx. destruct (Hsub x Hx) as [Hx'|?]; [|right; by right].
      destruct Hids1 as [->| ->]; [by left|].
      apply elem_of_cons in Hx' as [->|?]; [right; left | by left].
    + intros x Hx. apply Hsup. destruct Hids1 as [->| ->]; [done | by right].
    + intros Hf. destruct (Hok1 Hf) as [Hf1 ->].
      destruct (Hok Hf1) as [Hf' Hall]. split; [done|].
      intros x Hx. apply elem_of_cons in Hx as [->|Hx]; [|auto]. apply Hsup. left.
    + congruence.
    + congruence.
Qed.

Lemma due_in_window (now : Z) (a : Appointment) :
  App.due now a = true <-> in_window now a.
Proof.
  unfold App.due, in_window, strict_eq, getTime_diff.
  destruct (status a) as [s|]; cbv beta iota;
    [|split; [done | by intros (? & _)]].
  destruct (String.eqb_spec "scheduled" s) as [E|Hs]; cbv beta iota;
    [subst s | split; [done | intros ([= ->] & _); done]].
  destruct (is_notified a); cbn [negb andb];
    [split; [done | by intros (_ & ? & _)]|].
  destruct (date a) as [t|]; [|split; [done | by intros (_ & _ & t' & ? & _)]].
  rewrite andb_true_iff, Z.leb_le, Z.ltb_lt. split.
  - intros [? ?]. split; [done|]. split; [done|]. exists t. split; [done|]. lia.
  - intros (_ & _ & t' & [= <-] & ? & ?). lia.
Qed.

Lemma elem_of_fired (u : User) (now : Z) (l : list Appointment) (a : Appointment) :
  a ∈ fired u now l <-> a ∈ l /\ userId a = email u /\ App.due now a = true.
Proof.
  unfold fired. rewrite list_elem_of_filter, elem_of_Array_sort,
    list_elem_of_filter, Is_true_true. tauto.
Qed.

(** With unique ids, an id of a fired appointment determines it. *)
Lemma id_elem_of_fired (u : User) (now : Z) (l : list Appointment) (a : Appointment) :
  NoDup (id <$> l) -> a ∈ l ->
  id a ∈ id <$> fired u now l <-> a ∈ fired u now l.
Proof.
  intros Hnd Ha. split; [|apply list_elem_of_fmap_2].
  intros Hin. apply list_elem_of_fmap in Hin as (b & Hid & Hb).
  assert (b ∈ l) as Hbl by (by apply elem_of_fired in Hb as [? _]).
  pose proof (find_by_id_elem l a Hnd Ha) as H1.
  pose proof (find_by_id_elem l b Hnd Hbl) as H2.
  rewrite <- Hid in H2. congruence.
Qed.

Lemma checkAppointments_spec (u : User) (w : World) :
  NoDup (id <$> ls_appointments w) ->
  exists ids w',
    App.checkAppointments u w = (Return tt, w')
    /\ ls_appointments w' = mark ids (ls_appointments w)
    /\ alert_log w' = alert_log w ++ fired u (clock w) (ls_appointments w)
    /\ (forall x, x ∈ ids -> x ∈ id <$> fired u (clock w) (ls_appointments w))
    /\ (ls_faults w = [] ->
        forall x, x ∈ id <$> fired u (clock w) (ls_appointments w) -> x ∈ ids)
    /\ entropy w' = entropy w /\ drawn w' = drawn w /\ clock w' = clock w.
Proof.
  intros Hnd. unfold App.checkAppointments, storageService.getAppointments,
    storageService.getAllAppointmentsRaw.
  unfold bind at 1 2 3 4 5, delay, modify, gets at 1, ret at 1, Date_now, gets.
  simpl. fold (fired u (clock w) (ls_appointments w)).
  set (l := fired u (clock w) (ls_appointments w)).
  rewrite alert_loop.
  match goal with |- context [App.forEach App.persist l ?w1] =>
    destruct (persist_loop (ls_appointments w) l Hnd
                (fun a Ha => proj1 (proj1 (elem_of_fired _ _ _ _) Ha)) [] w1)
      as (ids & w' & Hrun & Hl & Hsub & _ & Hok & Ho & Hd);
      [simpl; by rewrite mark_nil|]
  end.
  rewrite Hrun. exists ids, w'. split; [done|]. split; [done|].
  injection Ho as _ _ _ _ _ Hlog Hclock Hent. simpl in *.
  split_and!; try done.
  - intros x Hx. destruct (Hsub x Hx) as [H|H]; [inversion H | done].
  - intros Hf. by apply Hok.
Qed.

Lemma stored_mark (ids : list string) (x : string) (w w' : World) :
  ls_appointments w' = mark ids (ls_appointments w) ->
  stored x w'
  = (fun b => if bool_decide (x ∈ ids) then set_notified b true else b)
      <$> stored x w.
Proof.
  intros Hl. unfold stored. rewrite Hl. unfold mark.
  rewrite find_by_id_fmap by (intros b; by destruct (bool_decide _)).
  destruct (find _ (ls_appointments w)) as [b|] eqn:Hb; [|done]. simpl.
  apply find_by_id_Some in Hb as [_ <-]. done.
Qed.

Lemma preserves_forEach {X A} (f : World -> X) (g : A -> M unit) (l : list A) :
  (forall a, preserves f (g a)) -> preserves f (App.forEach g l).
Proof.
  intros Hg. induction l as [|a l IH]; simpl; [apply preserves_ret|].
  apply preserves_bind; [apply Hg | intros _; apply IH].
Qed.

Lemma preserves_persist {X} (f : World -> X) (a : Appointment) :
  (forall l w, f (with_appointments l w) = f w) ->
  (forall fs w, f (with_faults fs w) = f w) ->
  (forall ts w, f (with_timers ts w) = f w) ->
  preserves f (App.persist a).
Proof.
  intros Ha Hf Ht. unfold App.persist, storageService.updateAppointment,
    storageService.getAllAppointmentsRaw, storageService.saveAppointments, delay.
  apply preserves_try_catch; [|intros ?; apply preserves_ret].
  apply preserves_bind; [apply preserves_modify; intros ?; apply Ht|intros _].
  apply preserves_bind; [apply preserves_gets|intros all].
  destruct (findIndex _ all); [|apply preserves_ret].
  apply preserves_setItem; [intros ?; apply Ha | apply Hf].
Qed.

Lemma preserves_checkAppointments {X} (f : World -> X) (u : User) :
  (forall l w, f (with_appointments l w) = f w) ->
  (forall fs w, f (with_faults fs w) = f w) ->
  (forall ts w, f (with_timers ts w) = f w) ->
  (forall a l w, f (with_alert a l w) = f w) ->
  preserves f (App.checkAppointments u).
Proof.
  intros Ha Hf Ht Hal.
  unfold App.checkAppointments, storageService.getAppointments,
    storageService.getAllAppointmentsRaw, Date_now, delay. cbv zeta.
  apply preserves_bind; [|intros appts].
  { apply preserves_bind; [apply preserves_modify; intros ?; apply Ht|intros _].
    apply preserves_bind; [apply preserves_gets | intros ?; apply preserves_ret]. }
  apply preserves_bind; [apply preserves_gets|intros now].
  apply preserves_bind; [|intros _].
  - apply preserves_forEach. intros a. unfold App.alert, App.setActiveAlert.
    apply preserves_modify. intros ?. apply Hal.
  - apply preserves_forEach. intros a. by apply preserves_persist.
Qed.

Lemma checkAppointments_alert (u : User) (w : World) :
  activeAlert (App.checkAppointments u w).2
  = match last (fired u (clock w) (ls_appointments w)) with
    | Some a => Some a
    | None => activeAlert w
    end.
Proof.
  unfold App.checkAppointments, storageService.getAppointments,
    storageService.getAllAppointmentsRaw.
  unfold bind at 1 2 3 4 5, delay, modify, gets at 1, ret at 1, Date_now, gets.
  simpl. fold (fired u (clock w) (ls_appointments w)).
  rewrite alert_loop.
  rewrite (preserves_forEach activeAlert App.persist); [done|].
  intros a. by apply preserves_persist.
Qed.

(** The alert a check leaves on the screen is one it has fired; a check
    that fires nothing leaves the screen as it is. *)
Lemma checkAppointments_shown (u : User) (w : World) :
  (fired u (clock w) (ls_appointments w) = [] ->
   activeAlert (App.checkAppointments u w).2 = activeAlert w)
  /\ (fired u (clock w) (ls_appointments w) <> [] ->
      exists b, activeAlert (App.checkAppointments u w).2 = Some b
                /\ b ∈ fired u (clock w) (ls_appointments w)).
Proof.
  rewrite checkAppointments_alert. split.
  - by intros ->.
  - intros Hne. destruct (last (fired u (clock w) (ls_appointments w))) as [b|] eqn:Hb.
    + exists b. split; [done|]. apply last_Some in Hb as [l ->].
      apply elem_of_app. right. left.
    + by apply last_None in Hb.
Qed.


(** It fails too when two appointments are inside the window of the
    same check: both are stored with [notified: true], but the
    application holds one alert, and the second call of
    [setActiveAlert] replaces the first before anything is rendered.
    The first appointment is never shown, by this check or by a later
    one. *)
Lemma earlier_alert_is_overwritten :
  let w := with_appointments [dentist 0; pharmacy] fresh_world in
  let w' := (App.checkAppointments amina w).2 in
  in_window_spec (clock w) (dentist 0) /\ in_window_spec (clock w) pharmacy
  /\ notifies (dentist 0) w w' /\ notifies pharmacy w w'
  /\ activeAlert w' = Some pharmacy
  /\ ~ fires (dentist 0) w w'
  /\ activeAlert (App.checkAppointments amina w').2 = Some pharmacy.
Proof.
  split_and!.
  - split; [done|]. split; [done|]. eexists. split; [reflexivity|]. simpl. lia.
  - split; [done|]. split; [done|]. eexists. split; [reflexivity|]. simpl. lia.
  - split; vm_compute; reflexivity.
  - split; vm_compute; reflexivity.
  - vm_compute; reflexivity.
  - intros [H _]. vm_compute in H. discriminate H.
  - vm_compute; reflexivity.
Qed.



(** The two cases the specification names: 45 minutes overdue fires,
    two hours overdue does not. *)
Example forty_five_minutes_and_two_hours :
  let w := with_appointments [dentist (-2700000); dentist_overdue] fresh_world in
  let w' := (App.checkAppointments amina w).2 in
  alerted w w' = [dentist (-2700000)]
  /\ ls_appointments w' = [set_notified (dentist (-2700000)) true; dentist_overdue]
  /\ activeAlert w' = Some (dentist (-2700000)).
Proof. vm_compute. done. Qed.

(** ** What a tool call does to the appointments *)





(** ** Steps of a run *)

(** A check is its alerts followed by the writes of its callbacks. *)
Lemma checkAppointments_split (u : User) (w : World) :
  App.checkAppointments u w
  = bind (App.alerts u) (fun fired => App.forEach App.persist fired) w.
Proof.
  unfold App.checkAppointments, App.alerts, bind, ret.
  destruct (storageService.getAppointments (email u) w) as [[appts|e] w1]; [|done].
  destruct (Date_now w1) as [[now|e] w2]; [|done].
  by destruct (App.forEach App.alert (filter (fun a => App.due now a) appts) w2)
    as [[[]|e] w3].
Qed.



Lemma loadData_keeps (u : User) (w : World) :
  let w' := (AppointmentsView.loadData u w).2 in
  ls_appointments w' = ls_appointments w /\ alert_log w' = alert_log w
  /\ drawn w' = drawn w /\ entropy w' = entropy w.
Proof. done. Qed.











Lemma run_app (pre post : list Event) (w : World) :
  run (pre ++ post) w = run post (run pre w).
Proof. unfold run. by rewrite foldl_app. Qed.




















(** It fails as well when handlers overlap, with no button pressed:
    [updateAppointmentStatus] of the bridge reads the dentist while the
    callback of a check waits to write the flag, and writes the record
    it has read after the callback has written. *)
Example overlapping_update_is_alerted_twice :
  let w := with_appointments [dentist 30000] fresh_world in
  let tr :=
    [ Alerts amina;
      Lands (set_notified (dentist 30000) true);
      Lands (set_status (dentist 30000) (Some "scheduled"));
      Dismiss;
      Check amina ] in
  stored "a-1" (run (take 1 tr) w) = Some (dentist 30000)
  /\ (flag "a-1" <$> [w; run (take 1 tr) w; run (take 2 tr) w; run (take 3 tr) w;
                      run tr w])
     = [Some false; Some false; Some true; Some false; Some true]
  /\ count_flips "a-1" tr w = 2%nat
  /\ (activeAlert <$> [run (take 1 tr) w; run (take 4 tr) w; run tr w])
     = [Some (dentist 30000); None; Some (dentist 30000)]
  /\ ~ carries_flag (set_status (dentist 30000) (Some "scheduled"))
        (run (take 2 tr) w).
Proof.
  repeat (split; [vm_compute; reflexivity|]).
  intros H. specialize (H true). vm_compute in H. by specialize (H eq_refl).
Qed.



(** A day without overlaps: the flag of the first reminder flips exactly
    once, in the first check. *)
Example a_day_flips_once :
  orderly a_day fresh_world
  /\ count_flips "id" a_day fresh_world = 1%nat
  /\ flips "id" (run (take 1 a_day) fresh_world) (run (take 2 a_day) fresh_world)
     = true.
Proof.
  split; [unfold orderly, a_day; cbn [orderly_from timely]; tauto|].
  vm_compute. done.
Qed.

(** * Further properties *)

(** ** Sorting *)

Section sorting.
Context {A : Type} (k : A -> Z) (cmp : A -> A -> option Z).

Lemma sort_insert_sorted (x : A) (l : list A) :
  (forall y, y ∈ l -> cmp x y = Some (k x - k y)) ->
  StronglySorted (fun a b => k a <= k b) l ->
  StronglySorted (fun a b => k a <= k b) (sort_insert cmp x l).
Proof.
  induction l as [|y l IH]; intros Hcmp Hs; simpl.
  - repeat constructor.
  - apply StronglySorted_inv in Hs as [Hs Hy].
    rewrite (Hcmp y) by left. simpl.
    destruct (Z.ltb_spec 0 (k x - k y)) as [Hlt|Hle].
    + constructor.
      * apply IH; [intros z Hz; apply Hcmp; by right | done].
      * apply Forall_forall. intros z Hz.
        rewrite sort_insert_Permutation in Hz.
        apply elem_of_cons in Hz as [->|Hz]; [lia|].
        by apply (proj1 (Forall_forall _ _) Hy).
    + constructor; [by constructor|].
      constructor; [lia|].
      apply Forall_forall. intros z Hz.
      pose proof (proj1 (Forall_forall _ _) Hy z Hz) as Hyz. simpl in Hyz. lia.
Qed.

Lemma Array_sort_sorted (l : list A) :
  (forall x y, x ∈ l -> y ∈ l -> cmp x y = Some (k x - k y)) ->
  StronglySorted (fun a b => k a <= k b) (Array_sort cmp l).
Proof.
  induction l as [|x l IH]; intros Hcmp; [constructor|].
  unfold Array_sort. simpl. apply sort_insert_sorted.
  - intros y Hy. apply elem_of_Array_sort in Hy.
    apply Hcmp; [left | by right].
  - apply IH. intros y z Hy Hz. apply Hcmp; by right.
Qed.

End sorting.

Lemma StronglySorted_impl {A} (R S : A -> A -> Prop) (l : list A) :
  (forall a b, a ∈ l -> b ∈ l -> R a b -> S a b) ->
  StronglySorted R l -> StronglySorted S l.
Proof.
  induction l as [|x l IH]; intros H Hs; [constructor|].
  apply StronglySorted_inv in Hs as [Hs Hx]. constructor.
  - apply IH; [|done]. intros a b Ha Hb. apply H; by right.
  - apply Forall_forall. intros y Hy. apply H; [left | by right |].
    by apply (proj1 (Forall_forall _ _) Hx).
Qed.

(** Appointments with valid dates come out of the ascending sort in
    ascending order. *)
Lemma StronglySorted_filter {A} (R : A -> A -> Prop) (P : A -> Prop)
    `{forall x, Decision (P x)} (l : list A) :
  StronglySorted R l -> StronglySorted R (filter P l).
Proof.
  induction 1 as [|x l Hl IH Hx]; [constructor|].
  rewrite filter_cons. destruct (decide (P x)); [|done].
  constructor; [done|]. apply Forall_forall. intros y Hy.
  apply list_elem_of_filter in Hy as [_ Hy].
  by apply (proj1 (Forall_forall _ _) Hx).
Qed.

Lemma StronglySorted_snoc {A} (R : A -> A -> Prop) (l : list A) (x : A) :
  StronglySorted R l -> Forall (fun a => R a x) l -> StronglySorted R (l ++ [x]).
Proof.
  induction 1 as [|y l Hl IH Hy]; intros Hx; simpl.
  - repeat constructor.
  - apply Forall_cons in Hx as [Hyx Hx]. constructor; [by apply IH|].
    apply Forall_app. split; [done | by repeat constructor].
Qed.

Lemma sort_soonest_first (l : list Appointment) :
  (forall a, a ∈ l -> date a <> None) ->
  soonest_first (Array_sort (fun a b => getTime_diff (date a) (date b)) l).
Proof.
  intros Hv. unfold soonest_first.
  apply (StronglySorted_impl (fun a b => default 0 (date a) <= default 0 (date b))).
  - intros a b Ha Hb. rewrite elem_of_Array_sort in Ha, Hb.
    pose proof (Hv a Ha). pose proof (Hv b Hb).
    destruct (date a), (date b); done.
  - apply Array_sort_sorted. intros a b Ha Hb.
    pose proof (Hv a Ha). pose proof (Hv b Hb).
    destruct (date a), (date b); done.
Qed.

Lemma sort_latest_first (l : list Appointment) :
  (forall a, a ∈ l -> date a <> None) ->
  latest_first (Array_sort (fun a b => getTime_diff (date b) (date a)) l).
Proof.
  intros Hv. unfold latest_first.
  apply (StronglySorted_impl
           (fun a b => - default 0 (date a) <= - default 0 (date b))).
  - intros a b Ha Hb. rewrite elem_of_Array_sort in Ha, Hb.
    pose proof (Hv a Ha). pose proof (Hv b Hb).
    destruct (date a), (date b); simpl; try done. lia.
  - apply Array_sort_sorted. intros a b Ha Hb.
    pose proof (Hv a Ha). pose proof (Hv b Hb).
    destruct (date a), (date b); simpl; try done. f_equal. lia.
Qed.

Lemma sort_newest_first (l : list Expense) :
  (forall e, e ∈ l -> e_date e <> None) ->
  newest_first (Array_sort (fun a b => getTime_diff (e_date b) (e_date a)) l).
Proof.
  intros Hv. unfold newest_first.
  apply (StronglySorted_impl
           (fun a b => - default 0 (e_date a) <= - default 0 (e_date b))).
  - intros a b Ha Hb. rewrite elem_of_Array_sort in Ha, Hb.
    pose proof (Hv a Ha). pose proof (Hv b Hb).
    destruct (e_date a), (e_date b); simpl; try done. lia.
  - apply Array_sort_sorted. intros a b Ha Hb.
    pose proof (Hv a Ha). pose proof (Hv b Hb).
    destruct (e_date a), (e_date b); simpl; try done. f_equal. lia.
Qed.

(** ** The persistence service *)

Lemma find_app {A} (p : A -> bool) (l k : list A) :
  find p (l ++ k) = match find p l with Some x => Some x | None => find p k end.
Proof. induction l as [|x l IH]; [done|]. simpl. by destruct (p x). Qed.

(** X1. Registering, logging out and logging in again with the same
    email gives back the user that [register] stored: the session is
    found again by its email. *)
Theorem login_after_register (u : User) (w : World) :
  find (fun x => String.eqb (email x) (email u)) (ls_users w) = None ->
  ls_faults w = [] ->
  exists (newUser : User) (w1 w2 : World),
    storageService.register u w = (Return newUser, w1)
    /\ ls_current_user (storageService.logout w1).2 = None
    /\ storageService.login (email u) (storageService.logout w1).2
       = (Return newUser, w2)
    /\ ls_current_user w2 = Some newUser
    /\ ls_users w2 = ls_users w ++ [newUser].
Proof.
  intros Hnew Hok.
  exists (set_budget u (Some (number_or (budget u) (Num 5000)))).
  eexists _, _. split.
  { unfold storageService.register, storageService.setCurrentUser.
    unfold_m. simpl. rewrite Hnew. simpl. rewrite Hok. simpl. rewrite Hok.
    reflexivity. }
  split; [done|]. split.
  { unfold storageService.login, storageService.logout,
      storageService.setCurrentUser.
    unfold_m. simpl. rewrite find_app, Hnew. simpl.
    rewrite String.eqb_refl. simpl. rewrite Hok. reflexivity. }
  done.
Qed.

Lemma login_after_register_witness :
  exists (newUser : User) (w1 w2 : World),
    storageService.register amina fresh_world = (Return newUser, w1)
    /\ storageService.login "amina@example.com" (storageService.logout w1).2
       = (Return newUser, w2)
    /\ budget newUser = Some (Num 5000).
Proof.
  destruct (login_after_register amina fresh_world)
    as (newUser & w1 & w2 & Hr & _ & Hl & _ & _); [reflexivity | reflexivity |].
  exists newUser, w1, w2. split; [exact Hr|]. split; [exact Hl|].
  vm_compute in Hr. by injection Hr as <- _.
Defined.

(** X2. A sign-in that fails writes nothing: [register] with an email
    that is already stored throws [User already exists], [login] with an
    email that is not stored throws [User not found], and in both cases
    the four keys of the storage are as before and no write was tried. *)
Theorem sign_in_errors (u : User) (mail : string) (w : World) :
  (find (fun x => String.eqb (email x) (email u)) (ls_users w) <> None ->
   exists w',
     storageService.register u w
       = (Throw {| message := "User already exists" |}, w')
     /\ same_store w w' /\ ls_faults w' = ls_faults w)
  /\ (find (fun x => String.eqb (email x) mail) (ls_users w) = None ->
      exists w',
        storageService.login mail w = (Throw {| message := "User not found" |}, w')
        /\ same_store w w' /\ ls_faults w' = ls_faults w).
Proof.
  split.
  - intros Hex. unfold storageService.register. unfold_m. simpl.
    destruct (find _ (ls_users w)) as [x|]; [|done].
    eexists. split; [reflexivity|]. by repeat split.
  - intros Hno. unfold storageService.login. unfold_m. simpl. rewrite Hno.
    eexists. split; [reflexivity|]. by repeat split.
Qed.

(** X3. An expense added through the tool bridge carries the amount,
    category, description and date of the arguments, the email of the
    user, a fresh identifier and the time of the call; it is stored
    last, and reading the expenses of the user back returns it. *)
Theorem expense_round_trip (args : Args) (u : User) (w : World) :
  ls_faults w = [] ->
  exists (e : Expense) (w1 : World),
    tools.executeExpenseTool "addExpense" args u w
      = (Return {| tr_result := Some (Text "Expense added successfully");
                   tr_error := None; tr_expense := Some e; tr_user := None;
                   tr_appointment := None |}, w1)
    /\ e_amount e = a_amount args /\ e_category e = a_category args
    /\ e_description e = a_description args /\ e_date e = tools.date_arg args
    /\ e_userId e = email u /\ e_id e = entropy w (drawn w)
    /\ e_createdAt e = clock w
    /\ ls_expenses w1 = ls_expenses w ++ [e]
    /\ exists l w2,
         storageService.getExpenses (email u) w1 = (Return l, w2) /\ e ∈ l.
Proof.
  intros Hok. unfold tools.executeExpenseTool, tools.dispatch. simpl.
  unfold storageService.addExpense, storageService.getAllExpensesRaw,
    storageService.saveExpenses, storageService.getExpenses.
  unfold_m. simpl. rewrite Hok. simpl.
  eexists _, _. split; [reflexivity|]. simpl. split_and!; try done.
  eexists _, _. split; [reflexivity|].
  apply elem_of_Array_sort, list_elem_of_filter. split; [done|].
  apply elem_of_app. right. left.
Qed.

Lemma expense_round_trip_witness :
  exists (e : Expense) (l : list Expense),
    tr_expense
      (match (tools.executeExpenseTool "addExpense" (amount_arg (Num 50)) amina
                busy_world).1 with
       | Return r => r
       | Throw _ => tools.error_of ""
       end) = Some e
    /\ e_amount e = Some (Num 50) /\ e_id e = "id"
    /\ (storageService.getExpenses "amina@example.com"
          (tools.executeExpenseTool "addExpense" (amount_arg (Num 50)) amina
             busy_world).2).1 = Return l
    /\ e ∈ l.
Proof.
  destruct (expense_round_trip (amount_arg (Num 50)) amina busy_world)
    as (e & w1 & Hrun & Ham & _ & _ & _ & _ & Hid & _ & _ & l & w2 & Hget & Hin);
    [reflexivity|].
  change (email amina) with "amina@example.com" in Hget.
  exists e, l. rewrite Hrun. cbn [fst snd]. rewrite Hget. cbn [fst snd tr_expense].
  split; [done|]. split; [exact Ham|]. split; [exact Hid|]. split; [done|].
  exact Hin.
Defined.

(** X4. [getExpenses] writes nothing and returns the expenses of the
    given user and no other, each as often as it is stored; when their
    dates all parse, the most recent comes first. *)
Theorem getExpenses_owned_sorted (uid : string) (w : World) :
  exists (l : list Expense) (w' : World),
    storageService.getExpenses uid w = (Return l, w')
    /\ same_store w w' /\ ls_faults w' = ls_faults w
    /\ l ≡ₚ filter (fun e => e_userId e = uid) (ls_expenses w)
    /\ (forall e, e ∈ l <-> e ∈ ls_expenses w /\ e_userId e = uid)
    /\ ((forall e, e ∈ ls_expenses w -> e_userId e = uid -> e_date e <> None) ->
        newest_first l).
Proof.
  unfold storageService.getExpenses, storageService.getAllExpensesRaw.
  unfold_m. simpl. eexists _, _. split; [reflexivity|]. simpl.
  split; [by repeat split|]. split; [done|].
  split; [apply Array_sort_Permutation|]. split.
  - intros e. rewrite elem_of_Array_sort, list_elem_of_filter. tauto.
  - intros Hv. apply sort_newest_first. intros e He.
    apply list_elem_of_filter in He as [? ?]. by apply Hv.
Qed.

(** X5. [getAppointments] writes nothing and returns the appointments of
    the given user and no other, each as often as it is stored; when
    their dates all parse, the soonest comes first. *)
Theorem getAppointments_owned_sorted (uid : string) (w : World) :
  exists (l : list Appointment) (w' : World),
    storageService.getAppointments uid w = (Return l, w')
    /\ same_store w w' /\ ls_faults w' = ls_faults w
    /\ l ≡ₚ filter (fun a => userId a = uid) (ls_appointments w)
    /\ (forall a, a ∈ l <-> a ∈ ls_appointments w /\ userId a = uid)
    /\ ((forall a, a ∈ ls_appointments w -> userId a = uid -> date a <> None) ->
        soonest_first l).
Proof.
  unfold storageService.getAppointments, storageService.getAllAppointmentsRaw.
  unfold_m. simpl. eexists _, _. split; [reflexivity|]. simpl.
  split; [by repeat split|]. split; [done|].
  split; [apply Array_sort_Permutation|]. split.
  - intros a. rewrite elem_of_Array_sort, list_elem_of_filter. tauto.
  - intros Hv. apply sort_soonest_first. intros a Ha.
    apply list_elem_of_filter in Ha as [? ?]. by apply Hv.
Qed.

Lemma filter_strict_eq_idemp (i : option string) (l : list Appointment) :
  filter (fun a => strict_eq (id a) i = false)
    (filter (fun a => strict_eq (id a) i = false) l)
  = filter (fun a => strict_eq (id a) i = false) l.
Proof.
  induction l as [|a l IH]; [done|]. rewrite (filter_cons _ a l).
  destruct (decide (strict_eq (id a) i = false)) as [Ha|Ha]; [|done].
  rewrite filter_cons_True by done. by rewrite IH.
Qed.

(** X6. [deleteAppointment] (the storage accepting the write) removes
    every appointment with the given id and nothing else, keeps the
    order of the others and leaves users and expenses alone; deleting
    the same id once more changes nothing. *)
Theorem deleteAppointment_removes (i : string) (w : World) :
  ls_faults w = [] ->
  exists w' w'',
    storageService.deleteAppointment (Some i) w = (Return tt, w')
    /\ storageService.deleteAppointment (Some i) w' = (Return tt, w'')
    /\ (forall a, a ∈ ls_appointments w' <-> a ∈ ls_appointments w /\ id a <> i)
    /\ ls_appointments w' `sublist_of` ls_appointments w
    /\ ls_appointments w'' = ls_appointments w'
    /\ ls_users w' = ls_users w /\ ls_expenses w' = ls_expenses w
    /\ ls_current_user w' = ls_current_user w.
Proof.
  intros Hok. unfold storageService.deleteAppointment,
    storageService.getAllAppointmentsRaw, storageService.saveAppointments.
  unfold_m. simpl. rewrite Hok.
  eexists _, _. split; [reflexivity|]. simpl. rewrite Hok.
  split; [reflexivity|]. simpl.
  split_and!; try done.
  - intros a. rewrite list_elem_of_filter. simpl.
    rewrite String.eqb_neq. tauto.
  - apply sublist_filter.
  - apply (filter_strict_eq_idemp (Some i)).
Qed.

Lemma deleteAppointment_removes_witness :
  ls_appointments (storageService.deleteAppointment (Some "a-1") busy_world).2 = []
  /\ exists w' w'',
       storageService.deleteAppointment (Some "a-1") busy_world = (Return tt, w')
       /\ storageService.deleteAppointment (Some "a-1") w' = (Return tt, w'')
       /\ ls_appointments w'' = ls_appointments w'.
Proof.
  split; [reflexivity|].
  destruct (deleteAppointment_removes "a-1" busy_world)
    as (w' & w'' & H1 & H2 & _ & _ & H3 & _); [reflexivity|].
  exists w', w''. split; [exact H1|]. split; [exact H2 | exact H3].
Defined.

(** ** Records found by a key *)

Section keyed.
Context {A : Type} (key : A -> string).

Lemma find_by_key_elem (l : list A) (a : A) :
  NoDup (key <$> l) -> a ∈ l ->
  find (fun b => String.eqb (key b) (key a)) l = Some a.
Proof.
  induction l as [|b l IH]; intros Hnd Ha; [inversion Ha|].
  rewrite fmap_cons in Hnd. apply NoDup_cons in Hnd as [Hb Hnd]. simpl.
  apply elem_of_cons in Ha as [->|Ha].
  - by rewrite String.eqb_refl.
  - destruct (String.eqb (key b) (key a)) eqn:E; [|by apply IH].
    apply String.eqb_eq in E. exfalso. apply Hb. rewrite E.
    by apply list_elem_of_fmap_2.
Qed.

Lemma insert_at_findIndex_key (x' : A) (l : list A) (i : nat) :
  NoDup (key <$> l) ->
  findIndex (fun b => String.eqb (key b) (key x')) l = Some i ->
  <[i := x']> l = (fun b => if String.eqb (key b) (key x') then x' else b) <$> l.
Proof.
  revert i. induction l as [|b l IH]; intros i Hnd; [done|].
  rewrite fmap_cons in Hnd. apply NoDup_cons in Hnd as [Hb Hnd]. simpl.
  destruct (String.eqb (key b) (key x')) eqn:E.
  - intros [= <-]. simpl. f_equal.
    rewrite <- (list_fmap_id l) at 1. apply list_fmap_ext.
    intros j c Hc. simpl. destruct (String.eqb (key c) (key x')) eqn:E'; [|done].
    apply String.eqb_eq in E, E'. exfalso. apply Hb. rewrite E, <- E'.
    apply list_elem_of_fmap_2. by eapply list_elem_of_lookup_2.
  - destruct (findIndex _ l) as [k|] eqn:Hk; [|done]. intros [= <-].
    simpl. f_equal. by apply IH.
Qed.

Lemma findIndex_is_Some (p : A -> bool) (l : list A) (a : A) :
  a ∈ l -> p a = true -> exists i, findIndex p l = Some i.
Proof.
  intros Ha Hp. destruct (findIndex p l) as [i|] eqn:E; [by exists i|].
  rewrite (proj1 (findIndex_None p l) E a Ha) in Hp. done.
Qed.

End keyed.

(** ** The tool bridge *)

(** X7. An appointment made through the tool bridge is stored last, with
    status [scheduled], [notified: false], the email of the user, a
    fresh identifier, and the type [reminder] when the arguments give
    no (or an empty) type; when the storage refuses the write the
    result is the error and no appointment is stored. *)
Theorem addAppointment_starts_scheduled (args : Args) (u : User) (w : World) :
  let a :=
    {| id := entropy w (drawn w); userId := email u; title := a_title args;
       date := tools.date_arg args; status := Some "scheduled";
       type := string_or (a_type args) "reminder"; createdAt := clock w;
       notified := Some false |} in
  (ls_faults w = [] ->
   exists w',
     tools.executeExpenseTool "addAppointment" args u w
       = (Return {| tr_result :=
                      Some (AppointmentScheduled (a_title args) (tools.date_arg args));
                    tr_error := None; tr_expense := None; tr_user := None;
                    tr_appointment := Some a |}, w')
     /\ ls_appointments w' = ls_appointments w ++ [a]
     /\ App.due (clock w) a
        = match tools.date_arg args with
          | Some t => (t - clock w <=? 60000) && (-3600000 <? t - clock w)
          | None => false
          end)
  /\ (forall m fs, ls_faults w = Some m :: fs ->
      exists w',
        tools.executeExpenseTool "addAppointment" args u w
          = (Return (tools.error_of m), w')
        /\ ls_appointments w' = ls_appointments w)
  /\ (a_type args = None \/ a_type args = Some "" -> type a = "reminder")
  /\ (forall t, a_type args = Some t -> t <> "" -> type a = t).
Proof.
  intros a. split_and!.
  - intros Hok. unfold tools.executeExpenseTool, tools.dispatch. simpl.
    unfold storageService.addAppointment, storageService.getAllAppointmentsRaw,
      storageService.saveAppointments.
    unfold_m. simpl. rewrite Hok. simpl.
    eexists. split; [reflexivity|]. split; [done|].
    unfold App.due. simpl. by destruct (tools.date_arg args).
  - intros m fs Hf. unfold tools.executeExpenseTool, tools.dispatch. simpl.
    unfold storageService.addAppointment, storageService.getAllAppointmentsRaw,
      storageService.saveAppointments.
    unfold_m. simpl. rewrite Hf. simpl. eexists. split; [reflexivity|]. done.
  - intros [H|H]; simpl; by rewrite H.
  - intros t H Ht. simpl. rewrite H. simpl.
    destruct (String.eqb_spec t ""); done.
Qed.

(** X8. [setBudget] for a user whose email is not among the stored
    users answers as if the budget were set, with the updated user in
    the result, but writes nothing; for a stored user (emails being
    unique, the storage accepting the writes) the stored user and the
    current user get the budget of the arguments, as given. *)
Theorem setBudget_persists_known_users (args : Args) (u : User) (w : World) :
  let updated := set_budget u (a_amount args) in
  let answer :=
    {| tr_result := Some (BudgetSetTo (a_amount args)); tr_error := None;
       tr_expense := None; tr_user := Some updated; tr_appointment := None |} in
  ((forall x, x ∈ ls_users w -> email x <> email u) ->
   exists w',
     tools.executeExpenseTool "setBudget" args u w = (Return answer, w')
     /\ same_store w w' /\ ls_faults w' = ls_faults w)
  /\ (NoDup (email <$> ls_users w) ->
      (exists x, x ∈ ls_users w /\ email x = email u) ->
      ls_faults w = [] ->
      exists w',
        tools.executeExpenseTool "setBudget" args u w = (Return answer, w')
        /\ ls_users w'
           = (fun x => if String.eqb (email x) (email u) then updated else x)
               <$> ls_users w
        /\ ls_current_user w' = Some updated
        /\ updated ∈ ls_users w').
Proof.
  intros updated answer. split.
  - intros Hno. unfold tools.executeExpenseTool, tools.dispatch. simpl.
    unfold storageService.updateUser. unfold_m. simpl.
    assert (findIndex (fun x => String.eqb (email x) (email u)) (ls_users w) = None)
      as ->.
    { apply findIndex_None. intros x Hx. apply String.eqb_neq. by apply Hno. }
    eexists. split; [reflexivity|]. by repeat split.
  - intros Hnd (x & Hx & Hmail) Hok.
    unfold tools.executeExpenseTool, tools.dispatch. simpl.
    unfold storageService.updateUser, storageService.setCurrentUser.
    unfold_m. simpl.
    destruct (findIndex_is_Some (fun y => String.eqb (email y) (email u))
                (ls_users w) x Hx) as [i Hi]; [by apply String.eqb_eq|].
    rewrite Hi. simpl. rewrite Hok. simpl. rewrite Hok.
    eexists. split; [reflexivity|]. simpl. fold updated.
    rewrite (insert_at_findIndex_key email updated _ i Hnd Hi).
    split; [done|]. split; [done|].
    apply list_elem_of_fmap. exists x. split; [|done].
    simpl. apply String.eqb_eq in Hmail. by rewrite Hmail.
Qed.

(** X9. The tool [getExpenses] returns the first ten expenses of the
    user in the order of [storageService.getExpenses], never more, none
    of another user, and writes nothing. *)
Theorem getExpenses_tool_at_most_ten (args : Args) (u : User) (w : World) :
  exists (l : list Expense) (w' : World),
    tools.executeExpenseTool "getExpenses" args u w
      = (Return (tools.result_of (JsonExpenses l)), w')
    /\ (length l <= 10)%nat
    /\ l = take 10 (match (storageService.getExpenses (email u) w).1 with
                    | Return all => all
                    | Throw _ => []
                    end)
    /\ (forall e, e ∈ l -> e ∈ ls_expenses w /\ e_userId e = email u)
    /\ same_store w w'.
Proof.
  unfold tools.executeExpenseTool, tools.dispatch. simpl.
  unfold storageService.getExpenses, storageService.getAllExpensesRaw.
  unfold_m. simpl. eexists _, _. split; [reflexivity|]. split_and!.
  - rewrite length_take. lia.
  - done.
  - intros e He. apply elem_of_take in He as (i & He & _).
    apply list_elem_of_lookup_2, elem_of_Array_sort, list_elem_of_filter in He.
    tauto.
  - by repeat split.
Qed.

(** X10. The two updating tools look a record up among the records of
    the calling user only: for an identifier that belongs to a record
    of another user they answer [not found] and write nothing.
    [deleteAppointment] makes no such check: it removes every
    appointment with the identifier, whoever owns it. *)
Theorem delete_ignores_the_owner (i : string) (args : Args) (u : User) (w : World) :
  a_id args = Some i ->
  (forall e, e ∈ ls_expenses w -> e_id e = i -> e_userId e <> email u) ->
  (forall a, a ∈ ls_appointments w -> id a = i -> userId a <> email u) ->
  (exists w1,
     tools.executeExpenseTool "updateExpense" args u w
       = (Return (tools.error_of "Expense not found"), w1)
     /\ same_store w w1)
  /\ (exists w2,
        tools.executeExpenseTool "updateAppointmentStatus" args u w
          = (Return (tools.error_of "Appointment not found"), w2)
        /\ same_store w w2)
  /\ (ls_faults w = [] ->
      exists w3,
        tools.executeExpenseTool "deleteAppointment" args u w
          = (Return (tools.result_of (Text "Appointment deleted")), w3)
        /\ ls_appointments w3 = filter (fun a => id a <> i) (ls_appointments w)
        /\ ls_expenses w3 = ls_expenses w /\ ls_users w3 = ls_users w).
Proof.
  intros Hid Hexp Happ. split_and!.
  - unfold tools.executeExpenseTool, tools.dispatch. simpl.
    unfold_storage. unfold_m. simpl.
    assert (find (fun e => strict_eq (e_id e) (a_id args))
              (Array_sort (fun a b => getTime_diff (e_date b) (e_date a))
                 (filter (fun e => e_userId e = email u) (ls_expenses w))) = None)
      as ->.
    { apply find_None. intros e He. apply elem_of_Array_sort in He.
      apply list_elem_of_filter in He as [Hown He]. rewrite Hid. simpl.
      apply String.eqb_neq. intros Heq. by apply (Hexp e He Heq). }
    eexists. split; [reflexivity|]. by repeat split.
  - unfold tools.executeExpenseTool, tools.dispatch. simpl.
    unfold_storage. unfold_m. simpl.
    assert (find (fun a => strict_eq (id a) (a_id args))
              (Array_sort (fun a b => getTime_diff (date a) (date b))
                 (filter (fun a => userId a = email u) (ls_appointments w))) = None)
      as ->.
    { apply find_None. intros a Ha. apply elem_of_Array_sort in Ha.
      apply list_elem_of_filter in Ha as [Hown Ha]. rewrite Hid. simpl.
      apply String.eqb_neq. intros Heq. by apply (Happ a Ha Heq). }
    eexists. split; [reflexivity|]. by repeat split.
  - intros Hok. unfold tools.executeExpenseTool, tools.dispatch. simpl.
    unfold_storage. unfold_m. simpl. rewrite Hok, Hid. simpl.
    eexists. split; [reflexivity|]. simpl. split; [|done].
    apply list_filter_iff. intros a. simpl.
    destruct (String.eqb_spec (id a) i); split; congruence.
Qed.

Lemma delete_ignores_the_owner_witness :
  exists w3,
    tools.executeExpenseTool "deleteAppointment" (id_arg "a-1") omar busy_world
      = (Return (tools.result_of (Text "Appointment deleted")), w3)
    /\ ls_appointments busy_world = [dentist 1800000]
    /\ ls_appointments w3 = [].
Proof.
  destruct (delete_ignores_the_owner "a-1" (id_arg "a-1") omar busy_world)
    as (_ & _ & H).
  - reflexivity.
  - intros e He. apply list_elem_of_singleton in He as ->. done.
  - intros a Ha. apply list_elem_of_singleton in Ha as ->. done.
  - destruct H as (w3 & Hrun & Happ & _); [reflexivity|].
    exists w3. split; [exact Hrun|]. split; [reflexivity|].
    rewrite Happ. reflexivity.
Defined.

(** X11. [updateExpense] on an expense of the calling user (identifiers
    being unique, the storage accepting the write, the arguments having
    the properties the tool declares) replaces exactly that expense by
    its merge with the arguments: the other expenses,
    their number and their order are unchanged, and the merged expense
    keeps the identifier, the owner and the creation time, and every
    property the arguments do not give. *)
Theorem updateExpense_merges (existing : Expense) (args : Args) (u : User)
    (w : World) :
  NoDup (e_id <$> ls_expenses w) ->
  existing ∈ ls_expenses w ->
  e_userId existing = email u ->
  a_id args = Some (e_id existing) ->
  ls_faults w = [] ->
  let merged := tools.merge_expense existing args in
  exists w',
    tools.executeExpenseTool "updateExpense" args u w
      = (Return (tools.result_of (Text "Expense updated")), w')
    /\ ls_expenses w'
       = (fun e => if String.eqb (e_id e) (e_id existing) then merged else e)
           <$> ls_expenses w
    /\ e_id merged = e_id existing
    /\ e_userId merged = e_userId existing
    /\ e_createdAt merged = e_createdAt existing
    /\ (a_amount args = None -> e_amount merged = e_amount existing)
    /\ (a_category args = None -> e_category merged = e_category existing)
    /\ (a_description args = None -> e_description merged = e_description existing)
    /\ (a_date args = None -> e_date merged = e_date existing)
    /\ ls_appointments w' = ls_appointments w /\ ls_users w' = ls_users w.
Proof.
  intros Hnd Hin Hown Hid Hok merged.
  assert (e_id merged = e_id existing) as Hkey.
  { unfold merged, tools.merge_expense. simpl. by rewrite Hid. }
  unfold tools.executeExpenseTool, tools.dispatch. simpl.
  unfold_storage. unfold_m. simpl.
  assert (find (fun e => strict_eq (e_id e) (a_id args))
            (Array_sort (fun a b => getTime_diff (e_date b) (e_date a))
               (filter (fun e => e_userId e = email u) (ls_expenses w)))
          = Some existing) as ->.
  { rewrite Hid. simpl. apply (find_by_key_elem e_id).
    - rewrite Array_sort_Permutation.
      eapply sublist_NoDup; [exact Hnd|]. apply fmap_sublist, sublist_filter.
    - apply elem_of_Array_sort, list_elem_of_filter. done. }
  simpl. rewrite Hid. simpl. fold merged.
  destruct (findIndex_is_Some (fun x => String.eqb (e_id x) (e_id existing))
              (ls_expenses w) existing Hin) as [i Hi];
    [apply String.eqb_refl|].
  rewrite Hi. simpl. rewrite Hok.
  eexists. split; [reflexivity|]. simpl.
  pose proof (insert_at_findIndex_key e_id merged (ls_expenses w) i Hnd) as Hins.
  rewrite Hkey in Hins. rewrite (Hins Hi).
  split_and!; try done; by intros ->.
Qed.

Lemma updateExpense_merges_witness :
  exists w',
    tools.executeExpenseTool "updateExpense"
      {| a_id := Some "e-1"; a_amount := Some (Num 65); a_category := None;
         a_description := None; a_date := None; a_title := None; a_type := None;
         a_status := None; a_prefilledDescription := None |} amina busy_world
      = (Return (tools.result_of (Text "Expense updated")), w')
    /\ ls_expenses w'
       = [ {| e_id := "e-1"; e_userId := "amina@example.com";
              e_amount := Some (Num 65); e_category := Some "Food";
              e_description := Some "tajine"; e_date := Some 0;
              e_createdAt := 0 |} ].
Proof.
  destruct (updateExpense_merges lunch
              {| a_id := Some "e-1"; a_amount := Some (Num 65); a_category := None;
                 a_description := None; a_date := None; a_title := None;
                 a_type := None; a_status := None;
                 a_prefilledDescription := None |} amina busy_world)
    as (w' & Hrun & Hexp & _).
  - repeat constructor. intros H. inversion H.
  - left.
  - reflexivity.
  - reflexivity.
  - reflexivity.
  - exists w'. split; [exact Hrun|]. rewrite Hexp. reflexivity.
Defined.

(** ** The notification check *)

(** X12. A check of the scheduler never throws and writes nothing but
    [notified: true] on appointments it fires: users, expenses and the
    current user stay as they are, and each stored appointment is
    unchanged or is a fired one with its flag set. The alert left on
    the screen is one of the appointments the check fired (the screen
    is left as it was when it fired none); when the dates of the
    appointments of the user all parse, the fired appointments are
    visited in ascending order of date and the alert left is the last
    of them. *)
Theorem check_only_marks (u : User) (w : World) :
  NoDup (id <$> ls_appointments w) ->
  exists w',
    App.checkAppointments u w = (Return tt, w')
    /\ ls_users w' = ls_users w /\ ls_expenses w' = ls_expenses w
    /\ ls_current_user w' = ls_current_user w
    /\ Forall2
         (fun a a' =>
            a' = a
            \/ (a ∈ fired u (clock w) (ls_appointments w)
                /\ a' = set_notified a true))
         (ls_appointments w) (ls_appointments w')
    /\ (fired u (clock w) (ls_appointments w) = [] ->
        activeAlert w' = activeAlert w)
    /\ (fired u (clock w) (ls_appointments w) <> [] ->
        exists b, activeAlert w' = Some b
                  /\ b ∈ fired u (clock w) (ls_appointments w))
    /\ ((forall a, a ∈ ls_appointments w -> userId a = email u ->
                   date a <> None) ->
        soonest_first (fired u (clock w) (ls_appointments w))
        /\ activeAlert w'
           = match last (fired u (clock w) (ls_appointments w)) with
             | Some a => Some a
             | None => activeAlert w
             end).
Proof.
  intros Hnd.
  destruct (checkAppointments_spec u w Hnd)
    as (ids & w' & Hrun & Hl & _ & Hsub & _).
  exists w'. split; [done|].
  assert (forall {X} (f : World -> X),
            (forall l w, f (with_appointments l w) = f w) ->
            (forall fs w, f (with_faults fs w) = f w) ->
            (forall ts w, f (with_timers ts w) = f w) ->
            (forall a l w, f (with_alert a l w) = f w) ->
            f w' = f w) as Hframe.
  { intros X f Ha Hf Ht Hal.
    replace w' with (App.checkAppointments u w).2 by (by rewrite Hrun).
    by apply preserves_checkAppointments. }
  split; [by apply (Hframe _ ls_users)|].
  split; [by apply (Hframe _ ls_expenses)|].
  split; [by apply (Hframe _ ls_current_user)|].
  pose proof (checkAppointments_shown u w) as [Hnone Hsome].
  pose proof (checkAppointments_alert u w) as Hlast.
  rewrite Hrun in Hnone, Hsome, Hlast. simpl in Hnone, Hsome, Hlast.
  split; [|split; [done|]; split; [done|]].
  - rewrite Hl. unfold mark. apply Forall2_fmap_r, Forall_Forall2_diag.
    apply Forall_forall. intros a Ha. unfold compose.
    destruct (bool_decide (id a ∈ ids)) eqn:E; [|by left]. right.
    apply bool_decide_eq_true in E. split; [|done].
    apply id_elem_of_fired; auto.
  - intros Hparse. split; [|done]. unfold fired, soonest_first.
    apply StronglySorted_filter. apply sort_soonest_first.
    intros a Ha. apply list_elem_of_filter in Ha as [Hu Ha]. by apply Hparse.
Qed.

Lemma check_only_marks_witness :
  let w := with_appointments [pharmacy; dentist 0; dentist_overdue] fresh_world in
  exists w',
    App.checkAppointments amina w = (Return tt, w')
    /\ fired amina (clock w) (ls_appointments w) = [dentist 0; pharmacy]
    /\ activeAlert w' = Some pharmacy
    /\ length (ls_appointments w') = 3%nat.
Proof.
  intros w.
  destruct (check_only_marks amina w)
    as (w' & Hrun & _ & _ & _ & Hall & _ & _ & Hlast).
  - repeat constructor; [| |intros H; inversion H];
      intros H; repeat (apply elem_of_cons in H as [H|H]; [discriminate H|]);
      inversion H.
  - exists w'. split; [exact Hrun|]. split; [vm_compute; reflexivity|].
    split; [|symmetry; exact (Forall2_length _ _ _ Hall)].
    destruct Hlast as [_ ->]; [|vm_compute; reflexivity].
    intros a Ha _.
    repeat (apply elem_of_cons in Ha as [->|Ha]; [discriminate|]). inversion Ha.
Defined.

(** X13. When the storage refuses the write of the flag, the check
    still shows the alert and ends normally, but the appointment stays
    un-notified in the storage: the next check that finds it in its
    window shows the same alert again, and only then is the flag set. *)
Theorem refused_write_alerts_again (u : User) (a : Appointment) (m : string)
    (t : Z) (w : World) :
  NoDup (id <$> ls_appointments w) ->
  fired u (clock w) (ls_appointments w) = [a] ->
  fired u t (ls_appointments w) = [a] ->
  ls_faults w = [Some m] ->
  let w1 := step (Check u) w in
  let w2 := run [Tick t; Check u] w1 in
  (App.checkAppointments u w).1 = Return tt
  /\ ls_appointments w1 = ls_appointments w
  /\ alerted w w1 = [a] /\ flag (id a) w1 = Some false
  /\ alerted w1 w2 = [a] /\ flag (id a) w2 = Some true.
Proof.
  intros Hnd Hfired Hlater Hf w1 w2.
  assert (a ∈ ls_appointments w /\ App.due (clock w) a = true) as [Hin Hdue].
  { assert (a ∈ fired u (clock w) (ls_appointments w)) as Ha
      by (rewrite Hfired; left).
    apply elem_of_fired in Ha. tauto. }
  assert (is_notified a = false) as Hflag.
  { apply due_in_window in Hdue. by destruct Hdue as (_ & ? & _). }
  destruct (findIndex_is_Some (fun b => String.eqb (id b) (id a))
              (ls_appointments w) a Hin) as [i Hi]; [apply String.eqb_refl|].
  assert (App.checkAppointments u w
          = (Return tt,
             with_faults []
               (with_alert (Some a) (alert_log w ++ [a])
                  (with_timers ((timers w ++ [100]) ++ [50]) w)))) as Hrun.
  { unfold App.checkAppointments, storageService.getAppointments,
      storageService.getAllAppointmentsRaw.
    unfold bind at 1 2 3 4 5, delay, modify, gets at 1, ret at 1, Date_now, gets.
    simpl. fold (fired u (clock w) (ls_appointments w)). rewrite Hfired.
    rewrite alert_loop. simpl.
    unfold App.persist, storageService.updateAppointment,
      storageService.getAllAppointmentsRaw, storageService.saveAppointments.
    unfold bind, try_catch, delay, modify, gets, setItem, ret.
    simpl. rewrite Hi. simpl. rewrite Hf. simpl. f_equal. }
  assert (ls_appointments w1 = ls_appointments w) as Hl1
    by (unfold w1; simpl; by rewrite Hrun).
  assert (alert_log w1 = alert_log w ++ [a]) as Hlog1
    by (unfold w1; simpl; by rewrite Hrun).
  assert (stored (id a) w = Some a) as Hst
    by (by apply find_by_id_elem).
  split; [by rewrite Hrun|]. split; [done|]. split.
  { unfold alerted. rewrite Hlog1. by rewrite drop_app_length. }
  split.
  { unfold flag, stored. rewrite Hl1. fold (stored (id a) w).
    by rewrite Hst, <- Hflag. }
  set (w1' := step (Tick t) w1).
  assert (ls_appointments w1' = ls_appointments w) as Hl1' by done.
  destruct (checkAppointments_spec u w1')
    as (ids & w2' & Hrun2 & Hl2 & Hlog2 & _ & Hall & _);
    [by rewrite Hl1'|].
  assert (w2 = w2') as ->
    by (change w2 with (App.checkAppointments u w1').2; by rewrite Hrun2).
  assert (fired u (clock w1') (ls_appointments w1') = [a]) as Hf2
    by (by rewrite Hl1').
  rewrite Hf2 in Hlog2, Hall. split.
  { unfold alerted. rewrite Hlog2.
    change (alert_log w1') with (alert_log w1). by rewrite drop_app_length. }
  unfold flag. rewrite (stored_mark ids (id a) w1' w2' Hl2).
  unfold stored. rewrite Hl1'. fold (stored (id a) w). rewrite Hst. simpl.
  rewrite bool_decide_eq_true_2; [done|].
  apply Hall; [|rewrite fmap_cons; left].
  unfold w1', w1. simpl. by rewrite Hrun.
Qed.

Lemma refused_write_alerts_again_witness :
  let w := with_faults [Some "QuotaExceededError"]
             (with_appointments [dentist 30000] (with_users [amina] fresh_world)) in
  let w1 := step (Check amina) w in
  let w2 := run [Tick 36030000; Check amina] w1 in
  alerted w w1 = [dentist 30000] /\ flag "a-1" w1 = Some false
  /\ alerted w1 w2 = [dentist 30000] /\ flag "a-1" w2 = Some true.
Proof.
  intros w w1 w2.
  destruct (refused_write_alerts_again amina (dentist 30000) "QuotaExceededError"
              36030000 w) as (_ & _ & H).
  - repeat constructor. intros H. inversion H.
  - vm_compute; reflexivity.
  - vm_compute; reflexivity.
  - reflexivity.
  - exact H.
Defined.

(** ** The chat *)

Lemma first_send_spoken (t : string) (blob : option ChatBot.Blob) (w : World) :
  spoken (ChatBot.first_send true t blob w).2 = spoken w.
Proof.
  unfold ChatBot.first_send. destruct blob as [b|]; [|apply retry_outside_chat].
  destruct (ChatBot.size b <? 100); [done | apply retry_outside_chat].
Qed.

Lemma reply_turns_model (t : string) (x : ChatBot.MsgExtra) :
  Forall (fun m => role m = model_role) (reply_turns t x).
Proof.
  unfold reply_turns. destruct (string_truthy t); [by repeat constructor|].
  destruct (has_card x); by repeat constructor.
Qed.

Lemma form_turns_model (fcs : list FunctionCall) :
  Forall (fun m => role m = model_role) (form_turns fcs).
Proof. unfold form_turns. apply Forall_fmap, Forall_forall. done. Qed.

(** X14. A recording of less than 100 bytes is never sent: the user
    turn is shown, followed by the error turn [Mochkil: Tasjil qsir.
    3awd.]; nothing goes to the model service, nothing is spoken and
    nothing is stored. *)
Theorem short_recording_is_not_sent (u : User) (t : string) (b : ChatBot.Blob)
    (d : option number) (w : World) :
  ChatBot.size b < 100 ->
  exists w',
    ChatBot.handleSend true u t (Some b) d w = (Return tt, w')
    /\ messages w'
       = messages w ++
         [ChatBot.user_message t (Some b) d;
          ChatBot.error_message {| message := "Tasjil qsir. 3awd." |}]
    /\ m_text (ChatBot.error_message {| message := "Tasjil qsir. 3awd." |})
       = Some "Mochkil: Tasjil qsir. 3awd."
    /\ chat_log w' = chat_log w /\ chat_script w' = chat_script w
    /\ spoken w' = spoken w /\ same_store w w'.
Proof.
  intros Hb. rewrite handleSend_started
    by (simpl; apply orb_true_r).
  unfold ChatBot.turn, ChatBot.first_send.
  apply Z.ltb_lt in Hb. rewrite Hb.
  unfold ChatBot.setMessages_push. unfold_m. simpl.
  eexists. split; [reflexivity|]. simpl.
  rewrite <- app_assoc. by repeat split.
Qed.

Lemma short_recording_is_not_sent_witness :
  let click := {| ChatBot.size := 42; ChatBot.blob_type := "audio/webm";
                  ChatBot.base64 := "GkXf" |} in
  exists w',
    ChatBot.handleSend true amina "" (Some click) None (chat_world [inr follow_up])
      = (Return tt, w')
    /\ chat_log w' = [] /\ length (messages w') = 2%nat.
Proof.
  intros click.
  destruct (short_recording_is_not_sent amina "" click None
              (chat_world [inr follow_up]))
    as (w' & Hrun & Hm & _ & Hlog & _); [simpl; lia|].
  exists w'. split; [exact Hrun|]. split; [exact Hlog|]. by rewrite Hm.
Defined.

(** X15. When the function calls of the replies of the model service
    carry their args, [handleSend] never throws and only appends to
    the history. Without a chat session, or with neither text nor
    recording, it does nothing at all; otherwise it appends the user
    turn first and after it only model turns. A typed turn never
    starts the speech synthesis. *)
Theorem handleSend_extends_history (s : bool) (u : User) (t : string)
    (blob : option ChatBot.Blob) (d : option number) (w : World) :
  exists (new : list Message) (w' : World),
    ChatBot.handleSend s u t blob d w = (Return tt, w')
    /\ messages w' = messages w ++ new
    /\ (s = false \/ (string_truthy t = false /\ blob = None) -> w' = w)
    /\ (s = true -> string_truthy t = true \/ is_Some blob ->
        exists rest,
          new = ChatBot.user_message t blob d :: rest
          /\ Forall (fun m => role m = model_role) rest)
    /\ (blob = None -> spoken w' = spoken w).
Proof.
  destruct s; cycle 1.
  { exists [], w. unfold ChatBot.handleSend. rewrite orb_true_r.
    split; [done|]. rewrite app_nil_r. split_and!; auto. done. }
  destruct (string_truthy t || bool_decide (is_Some blob)) eqn:G; cycle 1.
  { apply orb_false_iff in G as [Gt Gb]. apply bool_decide_eq_false in Gb.
    exists [], w. unfold ChatBot.handleSend. rewrite Gt.
    rewrite (bool_decide_eq_false_2 _ Gb). simpl.
    split; [done|]. rewrite app_nil_r. split_and!; auto.
    intros _ [?|?]; [congruence | done]. }
  assert (forall (R : Outcome unit * World) new w',
            R = (Return tt, w') ->
            messages w' = messages w ++ ChatBot.user_message t blob d :: new ->
            Forall (fun m => role m = model_role) new ->
            (blob = None -> spoken w' = spoken w) ->
            exists (new : list Message) (w' : World),
              R = (Return tt, w')
              /\ messages w' = messages w ++ new
              /\ (true = false \/ (string_truthy t = false /\ blob = None) -> w' = w)
              /\ (true = true -> string_truthy t = true \/ is_Some blob ->
                  exists rest,
                    new = ChatBot.user_message t blob d :: rest
                    /\ Forall (fun m => role m = model_role) rest)
              /\ (blob = None -> spoken w' = spoken w)) as Hclose.
  { intros R new w' Hrun Hm Hrole Hsp. eexists _, w'. split; [exact Hrun|].
    split; [exact Hm|]. split_and!; [|by eauto|done].
    intros [?|[Ht ->]]; [done|]. simpl in G. rewrite Ht in G. done. }
  rewrite handleSend_started by done.
  set (w0 := with_messages (messages w ++ [ChatBot.user_message t blob d]) w).
  pose proof (first_send_messages t blob w0) as Hm1.
  pose proof (first_send_spoken t blob w0) as Hs1.
  unfold ChatBot.turn, try_catch, bind in *.
  destruct (ChatBot.first_send true t blob w0) as [[r|e] w1]; simpl in Hm1, Hs1.
  2: { eapply (Hclose _ [ChatBot.error_message e]); [reflexivity|..].
       - simpl. rewrite Hm1. by rewrite <- app_assoc.
       - by repeat constructor.
       - done. }
  unfold ChatBot.resolve, bind, ret.
  destruct (functionCalls r) as [[|fc rest]|].
  - destruct (show_reply_spec (bool_decide (is_Some blob))
                (string_or (text r) "") ChatBot.no_extra w1)
      as (w' & Hrun & Hm & _ & Hsp).
    simpl. rewrite Hrun.
    eapply (Hclose _ (reply_turns (string_or (text r) "") ChatBot.no_extra));
      [reflexivity|..].
    + rewrite Hm, Hm1. by rewrite <- app_assoc.
    + apply reply_turns_model.
    + intros ->. rewrite Hsp, Hs1. simpl. by rewrite app_nil_r.
  - destruct (run_calls_spec u (fc :: rest) [] ChatBot.no_extra w1)
      as (results & x & w2 & Hcalls & _ & _ & _ & Hsp2 & Hm2 & _).
    rewrite Hcalls. simpl.
    pose proof (retry_outside_chat (MessageParts results) w2) as (Hm3 & Hsp3 & _).
    destruct (ChatBot.sendMessageWithRetry true (MessageParts results) w2)
      as [[r2|e] w3]; simpl in Hm3, Hsp3.
    + destruct (show_reply_spec (bool_decide (is_Some blob))
                  (string_or (text r2) "") x w3)
        as (w' & Hrun & Hm & _ & Hsp).
      simpl. rewrite Hrun.
      eapply (Hclose _ (form_turns (fc :: rest)
                          ++ reply_turns (string_or (text r2) "") x));
        [reflexivity|..].
      * rewrite Hm, Hm3, Hm2, Hm1. by rewrite <- !app_assoc.
      * apply Forall_app. split; [apply form_turns_model | apply reply_turns_model].
      * intros ->. rewrite Hsp, Hsp3, Hsp2, Hs1. simpl. by rewrite app_nil_r.
    + eapply (Hclose _ (form_turns (fc :: rest) ++ [ChatBot.error_message e]));
        [reflexivity|..].
      * simpl. rewrite Hm3, Hm2, Hm1. by rewrite <- !app_assoc.
      * apply Forall_app. split; [apply form_turns_model | by repeat constructor].
      * intros _. simpl. by rewrite Hsp3, Hsp2, Hs1.
  - destruct (show_reply_spec (bool_decide (is_Some blob))
                (string_or (text r) "") ChatBot.no_extra w1)
      as (w' & Hrun & Hm & _ & Hsp).
    simpl. rewrite Hrun.
    eapply (Hclose _ (reply_turns (string_or (text r) "") ChatBot.no_extra));
      [reflexivity|..].
    + rewrite Hm, Hm1. by rewrite <- app_assoc.
    + apply reply_turns_model.
    + intros ->. rewrite Hsp, Hs1. simpl. by rewrite app_nil_r.
Qed.

(** X16. The manual form does nothing without an amount or without a
    description. Otherwise it appends the turn [Tqiyed.] whatever the
    tool returned: with the card of the new expense, dated today, when
    the expense was stored, and without a card, nothing being stored,
    when the storage refused the write. *)
Theorem manual_form_always_confirms (n : number) (category desc : string)
    (u : User) (w : World) :
  string_truthy desc = true ->
  ChatBotInput.saveExpense None category desc u w = (Return tt, w)
  /\ ChatBotInput.saveExpense (Some n) category "" u w = (Return tt, w)
  /\ exists (m : Message) (w' : World),
       ChatBotInput.saveExpense (Some n) category desc u w = (Return tt, w')
       /\ messages w' = messages w ++ [m]
       /\ role m = model_role /\ m_text m = Some "Tqiyed." /\ isError m = false
       /\ (ls_faults w = [] ->
           exists e,
             expenseData m = Some e /\ ls_expenses w' = ls_expenses w ++ [e]
             /\ e_userId e = email u /\ e_amount e = Some n
             /\ e_category e = Some category /\ e_description e = Some desc
             /\ e_date e = ChatBotInput.today (clock w))
       /\ (forall msg fs, ls_faults w = Some msg :: fs ->
           expenseData m = None /\ ls_expenses w' = ls_expenses w).
Proof.
  intros Hdesc. split; [done|]. split; [done|].
  unfold ChatBotInput.saveExpense. rewrite Hdesc. cbn [negb].
  unfold tools.executeExpenseTool, tools.dispatch. cbn [String.eqb Ascii.eqb Bool.eqb].
  unfold storageService.addExpense, storageService.getAllExpensesRaw,
    storageService.saveExpenses, ChatBot.setMessages_push.
  unfold_m. cbn -[ChatBotInput.today].
  destruct (ls_faults w) as [|[msg|] fs] eqn:Hf; cbn -[ChatBotInput.today].
  - eexists _, _. split; [reflexivity|]. cbn -[ChatBotInput.today].
    split; [reflexivity|]. split_and!; try done.
    intros _. eexists. split; [reflexivity|]. by split_and!.
  - eexists _, _. split; [reflexivity|]. cbn -[ChatBotInput.today].
    split; [reflexivity|]. split_and!; try done.
  - eexists _, _. split; [reflexivity|]. cbn -[ChatBotInput.today].
    split; [reflexivity|]. split_and!; try done.
Qed.

Lemma manual_form_always_confirms_witness :
  exists (m : Message) (w' : World),
    ChatBotInput.saveExpense (Some (Num 50)) "Food" "tajine" amina
      (with_faults [Some "QuotaExceededError"] busy_world) = (Return tt, w')
    /\ messages w' = [m] /\ m_text m = Some "Tqiyed."
    /\ expenseData m = None /\ ls_expenses w' = [lunch].
Proof.
  destruct (manual_form_always_confirms (Num 50) "Food" "tajine" amina
              (with_faults [Some "QuotaExceededError"] busy_world))
    as (_ & _ & m & w' & Hrun & Hm & _ & Ht & _ & _ & Hrefused); [reflexivity|].
  destruct (Hrefused "QuotaExceededError" []) as [Hcard Hexp]; [reflexivity|].
  exists m, w'. split; [exact Hrun|]. split; [exact Hm|]. split; [exact Ht|].
  split; [exact Hcard | exact Hexp].
Defined.

(** ** The recorder *)

Lemma chunks_kept (chunks : list ChatBot.Blob) :
  forall r : ChatBotInput.Recorder,
    let r' := foldl (fun r c => ChatBotInput.ondataavailable c r) r chunks in
    ChatBotInput.audioChunksRef r'
    = ChatBotInput.audioChunksRef r
      ++ filter (fun c => 0 < ChatBot.size c) chunks
    /\ ChatBotInput.isRecording r' = ChatBotInput.isRecording r
    /\ ChatBotInput.mediaRecorderRef r' = ChatBotInput.mediaRecorderRef r
    /\ ChatBotInput.shouldSendRef r' = ChatBotInput.shouldSendRef r
    /\ ChatBotInput.startTimeRef r' = ChatBotInput.startTimeRef r.
Proof.
  induction chunks as [|c chunks IH]; intros r; simpl.
  - by rewrite app_nil_r.
  - destruct (IH (ChatBotInput.ondataavailable c r)) as (-> & -> & -> & -> & ->).
    unfold ChatBotInput.ondataavailable.
    destruct (Z.ltb_spec 0 (ChatBot.size c)).
    + rewrite filter_cons_True by done. simpl. by rewrite <- app_assoc.
    + rewrite filter_cons_False by lia. done.
Qed.

Section recorder.
Variable blobToBase64 : list ChatBot.Blob -> string.

(** X17. A recording started with the permission of the user collects
    the chunks of positive size, in order. Cancelled, it sends nothing.
    Stopped to be sent, it sends nothing when no chunk was kept, and
    otherwise one voice turn with no text, the blob of the kept chunks
    and the seconds between the start and the end of the recording. *)
Theorem recording_outcomes (s : bool) (u : User) (r : ChatBotInput.Recorder)
    (chunks : list ChatBot.Blob) (w w' : World) :
  let r0 :=
    {| ChatBotInput.isRecording := true; ChatBotInput.shouldSendRef := true;
       ChatBotInput.mediaRecorderRef := true; ChatBotInput.audioChunksRef := [];
       ChatBotInput.startTimeRef := clock w;
       ChatBotInput.alerts := ChatBotInput.alerts r |} in
  let r1 := foldl (fun r c => ChatBotInput.ondataavailable c r) r0 chunks in
  let kept := filter (fun c => 0 < ChatBot.size c) chunks in
  ChatBotInput.startRecording true r w = (Return r0, w)
  /\ ChatBotInput.audioChunksRef r1 = kept
  /\ ChatBotInput.onstop blobToBase64 s u (ChatBotInput.cancelRecording r1) w'
     = (Return tt, w')
  /\ (kept = [] ->
      ChatBotInput.onstop blobToBase64 s u (ChatBotInput.stopAndSend r1) w'
      = (Return tt, w'))
  /\ (kept <> [] ->
      ChatBotInput.onstop blobToBase64 s u (ChatBotInput.stopAndSend r1) w'
      = ChatBot.handleSend s u ""
          (Some (ChatBotInput.new_Blob blobToBase64 kept))
          (Some (Num (Qmake (clock w' - clock w) 1000))) w'
      /\ 0 < ChatBot.size (ChatBotInput.new_Blob blobToBase64 kept)).
Proof.
  intros r0 r1 kept.
  destruct (chunks_kept chunks r0) as (Hc & Hrec & Hmr & Hsend & Hstart).
  fold r1 in Hc, Hrec, Hmr, Hsend, Hstart. simpl in Hc, Hrec, Hmr, Hsend, Hstart.
  fold kept in Hc.
  split; [done|]. split; [done|].
  unfold ChatBotInput.onstop, ChatBotInput.cancelRecording,
    ChatBotInput.stopAndSend, ChatBotInput.stop_with.
  rewrite Hmr, Hrec. simpl. rewrite Hc, Hstart.
  split; [done|]. split; [by intros ->|].
  intros Hne. destruct kept as [|c kept'] eqn:Hk; [done|]. split; [done|].
  assert (Forall (fun c => 0 < ChatBot.size c) (c :: kept')) as Hpos.
  { rewrite <- Hk. apply Forall_forall. intros x Hx.
    by apply list_elem_of_filter in Hx as [? _]. }
  assert (forall l, Forall (fun c => 0 < ChatBot.size c) l ->
                    0 <= foldr (fun c n => ChatBot.size c + n) 0 l) as Hsum.
  { intros l Hl. induction Hl as [|x l Hx _ IH]; simpl; lia. }
  apply Forall_cons in Hpos as [Hc0 Hrest]. apply Hsum in Hrest.
  simpl. lia.
Qed.

End recorder.

(** ** The live assistant *)

Lemma queued_schedule (t : Z) (pcm : list Z) (s : LiveAssistant.Session) :
  queued s -> queued (LiveAssistant.schedule t pcm s).
Proof.
  intros [Hs Hn]. unfold queued, LiveAssistant.schedule.
  cbn -[Z.max Z.of_nat]. split.
  - apply StronglySorted_snoc; [done|]. eapply Forall_impl; [exact Hn|].
    intros a Ha. cbn -[Z.max Z.of_nat] in *. lia.
  - apply Forall_app. split.
    + eapply Forall_impl; [exact Hn|]. intros a Ha. cbn -[Z.max Z.of_nat] in *. lia.
    + repeat constructor. unfold ends. cbn -[Z.max Z.of_nat]. lia.
Qed.

(** X18. The sources queued for playback never overlap: each one
    starts when the one before it has ended or later. A message of the
    service keeps it so, whatever it carries and whenever it comes, a
    source it adds starts no earlier than the current time of the
    audio context, and so does the end of a source. *)
Theorem playback_never_overlaps (u : User) (t : Z)
    (msg : LiveAssistant.LiveServerMessage) (n : nat)
    (s : LiveAssistant.Session) (w : World) :
  queued s ->
  queued (LiveAssistant.ended n s)
  /\ exists s' w',
       LiveAssistant.onmessage u t msg s w = (Return s', w')
       /\ queued s'
       /\ forall x, x ∈ LiveAssistant.sourcesRef s' ->
            x ∈ LiveAssistant.sourcesRef s \/ t <= LiveAssistant.start_time x.
Proof.
  intros Hq. split.
  { destruct Hq as [Hs Hn]. split; simpl.
    - by apply StronglySorted_filter.
    - apply Forall_forall. intros x Hx. apply list_elem_of_filter in Hx as [_ Hx].
      by apply (proj1 (Forall_forall _ _) Hn). }
  unfold LiveAssistant.onmessage.
  destruct (LiveAssistant.closingRef s).
  { exists s, w. split; [done|]. split; [done|]. by left. }
  assert (exists s1 w1,
            match LiveAssistant.toolCall msg with
            | Some fcs => LiveAssistant.run_toolCall u fcs s
            | None => ret s
            end w = (Return s1, w1) /\ audio_side s1 = audio_side s)
    as (s1 & w1 & Hrun & Ha).
  { destruct (LiveAssistant.toolCall msg) as [fcs|];
      [apply run_toolCall_audio | by exists s, w]. }
  unfold bind. rewrite Hrun.
  assert (queued s1 /\ LiveAssistant.sourcesRef s1 = LiveAssistant.sourcesRef s)
    as [Hq1 Hsrc].
  { unfold audio_side in Ha. injection Ha as _ _ _ Hn Hs _ _ _ _ _.
    unfold queued. by rewrite Hn, Hs. }
  eexists _, w1. split; [reflexivity|].
  destruct (LiveAssistant.interrupted msg).
  { split; [split; constructor|]. intros x Hx. inversion Hx. }
  destruct (LiveAssistant.inlineData msg) as [[|x pcm]|].
  - split; [done|]. intros y Hy. left. by rewrite <- Hsrc.
  - split; [by apply queued_schedule|]. intros y Hy.
    cbn -[Z.max Z.of_nat] in Hy. apply elem_of_app in Hy as [Hy|Hy].
    + left. by rewrite <- Hsrc.
    + right. apply list_elem_of_singleton in Hy as ->. cbn -[Z.max Z.of_nat]. lia.
  - split; [done|]. intros y Hy. left. by rewrite <- Hsrc.
Qed.

Lemma playback_never_overlaps_witness :
  queued playing
  /\ exists s' w',
       LiveAssistant.onmessage amina 5
         {| LiveAssistant.toolCall := None;
            LiveAssistant.inlineData := Some [7; 7];
            LiveAssistant.interrupted := false |} playing fresh_world
       = (Return s', w')
       /\ queued s'.
Proof.
  assert (queued playing) as Hq.
  { split; vm_compute; repeat constructor; discriminate. }
  split; [exact Hq|].
  destruct (playback_never_overlaps amina 5
              {| LiveAssistant.toolCall := None;
                 LiveAssistant.inlineData := Some [7; 7];
                 LiveAssistant.interrupted := false |} 0 playing fresh_world Hq)
    as (_ & s' & w' & Hrun & Hq' & _).
  exists s', w'. split; [exact Hrun | exact Hq'].
Defined.

Lemma run_toolCall_spec (u : User) (fcs : list FunctionCall) :
  forall (s : LiveAssistant.Session) (w : World),
  exists results s',
    LiveAssistant.run_toolCall u fcs s w
    = (Return s',
       foldl (fun w fc =>
                (tools.executeExpenseTool (fc_name fc) (fc_args fc) u w).2) w fcs)
    /\ LiveAssistant.toolResponses s' = LiveAssistant.toolResponses s ++ results
    /\ Forall2 answers fcs results
    /\ audio_side s' = audio_side s.
Proof.
  induction fcs as [|fc fcs IH]; intros s w.
  - exists [], s. simpl. rewrite app_nil_r. by repeat split; try constructor.
  - simpl. unfold bind.
    destruct (executeExpenseTool_returns (fc_name fc) (fc_args fc) u w) as [r Hr].
    destruct (tools.executeExpenseTool (fc_name fc) (fc_args fc) u w)
      as [o w1] eqn:Hrun. simpl in Hr. subst o.
    destruct (IH (LiveAssistant.sendToolResponse
                    (FunctionResponse (fc_id fc) (fc_name fc) (ToolResponse r)) s)
                w1) as (results & s' & -> & Hresp & Hans & Haudio).
    exists (FunctionResponse (fc_id fc) (fc_name fc) (ToolResponse r) :: results), s'.
    split; [done|]. split; [|split].
    + rewrite Hresp. simpl. by rewrite <- app_assoc.
    + constructor; [by eexists | done].
    + by rewrite Haudio.
Qed.

(** X19. A live message with function calls runs every call, in order,
    through the tool bridge and hands one response to the service for
    each, with the id and the name of its call and in the order of the
    calls; the playback and the capture are not touched, and the world
    is left as the same calls of the bridge leave it. *)
Theorem live_calls_answered (u : User) (fcs : list FunctionCall) (t : Z)
    (s : LiveAssistant.Session) (w : World) :
  LiveAssistant.closingRef s = false ->
  exists results s',
    LiveAssistant.onmessage u t
      {| LiveAssistant.toolCall := Some fcs; LiveAssistant.inlineData := None;
         LiveAssistant.interrupted := false |} s w
    = (Return s',
       foldl (fun w fc =>
                (tools.executeExpenseTool (fc_name fc) (fc_args fc) u w).2) w fcs)
    /\ LiveAssistant.toolResponses s' = LiveAssistant.toolResponses s ++ results
    /\ Forall2 answers fcs results
    /\ audio_side s' = audio_side s.
Proof.
  intros Hopen. unfold LiveAssistant.onmessage. rewrite Hopen. simpl.
  destruct (run_toolCall_spec u fcs s w) as (results & s' & Hrun & H).
  exists results, s'. unfold bind. by rewrite Hrun.
Qed.

Lemma live_calls_answered_witness :
  exists results s',
    (LiveAssistant.onmessage amina 0
       {| LiveAssistant.toolCall := Some two_calls;
          LiveAssistant.inlineData := None;
          LiveAssistant.interrupted := false |} LiveAssistant.mount fresh_world).1
    = Return s'
    /\ LiveAssistant.toolResponses s' = results
    /\ Forall2 answers two_calls results.
Proof.
  destruct (live_calls_answered amina two_calls 0 LiveAssistant.mount fresh_world)
    as (results & s' & Hrun & Hresp & Hans & _); [reflexivity|].
  exists results, s'. rewrite Hrun. split; [done|]. split; [exact Hresp | exact Hans].
Defined.

(** X20. Once the component is unmounted, its handlers are inert: a
    message of the service runs no tool, schedules and stops no audio
    and answers nothing, and a capture frame is not streamed. *)
Theorem after_cleanup_inert (u : User) (t : Z)
    (msg : LiveAssistant.LiveServerMessage) (frame : list Z)
    (s : LiveAssistant.Session) (w : World) :
  let s' := LiveAssistant.cleanup s in
  LiveAssistant.onmessage u t msg s' w = (Return s', w)
  /\ LiveAssistant.audioprocess frame s' = s'
  /\ LiveAssistant.audioprocess frame (LiveAssistant.toggleMute s')
     = LiveAssistant.toggleMute s'.
Proof.
  split; [done|]. unfold LiveAssistant.audioprocess. simpl.
  destruct (LiveAssistant.onaudioprocess s) as [[|]|]; done.
Qed.

(** ** The list of appointments *)

Lemma elem_of_upcoming (now : Z) (l : list Appointment) (a : Appointment) :
  a ∈ AppointmentsView.upcoming now l
  <-> a ∈ l /\ status a = Some "scheduled"
      /\ exists t, date a = Some t /\ now < t.
Proof.
  unfold AppointmentsView.upcoming.
  rewrite elem_of_Array_sort, list_elem_of_filter, Is_true_true, andb_true_iff.
  unfold strict_eq, AppointmentsView.after. split.
  - intros [[Hs Hd] Ha]. split; [done|].
    destruct (status a) as [s|]; [|done].
    apply String.eqb_eq in Hs as <-. split; [done|].
    destruct (date a) as [t|]; [|done]. exists t. split; [done|].
    by apply Z.ltb_lt.
  - intros (Ha & -> & t & -> & Ht). split; [|done].
    split; [done | by apply Z.ltb_lt].
Qed.

Lemma elem_of_history (now : Z) (l : list Appointment) (a : Appointment) :
  a ∈ AppointmentsView.history now l
  <-> a ∈ l /\ (status a <> Some "scheduled"
                \/ exists t, date a = Some t /\ t <= now).
Proof.
  unfold AppointmentsView.history.
  rewrite elem_of_Array_sort, list_elem_of_filter, Is_true_true, orb_true_iff,
    negb_true_iff.
  unfold strict_eq, AppointmentsView.not_after. split.
  - intros [[Hs|Hd] Ha]; (split; [done|]).
    + left. destruct (status a) as [s|]; [|done].
      apply String.eqb_neq in Hs. congruence.
    + right. destruct (date a) as [t|]; [|done]. exists t. split; [done|].
      by apply Z.leb_le.
  - intros (Ha & [Hs|(t & -> & Ht)]); (split; [|done]).
    + left. destruct (status a) as [s|]; [|done].
      apply String.eqb_neq. congruence.
    + right. by apply Z.leb_le.
Qed.

(** X21. The two tabs of the list of appointments never show the same
    appointment, and [upcoming] is in ascending order of date. An
    appointment with a date that parses, or with a status other than
    [scheduled], is in one of them; a scheduled appointment whose date
    does not parse is in neither: the list never shows it. *)
Theorem upcoming_or_history (now : Z) (l : list Appointment) (a : Appointment) :
  a ∈ l ->
  ~ (a ∈ AppointmentsView.upcoming now l /\ a ∈ AppointmentsView.history now l)
  /\ (date a <> None \/ status a <> Some "scheduled" ->
      a ∈ AppointmentsView.upcoming now l \/ a ∈ AppointmentsView.history now l)
  /\ (date a = None -> status a = Some "scheduled" ->
      forall f, a ∉ AppointmentsView.displayed f now l)
  /\ soonest_first (AppointmentsView.upcoming now l).
Proof.
  intros Ha. rewrite elem_of_upcoming, elem_of_history. split_and!.
  - intros [(_ & Hs & t & Hd & Ht) (_ & [Hs'|(t' & Hd' & Ht')])]; [done|].
    rewrite Hd in Hd'. injection Hd' as <-. lia.
  - intros H.
    destruct (decide (status a = Some "scheduled")) as [Hs|Hs]; [|by right; split; [|left]].
    destruct H as [Hd|Hs']; [|done].
    destruct (date a) as [t|] eqn:Hd'; [|done].
    destruct (decide (now < t)).
    + left. split; [done|]. split; [done|]. by exists t.
    + right. split; [done|]. right. exists t. split; [done | lia].
  - intros Hd Hs [|]; simpl.
    + rewrite elem_of_upcoming. intros (_ & _ & t & Hd' & _). congruence.
    + rewrite elem_of_history. intros (_ & [Hs'|(t & Hd' & _)]); congruence.
  - apply sort_soonest_first. intros b Hb.
    assert (b ∈ AppointmentsView.upcoming now l) as Hb'
      by (by apply elem_of_Array_sort).
    apply elem_of_upcoming in Hb' as (_ & _ & t & -> & _). done.
Qed.

Lemma upcoming_or_history_witness :
  undated ∈ [dentist 1800000; undated]
  /\ forall f,
       undated ∉ AppointmentsView.displayed f 36000000 [dentist 1800000; undated].
Proof.
  assert (undated ∈ [dentist 1800000; undated]) as Hin by (right; left).
  split; [exact Hin|].
  destruct (upcoming_or_history 36000000 [dentist 1800000; undated] undated Hin)
    as (_ & _ & H & _).
  apply H; reflexivity.
Defined.

(** X22. The buttons of a card write the appointment as the list
    holds it, with the new status: when a stored appointment has its
    identifier (identifiers being unique, the storage accepting the
    write) that one is replaced by the card's copy, whatever was
    written to it since the list was loaded, so a [notified] flag set
    in between goes back to the value of the card; when none has,
    nothing is written. The list is then loaded again. *)
Theorem status_buttons_write_the_card (appt : Appointment)
    (s : AppointmentsView.Closed) (u : User) (w : World) :
  NoDup (id <$> ls_appointments w) ->
  ls_faults w = [] ->
  let closed := set_status appt (Some (AppointmentsView.status_name s)) in
  exists (shown : list Appointment) (w' : World),
    AppointmentsView.handleStatusChange appt s u w = (Return shown, w')
    /\ ls_appointments w' = replace_by_id closed (ls_appointments w)
    /\ (id appt ∉ id <$> ls_appointments w -> ls_appointments w' = ls_appointments w)
    /\ (id appt ∈ id <$> ls_appointments w ->
        stored (id appt) w' = Some closed
        /\ flag (id appt) w' = Some (is_notified appt))
    /\ (forall a, a ∈ shown <-> a ∈ ls_appointments w' /\ userId a = email u)
    /\ forall now, App.due now closed = false.
Proof.
  intros Hnd Hok closed.
  assert (forall now, App.due now closed = false) as Hdue.
  { intros now. unfold App.due, closed. simpl. by destruct s. }
  assert (id closed = id appt) as Hid by done.
  assert (is_notified closed = is_notified appt) as Hflag by done.
  unfold AppointmentsView.handleStatusChange. fold closed. clearbody closed.
  unfold AppointmentsView.loadData,
    storageService.updateAppointment, storageService.getAppointments,
    storageService.getAllAppointmentsRaw, storageService.saveAppointments.
  unfold_m. simpl. rewrite <- Hid.
  destruct (findIndex (fun a => String.eqb (id a) (id closed)) (ls_appointments w))
    as [i|] eqn:Hi; simpl.
  - rewrite Hok. eexists _, _. split; [reflexivity|]. simpl.
    rewrite (insert_at_findIndex closed _ i Hnd Hi).
    split; [done|]. split_and!.
    + apply findIndex_Some in Hi as (b & Hb & Heq & _).
      apply String.eqb_eq in Heq. intros Hno. exfalso. apply Hno. rewrite <- Heq.
      apply list_elem_of_fmap_2. by eapply list_elem_of_lookup_2.
    + intros _. unfold flag, stored. simpl.
      assert (find (fun a => String.eqb (id a) (id closed))
                (replace_by_id closed (ls_appointments w)) = Some closed) as ->.
      { apply (find_by_id_elem _ closed).
        - by rewrite replace_by_id_ids.
        - apply findIndex_Some in Hi as (b & Hb & Heq & _).
          unfold replace_by_id. apply list_elem_of_fmap. exists b.
          simpl. rewrite Heq. split; [done|]. by eapply list_elem_of_lookup_2. }
      simpl. by rewrite Hflag.
    + intros a. rewrite elem_of_Array_sort, list_elem_of_filter. tauto.
    + done.
  - eexists _, _. split; [reflexivity|]. simpl.
    rewrite (replace_by_id_absent closed) by done.
    split; [done|]. split_and!; [done| |intros a|done].
    + intros Hin. apply list_elem_of_fmap in Hin as (b & Hidb & Hb).
      apply (proj1 (findIndex_None _ _) Hi) in Hb.
      rewrite Hidb, String.eqb_refl in Hb. done.
    + rewrite elem_of_Array_sort, list_elem_of_filter. tauto.
Qed.

Lemma status_buttons_write_the_card_witness :
  let w := with_appointments [set_notified (dentist 0) true] fresh_world in
  exists shown w',
    AppointmentsView.handleStatusChange (dentist 0) AppointmentsView.completed
      amina w = (Return shown, w')
    /\ flag "a-1" w = Some true /\ flag "a-1" w' = Some false.
Proof.
  intros w.
  destruct (status_buttons_write_the_card (dentist 0) AppointmentsView.completed
              amina w) as (shown & w' & Hrun & _ & _ & Hflag & _).
  - repeat constructor. intros H. inversion H.
  - reflexivity.
  - exists shown, w'. split; [exact Hrun|]. split; [reflexivity|].
    apply Hflag. left.
Defined.

(** ** Signing in *)

(** X23. The three refusals of the sign-in form, none of which writes
    anything: an unknown email in login mode switches the form to
    register mode and asks for the name; register mode without a name
    is refused before the storage is asked, even for a new email; an
    email that is already registered is refused in register mode. In
    each case nobody is logged in and the form stops loading. *)
Theorem sign_in_form_refusals (f : Auth.Form) (w : World) :
  let refused (e : string) :=
    exists f' w',
      Auth.handleSubmit f w = (Return f', w')
      /\ Auth.error f' = e /\ Auth.isRegister f' = true
      /\ Auth.onLogin f' = Auth.onLogin f /\ Auth.loading f' = false
      /\ same_store w w' /\ ls_faults w' = ls_faults w in
  (Auth.isRegister f = false ->
   (forall x, x ∈ ls_users w -> email x <> Auth.f_email f) ->
   refused "Had l-compte ma-kaynach. 3afak dkhl smitek bach tsajjel.")
  /\ (Auth.isRegister f = true -> Auth.f_name f = "" ->
      refused "3afak dkhl smitek (Name is required)")
  /\ (Auth.isRegister f = true -> Auth.f_name f <> "" ->
      (exists x, x ∈ ls_users w /\ email x = Auth.f_email f) ->
      refused "Had l-email deja msajjel. Dir Dkhoul.").
Proof.
  intros refused. unfold refused. split_and!.
  - intros Hmode Hnew. unfold Auth.handleSubmit, storageService.login.
    rewrite Hmode. unfold_m. simpl.
    assert (find (fun x => String.eqb (email x) (Auth.f_email f)) (ls_users w) = None)
      as ->.
    { apply find_None. intros x Hx. apply String.eqb_neq. by apply Hnew. }
    simpl. eexists _, _. split; [reflexivity|]. simpl. by repeat split.
  - intros Hmode Hname. unfold Auth.handleSubmit. rewrite Hmode, Hname.
    unfold_m. simpl. eexists _, _. split; [reflexivity|]. simpl. by repeat split.
  - intros Hmode Hname (x & Hx & Hmail).
    unfold Auth.handleSubmit, storageService.register. rewrite Hmode.
    assert (string_truthy (Auth.f_name f) = true) as ->.
    { unfold string_truthy. apply negb_true_iff. by apply String.eqb_neq. }
    unfold_m. simpl.
    destruct (find (fun y => String.eqb (email y) (Auth.f_email f)) (ls_users w))
      as [y|] eqn:Hy.
    + simpl. eexists _, _. split; [reflexivity|]. simpl. by repeat split.
    + apply (proj1 (find_None _ _)) with (x := x) in Hy; [|done].
      apply String.eqb_neq in Hy. done.
Qed.

(** X24. A new user signs up in two submissions of the form: the
    first, in login mode, only switches the form to register mode; the
    second registers the account with the budget 5000 and the password
    placeholder, and logs it in. *)
Theorem sign_up_in_two_steps (f : Auth.Form) (w : World) :
  Auth.isRegister f = false ->
  Auth.f_name f <> "" ->
  (forall x, x ∈ ls_users w -> email x <> Auth.f_email f) ->
  ls_faults w = [] ->
  let newUser :=
    {| email := Auth.f_email f; name := Auth.f_name f; password := Some "dummy";
       budget := Some (Num 5000) |} in
  exists f1 w1 f2 w2,
    Auth.handleSubmit f w = (Return f1, w1)
    /\ Auth.isRegister f1 = true /\ Auth.onLogin f1 = Auth.onLogin f
    /\ Auth.handleSubmit f1 w1 = (Return f2, w2)
    /\ Auth.onLogin f2 = Some newUser /\ Auth.error f2 = ""
    /\ Auth.loading f2 = false
    /\ ls_users w2 = ls_users w ++ [newUser]
    /\ ls_current_user w2 = Some newUser.
Proof.
  intros Hmode Hname Hnew Hok newUser.
  assert (find (fun x => String.eqb (email x) (Auth.f_email f)) (ls_users w) = None)
    as Hfind.
  { apply find_None. intros x Hx. apply String.eqb_neq. by apply Hnew. }
  assert (string_truthy (Auth.f_name f) = true) as Htruthy.
  { unfold string_truthy. apply negb_true_iff. by apply String.eqb_neq. }
  eexists _, _. eexists _, _. split.
  { unfold Auth.handleSubmit, storageService.login. rewrite Hmode.
    unfold_m. simpl. rewrite Hfind. simpl. reflexivity. }
  split; [done|]. split; [done|]. split.
  { unfold Auth.handleSubmit, storageService.register,
      storageService.setCurrentUser.
    unfold_m. simpl. rewrite Htruthy. simpl. rewrite Hfind. simpl.
    rewrite Hok. simpl. rewrite Hok. simpl. reflexivity. }
  simpl. by repeat split.
Qed.

Lemma sign_up_in_two_steps_witness :
  let f := {| Auth.isRegister := false; Auth.f_email := "omar@example.com";
              Auth.f_name := "Omar"; Auth.error := ""; Auth.loading := false;
              Auth.onLogin := None |} in
  exists f1 w1 f2 w2,
    Auth.handleSubmit f busy_world = (Return f1, w1)
    /\ Auth.handleSubmit f1 w1 = (Return f2, w2)
    /\ email <$> ls_users w2 = ["amina@example.com"; "omar@example.com"]
    /\ budget <$> ls_current_user w2 = Some (Some (Num 5000)).
Proof.
  intros f.
  destruct (sign_up_in_two_steps f busy_world)
    as (f1 & w1 & f2 & w2 & H1 & _ & _ & H2 & _ & _ & _ & Hu & Hc).
  - reflexivity.
  - discriminate.
  - intros x Hx. apply list_elem_of_singleton in Hx as ->. discriminate.
  - reflexivity.
  - exists f1, w1, f2, w2. split; [exact H1|]. split; [exact H2|].
    rewrite Hu, Hc. split; reflexivity.
Defined.

(** X25. The session outlives a restart of the application and ends
    with a logout: after a login the user found when the application
    starts again is the one logged in; after [handleLogout] no user is
    found, while the accounts and their records stay stored. *)
Theorem session_until_logout (mail : string) (u : User) (w w1 : World) :
  storageService.login mail w = (Return u, w1) ->
  (AppSession.restore (step Restart w1)).1 = Return (Some u)
  /\ (AppSession.handleLogout w1).1 = Return None
  /\ (AppSession.restore (step Restart (AppSession.handleLogout w1).2)).1
     = Return None
  /\ ls_users (AppSession.handleLogout w1).2 = ls_users w
  /\ ls_expenses (AppSession.handleLogout w1).2 = ls_expenses w
  /\ ls_appointments (AppSession.handleLogout w1).2 = ls_appointments w
  /\ u ∈ ls_users w /\ email u = mail.
Proof.
  unfold storageService.login, storageService.setCurrentUser. unfold_m. simpl.
  destruct (find (fun x => String.eqb (email x) mail) (ls_users w)) as [x|] eqn:Hx;
    [|done].
  apply find_Some in Hx as [Hin Hmail]. apply String.eqb_eq in Hmail.
  simpl. destruct (ls_faults w) as [|[m|] fs]; simpl; [|done|];
    intros [= <- <-]; by repeat split.
Qed.

Lemma session_until_logout_witness :
  exists w1,
    storageService.login "amina@example.com" busy_world = (Return amina, w1)
    /\ (AppSession.restore (step Restart w1)).1 = Return (Some amina)
    /\ (AppSession.restore (step Restart (AppSession.handleLogout w1).2)).1
       = Return None.
Proof.
  eexists. split; [vm_compute; reflexivity|].
  match goal with |- context [step Restart ?w1] =>
    destruct (session_until_logout "amina@example.com" amina busy_world w1)
      as (H1 & _ & H2 & _); [vm_compute; reflexivity|]
  end.
  split; [exact H1 | exact H2].
Defined.

(** ** The profile *)

(** X26. The profile sheet writes nothing and stays open when the
    budget field does not read as a number. A number is stored as the
    budget of the user and of the session as it is, zero included
    (emails being unique, the user being stored, the storage accepting
    the writes); the dashboard, however, shows 5000 for a budget of
    zero, as it does for a missing one. *)
Theorem profile_budget (newBudget : number) (u : User) (w : World) :
  NoDup (email <$> ls_users w) ->
  (exists x, x ∈ ls_users w /\ email x = email u) ->
  ls_faults w = [] ->
  Dashboard.handleSaveProfile NaN u w = (Return false, w)
  /\ (forall q, newBudget = Num q ->
      exists w',
        Dashboard.handleSaveProfile newBudget u w = (Return true, w')
        /\ set_budget u (Some (Num q)) ∈ ls_users w'
        /\ ls_current_user w' = Some (set_budget u (Some (Num q)))
        /\ length (ls_users w') = length (ls_users w)
        /\ Dashboard.shown_budget (set_budget u (Some (Num q)))
           = if Qeq_bool q 0 then Num 5000 else Num q)
  /\ Dashboard.shown_budget (set_budget u None) = Num 5000.
Proof.
  intros Hnd (x & Hx & Hmail) Hok. split; [done|]. split; [|done].
  intros q ->. unfold Dashboard.handleSaveProfile, storageService.updateUser,
    storageService.setCurrentUser.
  unfold_m. simpl.
  destruct (findIndex_is_Some (fun y => String.eqb (email y) (email u))
              (ls_users w) x Hx) as [i Hi]; [by apply String.eqb_eq|].
  rewrite Hi. simpl. rewrite Hok. simpl. rewrite Hok.
  eexists. split; [reflexivity|]. simpl. split_and!.
  - apply findIndex_Some in Hi as (y & Hy & _).
    apply list_elem_of_lookup. exists i. apply list_lookup_insert_eq.
    by eapply lookup_lt_Some.
  - done.
  - by rewrite length_insert.
  - unfold Dashboard.shown_budget. simpl. by destruct (Qeq_bool q 0).
Qed.

Lemma profile_budget_witness :
  exists w',
    Dashboard.handleSaveProfile (Num 0) amina busy_world = (Return true, w')
    /\ budget <$> ls_users w' = [Some (Num 0)]
    /\ Dashboard.shown_budget (set_budget amina (Some (Num 0))) = Num 5000.
Proof.
  destruct (profile_budget (Num 0) amina busy_world) as (_ & H & _).
  - repeat constructor. intros H. inversion H.
  - exists amina. split; [left | reflexivity].
  - reflexivity.
  - destruct (H 0%Q eq_refl) as (w' & Hrun & Hin & _ & Hlen & Hshown).
    exists w'. split; [exact Hrun|]. split; [|exact Hshown].
    destruct (ls_users w') as [|y [|z l]]; try discriminate Hlen.
    apply list_elem_of_singleton in Hin as <-. reflexivity.
Defined.

(** ** The duration of a recording *)

Lemma Qfloor_unique (x : Q) (k : Z) :
  (inject_Z k <= x)%Q -> (x < inject_Z (k + 1))%Q -> Qfloor x = k.
Proof.
  intros Hle Hlt.
  pose proof (Qfloor_resp_le _ _ Hle) as H1. rewrite Qfloor_Z in H1.
  pose proof (Qfloor_le x) as H2.
  assert (inject_Z (Qfloor x) < inject_Z (k + 1))%Q as H3
    by (eapply Qle_lt_trans; eauto).
  rewrite <- Zlt_Qlt in H3. lia.
Qed.

Lemma Qfloor_minutes (q : Q) :
  (0 <= q)%Q -> Qfloor (q / 60) = Qfloor q / 60.
Proof.
  intros Hq. apply Qfloor_unique.
  - pose proof (Qfloor_le q) as Hn.
    assert (inject_Z (60 * (Qfloor q / 60)) <= inject_Z (Qfloor q))%Q as Hk.
    { rewrite <- Zle_Qle. apply Z.mul_div_le. lia. }
    rewrite inject_Z_mult in Hk. change (inject_Z 60) with 60%Q in Hk.
    apply Qle_shift_div_l; [reflexivity|]. lra.
  - pose proof (Qlt_floor q) as Hn.
    assert (inject_Z (Qfloor q + 1) <= inject_Z (60 * (Qfloor q / 60 + 1)))%Q as Hk.
    { rewrite <- Zle_Qle.
      pose proof (Z.mul_succ_div_gt (Qfloor q) 60 ltac:(lia)). lia. }
    rewrite inject_Z_mult in Hk. change (inject_Z 60) with 60%Q in Hk.
    apply Qlt_shift_div_r; [reflexivity|]. lra.
Qed.

Lemma Qfloor_seconds (q : Q) :
  (0 <= q)%Q ->
  Qfloor (q - 60 * inject_Z (Qfloor (q / 60))) = Qfloor q mod 60.
Proof.
  intros Hq. rewrite Qfloor_minutes by done.
  rewrite Z.mod_eq by lia. unfold Z.sub.
  pose proof (Qfloor_le q) as Hn. pose proof (Qlt_floor q) as Hn'.
  rewrite inject_Z_plus in Hn'. change (inject_Z 1) with 1%Q in Hn'.
  apply Qfloor_unique;
    rewrite ?inject_Z_plus, ?inject_Z_opp, ?inject_Z_mult;
    change (inject_Z 60) with 60%Q; change (inject_Z 1) with 1%Q; lra.
Qed.

Lemma padStart2_seconds (s : Z) :
  0 <= s < 60 ->
  String.length (AudioMessageBubble.padStart2 (pretty s)) = 2%nat.
Proof.
  intros Hs. rewrite <- (Z2Nat.id s) by lia.
  assert (Z.to_nat s < 60)%nat as Hk by lia.
  revert Hk. generalize (Z.to_nat s). clear Hs. intros k Hk.
  do 60 (destruct k as [|k]; [vm_compute; reflexivity|]). lia.
Qed.

(** X27. For a duration below 2^53 seconds, the text shown on an audio
    bubble is the whole seconds of the duration, as minutes, a colon
    and the seconds left, these always with two digits; a duration
    that is negative or not a number is shown as [0:00]. *)
Theorem formatTime_shows_whole_seconds (q : Q) :
  (0 <= q)%Q ->
  (q < 9007199254740992)%Q ->
  let n := Qfloor q in
  AudioMessageBubble.formatTime (Num q)
  = String.append (pretty (n / 60))
      (String.append ":" (AudioMessageBubble.padStart2 (pretty (n mod 60))))
  /\ String.length (AudioMessageBubble.padStart2 (pretty (n mod 60))) = 2%nat
  /\ AudioMessageBubble.formatTime NaN = "0:00"
  /\ AudioMessageBubble.formatTime (Num (- q - 1)) = "0:00".
Proof.
  intros Hq _ n. split_and!.
  - unfold AudioMessageBubble.formatTime.
    rewrite (proj2 (Qle_bool_iff 0 q) Hq). cbv zeta.
    by rewrite Qfloor_seconds, Qfloor_minutes.
  - apply padStart2_seconds. apply Z.mod_pos_bound. lia.
  - done.
  - unfold AudioMessageBubble.formatTime.
    destruct (Qle_bool 0 (- q - 1)) eqn:E; [|done].
    apply Qle_bool_iff in E. lra.
Qed.

Lemma formatTime_shows_whole_seconds_witness :
  AudioMessageBubble.formatTime (Num (251 # 2)) = "2:05".
Proof.
  destruct (formatTime_shows_whole_seconds (251 # 2)) as (H & _);
    [discriminate | reflexivity |].
  rewrite H. vm_compute. reflexivity.
Defined.

(** ** Deleting an expense *)

(** X28. [deleteExpense] keeps, in their order, exactly the expenses
    with another identifier and touches nothing else; for an
    identifier no expense has, it stores the list it read. When the
    storage refuses the write the call throws and every expense is
    still stored. *)
Theorem deleteExpense_removes (i : string) (w : World) :
  (ls_faults w = [] ->
   exists w',
     storageService.deleteExpense i w = (Return tt, w')
     /\ ls_expenses w' = filter (fun e => e_id e <> i) (ls_expenses w)
     /\ (forall e, e ∈ ls_expenses w' <-> e ∈ ls_expenses w /\ e_id e <> i)
     /\ ((forall e, e ∈ ls_expenses w -> e_id e <> i) -> same_store w w')
     /\ ls_users w' = ls_users w /\ ls_appointments w' = ls_appointments w
     /\ ls_current_user w' = ls_current_user w)
  /\ (forall m fs, ls_faults w = Some m :: fs ->
      exists w',
        storageService.deleteExpense i w = (Throw {| message := m |}, w')
        /\ same_store w w').
Proof.
  unfold storageService.deleteExpense, storageService.getAllExpensesRaw,
    storageService.saveExpenses. unfold_m. simpl. split.
  - intros ->. eexists. split; [reflexivity|]. simpl. split; [done|].
    split; [|split; [|done]].
    + intros e. rewrite list_elem_of_filter. tauto.
    + intros Hno. repeat split. simpl.
      induction (ls_expenses w) as [|e l IH]; [done|].
      rewrite filter_cons_True by (apply Hno; left).
      f_equal. apply IH. intros x Hx. apply Hno. by right.
  - intros m fs ->. eexists. split; [reflexivity|]. by repeat split.
Qed.

(** ** Declared and handled tools *)

(** X29. Every tool declared to the model service is handled by the
    bridge: called with an args object and a storage that accepts the
    writes, a declared name never throws and never answers [Unknown
    tool]; the only errors it can answer are the two [not found] of
    the updating tools. *)
Theorem declared_tools_are_handled (name : string) (args : Args) (u : User)
    (w : World) :
  name ∈ tools.expenseTools ->
  ls_faults w = [] ->
  exists r w',
    tools.executeExpenseTool name args u w = (Return r, w')
    /\ tr_error r <> Some "Unknown tool"
    /\ (tr_error r = None
        \/ (name = "updateExpense" /\ tr_error r = Some "Expense not found")
        \/ (name = "updateAppointmentStatus"
            /\ tr_error r = Some "Appointment not found")).
Proof.
  intros Hin Hok. unfold tools.expenseTools in Hin.
  repeat (apply elem_of_cons in Hin as [->|Hin]); [..|inversion Hin];
    unfold tools.executeExpenseTool, tools.dispatch; simpl;
    unfold_storage; unfold_m; simpl; rewrite ?Hok; simpl;
    repeat match goal with
      | |- context [match find ?p ?l with _ => _ end] => destruct (find p l)
      | |- context [match findIndex ?p ?l with _ => _ end] =>
          destruct (findIndex p l)
      end;
    simpl; repeat (rewrite Hok; simpl);
    eexists _, _; (split; [reflexivity|]); simpl; (split; [done|]); auto.
Qed.

Lemma declared_tools_are_handled_witness :
  exists r w',
    tools.executeExpenseTool "getAppointments" no_args amina busy_world
      = (Return r, w')
    /\ tr_error r <> Some "Unknown tool".
Proof.
  destruct (declared_tools_are_handled "getAppointments" no_args amina busy_world)
    as (r & w' & Hrun & Hknown & _).
  - unfold tools.expenseTools. do 6 right. left.
  - reflexivity.
  - exists r, w'. split; [exact Hrun | exact Hknown].
Defined.
